(** * Checkout validation and totals of the outdoor-gear store prototype

    A shallow embedding of the page scripts [js/common.js], [cart.js],
    [js/shipping.js] and [validation.js], and the properties their
    specification states about them.

    - JavaScript strings are sequences of UTF-16 code units: [list N].
    - JavaScript numbers are IEEE 754 binary64 values: the Standard Library's
      [spec_float] with [prec = 53] and [emax = 1024], the specification the
      kernel's primitive floats are bound to.
    - [localStorage] is a finite map from strings to strings (stdpp's [gmap]).
    - Code that can throw returns a [completion]. *)

From stdpp Require Import base option list gmap.
From Stdlib Require Import ZArith NArith Bool Ascii String Lia.
From Stdlib Require Import Floats.SpecFloat.

Local Open Scope Z_scope.
Set Warnings "-register-all".

(** ** JavaScript strings *)

Module JsString.

(** A string is the list of its UTF-16 code units. *)
Abbreviation t := (list N).

(** Literals are written as ASCII text. *)
Fixpoint str (s : string) : t :=
  match s with
  | EmptyString => []
  | String c r => N_of_ascii c :: str r
  end.

Definition in_range (lo hi c : N) : bool := (lo <=? c)%N && (c <=? hi)%N.

(** [\d]: the ASCII decimal digits only. *)
Definition is_digit (c : N) : bool := in_range 48 57 c.

(** [\s], which is also what [trim] removes: ECMAScript WhiteSpace and
    LineTerminator code points. *)
Definition is_space (c : N) : bool :=
  in_range 9 13 c || (c =? 32)%N || (c =? 160)%N || (c =? 5760)%N
  || in_range 8192 8202 c || (c =? 8232)%N || (c =? 8233)%N
  || (c =? 8239)%N || (c =? 8287)%N || (c =? 12288)%N || (c =? 65279)%N.

Definition is_lower (c : N) : bool := in_range 97 122 c.
Definition is_upper (c : N) : bool := in_range 65 90 c.
Definition is_alpha (c : N) : bool := is_lower c || is_upper c.

Fixpoint trimStart (s : t) : t :=
  match s with
  | [] => []
  | c :: r => if is_space c then trimStart r else s
  end.

Definition trimEnd (s : t) : t := rev (trimStart (rev s)).

(** [s.trim()] *)
Definition trim (s : t) : t := trimEnd (trimStart s).

(** [s === ''] *)
Definition is_empty (s : t) : bool :=
  match s with [] => true | _ => false end.

(** [a === b] on strings *)
Definition eqb (a b : t) : bool := bool_decide (a = b).

(** [s.replace(/\D/g, '')] and the like: keep the units [keep] accepts. *)
Definition keep_only (keep : N -> bool) (s : t) : t := List.filter keep s.

(** The value of a decimal digit. *)
Definition digit_value (c : N) : Z := Z.of_N c - 48.

(** Every unit is a white-space one: the empty string included. *)
Definition blank (s : t) : bool := forallb is_space s.

End JsString.

Abbreviation jsstring := JsString.t.
Abbreviation str := JsString.str.

(** ** JavaScript numbers *)

Module JsNumber.

Abbreviation t := spec_float.

Definition prec : Z := 53.
Definition emax : Z := 1024.

Definition add : t -> t -> t := SFadd prec emax.
Definition mul : t -> t -> t := SFmul prec emax.
Definition div : t -> t -> t := SFdiv prec emax.

(** [x < y], [x > y], [x <= y]: false as soon as one side is NaN. *)
Definition lt (x y : t) : bool := SFltb x y.
Definition gt (x y : t) : bool := SFltb y x.
Definition le (x y : t) : bool := SFleb x y.

(** An integer literal. *)
Definition of_Z (z : Z) : t := binary_normalize prec emax z 0 false.

Definition zero : t := S754_zero false.
Definition NaN : t := S754_nan.

(** [Number.isFinite(x)] *)
Definition isFinite (x : t) : bool :=
  match x with
  | S754_zero _ | S754_finite _ _ _ => true
  | S754_infinity _ | S754_nan => false
  end.

(** [isNaN(x)] *)
Definition isNaN (x : t) : bool :=
  match x with S754_nan => true | _ => false end.

(** The sign bit; NaN has none. *)
Definition sign (x : t) : bool :=
  match x with
  | S754_zero s | S754_infinity s | S754_finite s _ _ => s
  | S754_nan => false
  end.

(** ToBoolean: [+0], [-0] and NaN are falsy. *)
Definition truthy (x : t) : bool :=
  match x with
  | S754_zero _ | S754_nan => false
  | _ => true
  end.

(** A finite number that is not negative (the sign bit is clear). *)
Definition finite_nonneg (x : t) : Prop :=
  isFinite x = true /\ sign x = false.

End JsNumber.

Abbreviation number := JsNumber.t.

Declare Scope js_scope.
Delimit Scope js_scope with js.
Infix "+" := JsNumber.add : js_scope.
Infix "*" := JsNumber.mul : js_scope.
Infix "/" := JsNumber.div : js_scope.

(** ** [js/common.js]: constants *)

(** [const TAX_RATE = 13 / 600;] *)
Definition TAX_RATE : number := (JsNumber.of_Z 13 / JsNumber.of_Z 600)%js.

(** ** [cart.js]: the totals of the cart page *)

(** A cart row, [{ price, qty }]. *)
Record CartRow := { price : number; qty : number }.

(** [{ subtotal, taxes, shippingCost, total }] *)
Record Totals := {
  subtotal : number;
  taxes : number;
  shippingCost : number;
  total : number
}.

Module Cart.

(** [cart.reduce((sum, row) => sum + row.price * row.qty, 0)] *)
Definition cart_subtotal (cart : list CartRow) : number :=
  fold_left (fun sum row => (sum + price row * qty row)%js) cart JsNumber.zero.

Definition calculateTotals (cart : list CartRow) (shippingCost : number) : Totals :=
  let subtotal := cart_subtotal cart in
  let taxes := (subtotal * TAX_RATE)%js in
  let total := (subtotal + taxes + shippingCost)%js in
  {| subtotal := subtotal; taxes := taxes;
     shippingCost := shippingCost; total := total |}.

End Cart.


(** ** Numeric literals in strings

    What [Number(s)], [parseFloat(s)] and [parseInt(s, 10)] read, after
    ECMAScript's StringNumericLiteral grammar. The value of a decimal literal
    is its exact rational value rounded once, to nearest even. *)

Module NumericLiteral.
Import JsString.

(** The longest prefix made of units [p] accepts, and the rest. *)
Fixpoint span (p : N -> bool) (s : jsstring) : jsstring * jsstring :=
  match s with
  | [] => ([], [])
  | c :: r =>
      if p c then let '(a, b) := span p r in (c :: a, b) else ([], s)
  end.

(** The rest of [s] after [pre], when [s] starts with it. *)
Fixpoint strip_prefix (pre s : jsstring) : option jsstring :=
  match pre, s with
  | [], _ => Some s
  | p :: pre', c :: s' => if (p =? c)%N then strip_prefix pre' s' else None
  | _ :: _, [] => None
  end.

(** The integer a run of digits denotes in a radix, the digits valued by [dv]. *)
Definition digits_value (radix : Z) (dv : N -> Z) (ds : jsstring) : Z :=
  fold_left (fun acc c => acc * radix + dv c) ds 0.

Definition decimal_value : jsstring -> Z := digits_value 10 digit_value.

Inductive literal :=
| LitInfinity
| LitDecimal (mantissa : Z) (exp10 : Z).   (* mantissa * 10 ^ exp10 *)

(** [mantissa * 10 ^ exp10], with the sign [neg], as a number. *)
Definition of_decimal (neg : bool) (mantissa exp10 : Z) : number :=
  match mantissa with
  | Z0 => S754_zero neg
  | Zpos m =>
      SFdiv JsNumber.prec JsNumber.emax
        (S754_finite neg (Z.to_pos (Zpos m * 10 ^ Z.max exp10 0)) 0)
        (S754_finite false (Z.to_pos (10 ^ Z.max (- exp10) 0)) 0)
  | Zneg _ => S754_nan
  end.

Definition to_number (neg : bool) (l : literal) : number :=
  match l with
  | LitInfinity => S754_infinity neg
  | LitDecimal m e => of_decimal neg m e
  end.

Definition is_sign (c : N) : bool := (c =? 43)%N || (c =? 45)%N.

(** An optional sign: [true] for [-]. *)
Definition scan_sign (s : jsstring) : bool * jsstring :=
  match s with
  | c :: r => if is_sign c then ((c =? 45)%N, r) else (false, s)
  | [] => (false, [])
  end.

(** ExponentPart, read only when complete: [e] or [E], a sign, digits. *)
Definition scan_exponent (s : jsstring) : Z * jsstring :=
  match s with
  | c :: r =>
      if (c =? 101)%N || (c =? 69)%N then
        let '(neg, r1) := scan_sign r in
        let '(ds, r2) := span is_digit r1 in
        match ds with
        | [] => (0, s)
        | _ => ((if neg then - decimal_value ds else decimal_value ds), r2)
        end
      else (0, s)
  | [] => (0, [])
  end.

(** The longest StrUnsignedDecimalLiteral [s] starts with. *)
Definition scan_unsigned (s : jsstring) : option (literal * jsstring) :=
  match strip_prefix (str "Infinity") s with
  | Some r => Some (LitInfinity, r)
  | None =>
      let '(ip, r1) := span is_digit s in
      match r1 with
      | c :: r2 =>
          if (c =? 46)%N then
            let '(fp, r3) := span is_digit r2 in
            match ip, fp with
            | [], [] => None
            | _, _ =>
                let '(e, r4) := scan_exponent r3 in
                Some (LitDecimal (decimal_value (ip ++ fp))
                                 (e - Z.of_nat (List.length fp)), r4)
            end
          else
            match ip with
            | [] => None
            | _ =>
                let '(e, r4) := scan_exponent r1 in
                Some (LitDecimal (decimal_value ip) e, r4)
            end
      | [] =>
          match ip with
          | [] => None
          | _ => Some (LitDecimal (decimal_value ip) 0, [])
          end
      end
  end.

(** The longest StrDecimalLiteral [s] starts with. *)
Definition scan_signed (s : jsstring) : option (bool * literal * jsstring) :=
  let '(neg, r) := scan_sign s in
  match scan_unsigned r with
  | Some (l, rest) => Some (neg, l, rest)
  | None => None
  end.

Definition hex_value (c : N) : Z :=
  if is_digit c then digit_value c
  else if in_range 97 102 c then Z.of_N c - 87
  else Z.of_N c - 55.

Definition is_hex (c : N) : bool :=
  is_digit c || in_range 97 102 c || in_range 65 70 c.

(** NonDecimalIntegerLiteral: [0x], [0o] and [0b] literals, unsigned. *)
Definition scan_nondecimal (s : jsstring) : option number :=
  match s with
  | z :: k :: ds =>
      let lit radix p dv :=
        match ds with
        | [] => None
        | _ => if forallb p ds
               then Some (JsNumber.of_Z (digits_value radix dv ds))
               else None
        end in
      if negb (z =? 48)%N then None
      else if (k =? 120)%N || (k =? 88)%N then lit 16 is_hex hex_value
      else if (k =? 111)%N || (k =? 79)%N then lit 8 (in_range 48 55) digit_value
      else if (k =? 98)%N || (k =? 66)%N then lit 2 (in_range 48 49) digit_value
      else None
  | _ => None
  end.

(** [Number(s)] on a string: the whole of [s], white space trimmed, is a
    numeric literal, or the result is NaN; the empty string is [+0]. *)
Definition Number (s : jsstring) : number :=
  match trim s with
  | [] => JsNumber.zero
  | t =>
      match scan_nondecimal t with
      | Some n => n
      | None =>
          match scan_signed t with
          | Some (neg, l, []) => to_number neg l
          | _ => JsNumber.NaN
          end
      end
  end.

(** [parseFloat(s)]: the longest decimal literal at the start of [s],
    leading white space skipped; NaN when there is none. *)
Definition parseFloat (s : jsstring) : number :=
  match scan_signed (trimStart s) with
  | Some (neg, l, _) => to_number neg l
  | None => JsNumber.NaN
  end.

(** [parseInt(s, 10)]: the integer the longest signed run of decimal digits
    at the start of [s] denotes, leading white space skipped; [None] is NaN.
    The number JavaScript returns is this integer rounded to a double;
    rounding is monotone and fixes every integer below 2^53, so a comparison
    of the result with such an integer is the comparison of the integers. *)
Definition parseInt (s : jsstring) : option Z :=
  let '(neg, r) := scan_sign (trimStart s) in
  match span is_digit r with
  | ([], _) => None
  | (ds, _) => Some (if neg then - decimal_value ds else decimal_value ds)
  end.

End NumericLiteral.

(** ** [js/common.js]: currency text *)

(** An argument that is a string, [null] or [undefined]. *)
Inductive text_arg :=
| Null
| Undefined
| Text (s : jsstring).

(** [!text] *)
Definition falsy_text (text : text_arg) : bool :=
  match text with
  | Null | Undefined => true
  | Text s => JsString.is_empty s
  end.

(** [String(text)] *)
Definition String_of (text : text_arg) : jsstring :=
  match text with
  | Null => str "null"
  | Undefined => str "undefined"
  | Text s => s
  end.

(** The units [/[^0-9.]/g] leaves in place. *)
Definition digit_or_dot (c : N) : bool := JsString.is_digit c || (c =? 46)%N.

Definition parseCurrency (text : text_arg) : number :=
  if falsy_text text then JsNumber.zero
  else
    let cleaned := JsString.keep_only digit_or_dot (String_of text) in
    let number := NumericLiteral.Number cleaned in
    if JsNumber.isFinite number then number else JsNumber.zero.

(** ** JavaScript values and [localStorage] *)

(** The values the storage helpers pass around. An object is the list of its
    own properties, in insertion order. *)
Inductive value :=
| VUndefined
| VNull
| VBool (b : bool)
| VNumber (n : number)
| VString (s : jsstring)
| VArray (items : list value)
| VObject (props : list (jsstring * value)).

Inductive exn := SyntaxError | TypeError.

(** The outcome of code that can throw. *)
Inductive completion (A : Type) :=
| Normal (a : A)
| Throw (e : exn).
Arguments Normal {A} a.
Arguments Throw {A} e.

(** ToBoolean *)
Definition truthy (v : value) : bool :=
  match v with
  | VUndefined | VNull => false
  | VBool b => b
  | VNumber n => JsNumber.truthy n
  | VString s => negb (JsString.is_empty s)
  | VArray _ | VObject _ => true
  end.

(** [props[name]] for the first property called [name]. *)
Fixpoint lookup_prop (name : jsstring) (props : list (jsstring * value)) : value :=
  match props with
  | [] => VUndefined
  | (k, v) :: rest => if JsString.eqb k name then v else lookup_prop name rest
  end.

(** [v.name] on a value that is neither [null] nor [undefined]; the stored
    values read here carry no property of their own besides an object's. *)
Definition get_prop (v : value) (name : jsstring) : value :=
  match v with
  | VObject props => lookup_prop name props
  | _ => VUndefined
  end.

(** [Number.isFinite(v)]: false on everything that is not a number. *)
Definition Number_isFinite (v : value) : bool :=
  match v with
  | VNumber n => JsNumber.isFinite n
  | _ => false
  end.

(** The object literal [{ subtotal, taxes, shippingCost, total }]. *)
Definition totals_value (t : Totals) : value :=
  VObject [ (str "subtotal", VNumber (subtotal t));
            (str "taxes", VNumber (taxes t));
            (str "shippingCost", VNumber (shippingCost t));
            (str "total", VNumber (total t)) ].

(** [const STORAGE_KEYS = { totals: ..., cart: ... }] *)
Module STORAGE_KEYS.
Definition totals : jsstring := str "cpa_totals".
Definition cart : jsstring := str "cpa_cart".
End STORAGE_KEYS.

(** [localStorage]: string keys to string values. Quota is not modelled:
    [setItem] always succeeds. *)
Abbreviation storage := (gmap jsstring jsstring).

(** The storage helpers of [js/common.js], over the two JSON built-ins. *)
Section Storage.

(** [JSON.stringify(v)]: a text, or [undefined] ([None]). *)
Variable JSON_stringify : value -> option jsstring.
(** [JSON.parse(text)]: a value, or a thrown [SyntaxError]. *)
Variable JSON_parse : jsstring -> completion value.

(** [localStorage.setItem(key, x)] stores the string form of [x]. *)
Definition setItem (st : storage) (key : jsstring) (x : option jsstring) : storage :=
  <[ key := match x with Some text => text | None => str "undefined" end ]> st.

(** [localStorage.getItem(key)]: [None] is [null]. *)
Definition getItem (st : storage) (key : jsstring) : option jsstring :=
  st !! key.

Definition saveToStorage (st : storage) (key : jsstring) (data : value) : storage :=
  setItem st key (JSON_stringify data).

Definition loadFromStorage (st : storage) (key : jsstring) (fallback : value)
  : completion value :=
  match getItem st key with
  | None => Normal fallback                        (* if (!raw) *)
  | Some raw =>
      if JsString.is_empty raw then Normal fallback  (* if (!raw) *)
      else
        match JSON_parse raw with                  (* try { ... } *)
        | Normal v => Normal v
        | Throw _ => Normal fallback               (* catch (err) *)
        end
  end.

End Storage.

(** ** [js/shipping.js]: the shipping page *)

Module Shipping.

(** A radio input of the [shippingMethod] group. *)
Record radio := {
  checked : bool;
  disabled : bool;
  data_ship_cost : option jsstring   (* the attribute; [None] when absent *)
}.

(** What the script holds and touches: the subtotal it fixed when the page
    loaded, the two radios ([#shipFree] first, [#shipNext] second, the
    members of the [shippingMethod] group), whether the label around
    [#shipNext] (when there is one) carries the class [opacity-50], the
    totals the summary panel shows, and [localStorage]. *)
Record page := {
  subtotal_ : number;
  freeRadio : radio;
  nextRadio : radio;
  nextLabelDimmed : option bool;
  summary : option Totals;
  store : storage
}.

Definition set_checked (c : bool) (r : radio) : radio :=
  {| checked := c; disabled := disabled r; data_ship_cost := data_ship_cost r |}.

Definition set_disabled (d : bool) (r : radio) : radio :=
  {| checked := checked r; disabled := d; data_ship_cost := data_ship_cost r |}.

(** [document.querySelector("input[name='shippingMethod']:checked")] *)
Definition selected (p : page) : option radio :=
  if checked (freeRadio p) then Some (freeRadio p)
  else if checked (nextRadio p) then Some (nextRadio p)
  else None.

(** [Number(raw)] on an attribute value: [null] is [+0]. *)
Definition Number_attr (raw : option jsstring) : number :=
  match raw with
  | None => JsNumber.zero
  | Some text => NumericLiteral.Number text
  end.

Definition getSelectedShippingCost (p : page) : number :=
  match selected p with
  | None => JsNumber.zero
  | Some r =>
      let cost := Number_attr (data_ship_cost r) in
      if JsNumber.isFinite cost then cost else JsNumber.zero
  end.

Definition calculateTotals (p : page) (shippingCost : number) : Totals :=
  let taxes := (subtotal_ p * TAX_RATE)%js in
  let total := (subtotal_ p + taxes + shippingCost)%js in
  {| subtotal := subtotal_ p; taxes := taxes;
     shippingCost := shippingCost; total := total |}.

(** [renderTotals] writes the four amounts into the summary panel; the
    panel is recorded by the totals it shows. *)
Definition renderTotals (p : page) (totals : Totals) : page :=
  {| subtotal_ := subtotal_ p; freeRadio := freeRadio p;
     nextRadio := nextRadio p; nextLabelDimmed := nextLabelDimmed p;
     summary := Some totals; store := store p |}.

(** [subtotal > 600] *)
Definition qualifies (p : page) : bool :=
  JsNumber.gt (subtotal_ p) (JsNumber.of_Z 600).

(** Checking a radio unchecks the other member of its group. *)
Definition enforceFreeShippingRule (p : page) : page :=
  if qualifies p then
    {| subtotal_ := subtotal_ p;
       freeRadio := set_checked true (freeRadio p);
       nextRadio := set_disabled true (set_checked false (nextRadio p));
       nextLabelDimmed := option_map (fun _ => true) (nextLabelDimmed p);
       summary := summary p; store := store p |}
  else
    {| subtotal_ := subtotal_ p;
       freeRadio := freeRadio p;
       nextRadio := set_disabled false (nextRadio p);
       nextLabelDimmed := option_map (fun _ => false) (nextLabelDimmed p);
       summary := summary p; store := store p |}.

Section Recompute.
Variable JSON_stringify : value -> option jsstring.
Variable JSON_parse : jsstring -> completion value.

Definition recompute (p : page) : page :=
  let p1 := enforceFreeShippingRule p in
  let shippingCost := getSelectedShippingCost p1 in
  let totals := calculateTotals p1 shippingCost in
  let p2 := renderTotals p1 totals in
  {| subtotal_ := subtotal_ p2; freeRadio := freeRadio p2;
     nextRadio := nextRadio p2; nextLabelDimmed := nextLabelDimmed p2;
     summary := summary p2;
     store := saveToStorage JSON_stringify (store p2)
                STORAGE_KEYS.totals (totals_value totals) |}.

(** [parseCurrency(subtotalEl.textContent) || 600] *)
Definition fallbackSubtotal (textContent : text_arg) : number :=
  let parsed := parseCurrency textContent in
  if JsNumber.truthy parsed then parsed else JsNumber.of_Z 600.

(** The subtotal the page fixes when it loads: the stored one when the
    stored totals are truthy and their [subtotal] is a finite number. *)
Definition initial_subtotal (st : storage) (textContent : text_arg)
  : completion number :=
  match loadFromStorage JSON_parse st STORAGE_KEYS.totals VNull with
  | Throw e => Throw e
  | Normal storedTotals =>
      Normal
        (if truthy storedTotals
            && Number_isFinite (get_prop storedTotals (str "subtotal"))
         then match get_prop storedTotals (str "subtotal") with
              | VNumber n => n
              | _ => JsNumber.NaN
              end
         else fallbackSubtotal textContent)
  end.

End Recompute.

End Shipping.

(** ** Regular expressions

    The patterns of [validation.js] use character classes, sequences,
    alternatives and bounded or unbounded repetition only, and [test] asks
    whether some substring matches; with both anchors that is membership of
    the whole string in the pattern's language, decided here by derivatives. *)

Module Regex.

Inductive t :=
| Never                      (* no string at all *)
| Eps                        (* the empty string *)
| Class (p : N -> bool)      (* one unit of a class *)
| Seq (a b : t)
| Alt (a b : t)
| Star (a : t).

(** One given character. *)
Definition Chr (a : ascii) : t := Class (fun c => (c =? N_of_ascii a)%N).

(** [r?] *)
Definition Opt (r : t) : t := Alt r Eps.

(** [r{n}] *)
Fixpoint Rep (n : nat) (r : t) : t :=
  match n with
  | O => Eps
  | S n' => Seq r (Rep n' r)
  end.

(** [r{0,n}] *)
Fixpoint UpTo (n : nat) (r : t) : t :=
  match n with
  | O => Eps
  | S n' => Opt (Seq r (UpTo n' r))
  end.

(** [r{m,n}] *)
Definition Range (m n : nat) (r : t) : t := Seq (Rep m r) (UpTo (n - m) r).

(** [r{m,}] *)
Definition AtLeast (m : nat) (r : t) : t := Seq (Rep m r) (Star r).

Fixpoint nullable (r : t) : bool :=
  match r with
  | Never => false
  | Eps => true
  | Class _ => false
  | Seq a b => nullable a && nullable b
  | Alt a b => nullable a || nullable b
  | Star _ => true
  end.

Fixpoint deriv (c : N) (r : t) : t :=
  match r with
  | Never | Eps => Never
  | Class p => if p c then Eps else Never
  | Seq a b =>
      if nullable a then Alt (Seq (deriv c a) b) (deriv c b)
      else Seq (deriv c a) b
  | Alt a b => Alt (deriv c a) (deriv c b)
  | Star a => Seq (deriv c a) (Star a)
  end.

(** [/^r$/.test(s)] *)
Fixpoint test (r : t) (s : jsstring) : bool :=
  match s with
  | [] => nullable r
  | c :: s' => test (deriv c r) s'
  end.

(** [/^r/.test(s)]: a prefix of [s] matches. *)
Fixpoint test_prefix (r : t) (s : jsstring) : bool :=
  nullable r ||
  match s with
  | [] => false
  | c :: s' => test_prefix (deriv c r) s'
  end.

(** The language of a pattern. *)
Inductive matches : t -> jsstring -> Prop :=
| m_eps : matches Eps []
| m_class p c : p c = true -> matches (Class p) [c]
| m_seq a b s1 s2 : matches a s1 -> matches b s2 -> matches (Seq a b) (s1 ++ s2)
| m_alt_l a b s : matches a s -> matches (Alt a b) s
| m_alt_r a b s : matches b s -> matches (Alt a b) s
| m_star_nil a : matches (Star a) []
| m_star_cons a s1 s2 :
    matches a s1 -> matches (Star a) s2 -> matches (Star a) (s1 ++ s2).

End Regex.

(** ** [validation.js]: patterns and messages *)

Module ValidationPatterns.
Import Regex JsString.

Definition digit : Regex.t := Class is_digit.
Definition space : Regex.t := Class is_space.
Definition alnum (c : N) : bool := is_alpha c || is_digit c.
Definition one_of (l : list ascii) (c : N) : bool :=
  existsb (fun a => (c =? N_of_ascii a)%N) l.

(** [/^[a-zA-Z0-9._%+-]+@[a-zA-Z0-9.-]+\.[a-zA-Z]{2,}$/] *)
Definition email : Regex.t :=
  Seq (AtLeast 1 (Class (fun c => alnum c || one_of ["."; "_"; "%"; "+"; "-"]%char c)))
 (Seq (Chr "@")
 (Seq (AtLeast 1 (Class (fun c => alnum c || one_of ["."; "-"]%char c)))
 (Seq (Chr ".")
      (AtLeast 2 (Class is_alpha))))).

Inductive country := NZ | AU | US | OtherCountry.

(** [postalCodes[country]]: [/^\d{4}$/], [/^\d{4}$/], [/^\d{5}(-\d{4})?$/] *)
Definition postalCodes (c : country) : option Regex.t :=
  match c with
  | NZ => Some (Rep 4 digit)
  | AU => Some (Rep 4 digit)
  | US => Some (Seq (Rep 5 digit) (Opt (Seq (Chr "-") (Rep 4 digit))))
  | OtherCountry => None
  end.

Definition from_2_to_9 : Regex.t := Class (in_range 50 57).

(** [phonePatterns[country]]: [/^(\+?64|0)[2-9]\d{7,9}$/],
    [/^(\+?61|0)[2-9]\d{8}$/], [/^(\+?1)?[2-9]\d{2}[2-9]\d{6}$/] *)
Definition phonePatterns (c : country) : option Regex.t :=
  match c with
  | NZ => Some (Seq (Alt (Seq (Opt (Chr "+")) (Seq (Chr "6") (Chr "4"))) (Chr "0"))
               (Seq from_2_to_9 (Range 7 9 digit)))
  | AU => Some (Seq (Alt (Seq (Opt (Chr "+")) (Seq (Chr "6") (Chr "1"))) (Chr "0"))
               (Seq from_2_to_9 (Rep 8 digit)))
  | US => Some (Seq (Opt (Seq (Opt (Chr "+")) (Chr "1")))
               (Seq from_2_to_9 (Seq (Rep 2 digit)
               (Seq from_2_to_9 (Rep 6 digit)))))
  | OtherCountry => None
  end.

(** [/^[\d\s\-\+\(\)]{8,20}$/] *)
Definition phone : Regex.t :=
  Range 8 20
    (Class (fun c => is_digit c || is_space c || one_of ["-"; "+"; "("; ")"]%char c)).

(** [/^[A-Za-zÀ-ÿ\s\-']{2,50}$/], the range [À-ÿ] being U+00C0 to U+00FF. *)
Definition name : Regex.t :=
  Range 2 50
    (Class (fun c => is_alpha c || in_range 192 255 c || is_space c
                     || one_of ["-"; "'"]%char c)).

(** [/^[\d\s]{13,23}$/] *)
Definition cardNumber : Regex.t :=
  Range 13 23 (Class (fun c => is_digit c || is_space c)).

(** [/^(0[1-9]|1[0-2])\s?\/\s?\d{2}$/] *)
Definition cardExpiry : Regex.t :=
  Seq (Alt (Seq (Chr "0") (Class (in_range 49 57)))
           (Seq (Chr "1") (Class (in_range 48 50))))
 (Seq (Opt space) (Seq (Chr "/") (Seq (Opt space) (Rep 2 digit)))).

(** [/^\d{3,4}$/] *)
Definition cvv : Regex.t := Range 3 4 digit.

(** [/^\d+(\.\d{0,2})?$/] *)
Definition currency : Regex.t :=
  Seq (AtLeast 1 digit) (Opt (Seq (Chr ".") (Range 0 2 digit))).

(** [/^[1-9]\d*$/] *)
Definition quantity : Regex.t := Seq (Class (in_range 49 57)) (Star digit).

End ValidationPatterns.

Module ErrorMessages.
Import ValidationPatterns.
Local Open Scope string_scope.

Definition required := "This field is required".
Definition firstName := "Please enter a valid first name (2-50 letters)".
Definition lastName := "Please enter a valid last name (2-50 letters)".
Definition email := "Please enter a valid email address (e.g., name@example.com)".
Definition phone_default := "Please enter a valid phone number".
(** [ErrorMessages.phone[country] || ErrorMessages.phone.default] *)
Definition phone (c : country) :=
  match c with
  | NZ => "Please enter a valid NZ phone number (e.g., 021 123 4567 or +64 21 123 4567)"
  | AU => "Please enter a valid AU phone number"
  | US => "Please enter a valid US phone number"
  | OtherCountry => phone_default
  end.
Definition postalCode_default := "Please enter a valid postal code".
(** [ErrorMessages.postalCode[country] || ErrorMessages.postalCode.default] *)
Definition postalCode (c : country) :=
  match c with
  | NZ => "Please enter a valid NZ postal code (4 digits, e.g., 1010)"
  | AU => "Please enter a valid AU postal code (4 digits)"
  | US => "Please enter a valid US ZIP code (e.g., 12345 or 12345-6789)"
  | OtherCountry => postalCode_default
  end.
Definition address := "Please enter a valid address (minimum 5 characters)".
Definition city := "Please enter a valid city name".
Definition country := "Please select a country".
Definition cardNumber := "Please enter a valid card number (13-19 digits)".
Definition cardExpiry := "Please enter a valid expiry date (MM/YY)".
Definition cardExpiryPast := "Card has expired. Please use a valid card".
Definition cvv := "Please enter a valid CVV (3-4 digits on back of card)".
Definition cardHolder := "Please enter the cardholder name as shown on card".
Definition currency := "Please enter a valid positive amount".
Definition quantity := "Please enter a valid quantity (1 or more)".
Definition quantityMax := "Maximum quantity is 99".

End ErrorMessages.

(** ** [validation.js]: the field validators *)

(** [{ valid, message }] *)
Record ValidationResult := { valid : bool; message : string }.

(** [{ valid: false, message }] *)
Definition invalid (msg : string) : ValidationResult :=
  {| valid := false; message := msg |}.

(** [{ valid: true, message: '' }] *)
Definition ok : ValidationResult :=
  {| valid := true; message := EmptyString |}.

(** [{ valid: isValid, message: isValid ? '' : msg }] *)
Definition verdict (isValid : bool) (msg : string) : ValidationResult :=
  {| valid := isValid; message := if isValid then EmptyString else msg |}.

(** [new Date()], as far as the validators read it. *)
Record Date := {
  getFullYear : Z;
  getMonth : Z       (* 0 for January *)
}.

Inductive nameField := firstName | lastName | cardHolder.

Inductive cardType := visa | mastercard | amex | discover | unknown.

Module Validation.
Import JsString ValidationPatterns.

(** [!x || x.trim() === ''] on a string [x] *)
Definition missing (x : jsstring) : bool :=
  is_empty x || is_empty (trim x).

Definition stripNonDigits (value : jsstring) : jsstring :=
  keep_only is_digit value.

(** [toUpperCase()]: the ASCII letters; the case mapping of the other code
    points, which never yields a digit or a hyphen, is left out. *)
Definition toUpperCase (s : jsstring) : jsstring :=
  map (fun c => if is_lower c then (c - 32)%N else c) s.

(** [s.split(sep)] for a one-unit separator. *)
Fixpoint split (sep : N) (s : jsstring) : list jsstring :=
  match s with
  | [] => [[]]
  | c :: r =>
      if (c =? sep)%N then [] :: split sep r
      else match split sep r with
           | [] => [[c]]
           | p :: ps => (c :: p) :: ps
           end
  end.

(** [parts[i]], [undefined] past the end. *)
Definition part (parts : list jsstring) (i : nat) : text_arg :=
  match nth_error parts i with
  | Some x => Text x
  | None => Undefined
  end.

Definition validateEmail (email : jsstring) : ValidationResult :=
  if missing email then invalid ErrorMessages.required
  else
    let isValid := Regex.test ValidationPatterns.email (trim email) in
    verdict isValid ErrorMessages.email.

(** [ErrorMessages[fieldType] || ErrorMessages.firstName] *)
Definition name_message (fieldType : nameField) : string :=
  match fieldType with
  | firstName => ErrorMessages.firstName
  | lastName => ErrorMessages.lastName
  | cardHolder => ErrorMessages.cardHolder
  end.

Definition validateName (name : jsstring) (fieldType : nameField) : ValidationResult :=
  if missing name then invalid ErrorMessages.required
  else
    let isValid := Regex.test ValidationPatterns.name (trim name) in
    verdict isValid (name_message fieldType).

Definition validatePhone (phone : jsstring) (country : country) : ValidationResult :=
  if missing phone then invalid ErrorMessages.required
  else
    let cleanPhone :=
      keep_only (fun c => negb (is_space c || one_of ["-"; "("; ")"]%char c)) phone in
    let pattern :=
      match phonePatterns country with
      | Some p => p
      | None => ValidationPatterns.phone
      end in
    let isValid := Regex.test pattern cleanPhone in
    verdict isValid (ErrorMessages.phone country).

Definition validatePostalCode (postalCode : jsstring) (country : country)
  : ValidationResult :=
  if missing postalCode then invalid ErrorMessages.required
  else
    let cleanCode := toUpperCase (trim postalCode) in
    match postalCodes country with
    | None => ok
    | Some pattern =>
        let isValid := Regex.test pattern cleanCode in
        verdict isValid (ErrorMessages.postalCode country)
    end.

Definition validateAddress (address : jsstring) : ValidationResult :=
  if missing address then invalid ErrorMessages.required
  else
    let isValid := (5 <=? Z.of_nat (List.length (trim address))) in
    verdict isValid ErrorMessages.address.

Definition validateCity (city : jsstring) : ValidationResult :=
  if missing city then invalid ErrorMessages.required
  else
    let isValid := Regex.test ValidationPatterns.name (trim city) in
    verdict isValid ErrorMessages.city.

(** One turn of the checksum loop on the unit [digits[i]]. *)
Definition luhn_step (state : Z * bool) (c : N) : Z * bool :=
  let '(sum, isEven) := state in
  let digit := digit_value c in            (* parseInt(digits[i], 10) *)
  let digit :=
    if isEven then
      let doubled := digit * 2 in
      if 9 <? doubled then doubled - 9 else doubled
    else digit in
  (sum + digit, negb isEven).

(** [for (let i = digits.length - 1; i >= 0; i--)], from [sum = 0] and
    [isEven = false]. *)
Definition luhn_loop (digits : jsstring) : Z * bool :=
  fold_left luhn_step (rev digits) (0, false).

Definition validateCardNumber (cardNumber : jsstring) : ValidationResult :=
  if missing cardNumber then invalid ErrorMessages.required
  else
    let digits := stripNonDigits cardNumber in
    let len := Z.of_nat (List.length digits) in
    if (len <? 13) || (19 <? len) then invalid ErrorMessages.cardNumber
    else
      let sum := fst (luhn_loop digits) in
      let isValid := (Z.rem sum 10 =? 0) in
      verdict isValid ErrorMessages.cardNumber.

(** [/^4/], [/^5[1-5]/], [/^2[2-7]/], [/^3[47]/], [/^6(?:011|5)/] *)
Definition detectCardType (cardNumber : jsstring) : cardType :=
  let digits := stripNonDigits cardNumber in
  let starts r := Regex.test_prefix r digits in
  if starts (Regex.Chr "4") then visa
  else if starts (Regex.Seq (Regex.Chr "5") (Regex.Class (in_range 49 53)))
       || starts (Regex.Seq (Regex.Chr "2") (Regex.Class (in_range 50 55)))
  then mastercard
  else if starts (Regex.Seq (Regex.Chr "3") (Regex.Class (one_of ["4"; "7"]%char)))
  then amex
  else if starts (Regex.Seq (Regex.Chr "6")
                    (Regex.Alt (Regex.Seq (Regex.Chr "0")
                                  (Regex.Seq (Regex.Chr "1") (Regex.Chr "1")))
                               (Regex.Chr "5")))
  then discover
  else unknown.

(** [a < b] on the results of [parseInt]: false when one is NaN. *)
Definition int_lt (a b : option Z) : bool :=
  match a, b with
  | Some x, Some y => x <? y
  | _, _ => false
  end.

(** [a === b] on the results of [parseInt]: NaN equals nothing. *)
Definition int_eq (a b : option Z) : bool :=
  match a, b with
  | Some x, Some y => x =? y
  | _, _ => false
  end.

(** [now] is the value of [new Date()] at the call. *)
Definition validateCardExpiry (now : Date) (expiry : jsstring) : ValidationResult :=
  if missing expiry then invalid ErrorMessages.required
  else if negb (Regex.test ValidationPatterns.cardExpiry expiry)
  then invalid ErrorMessages.cardExpiry
  else
    let parts := split 47 (keep_only (fun c => negb (is_space c)) expiry) in
    let month := NumericLiteral.parseInt (String_of (part parts 0)) in
    let year := NumericLiteral.parseInt (str "20" ++ String_of (part parts 1)) in
    let currentYear := Some (getFullYear now) in
    let currentMonth := Some (getMonth now + 1) in
    if int_lt year currentYear
       || (int_eq year currentYear && int_lt month currentMonth)
    then invalid ErrorMessages.cardExpiryPast
    else if int_lt (Some (getFullYear now + 10)) year
    then invalid ErrorMessages.cardExpiry
    else ok.

Definition validateCVV (cvv : jsstring) (cardType : cardType) : ValidationResult :=
  if missing cvv then invalid ErrorMessages.required
  else
    let digits := stripNonDigits cvv in
    let expectedLength := match cardType with amex => 4 | _ => 3 end in
    let len := Z.of_nat (List.length digits) in
    let isValid :=
      (3 <=? len) && (len <=? 4)
      && Regex.test (Regex.AtLeast 1 digit) digits in
    verdict isValid ErrorMessages.cvv.

(** [amount === '' || amount === null || amount === undefined] *)
Definition absent (x : text_arg) : bool :=
  match x with
  | Null | Undefined => true
  | Text s => is_empty s
  end.

Definition validateCurrency (amount : text_arg) : ValidationResult :=
  if absent amount then invalid ErrorMessages.required
  else
    let value := NumericLiteral.parseFloat (String_of amount) in
    if JsNumber.isNaN value || JsNumber.lt value JsNumber.zero
    then invalid ErrorMessages.currency
    else ok.

Definition validateQuantity (quantity : text_arg) : ValidationResult :=
  if absent quantity then invalid ErrorMessages.required
  else
    match NumericLiteral.parseInt (String_of quantity) with
    | None => invalid ErrorMessages.quantity               (* isNaN(value) *)
    | Some value =>
        if value <? 1 then invalid ErrorMessages.quantity
        else if 99 <? value then invalid ErrorMessages.quantityMax
        else ok
    end.

End Validation.

(** ** [validation.js]: fields, error display and whole-form validation *)

Module Form.
Import JsString Validation.

(** The element with the class [error-message] that goes with a field. *)
Record span := {
  span_id : jsstring;
  textContent : string;
  span_classList : gset jsstring
}.

(** A form control, as far as the scripts read and write it. [errorSpan] is
    what [input.parentElement.querySelector('.error-message') ||
    input.closest('div').querySelector('.error-message')] finds, the field
    lying inside a [div]. *)
Record element := {
  id : jsstring;
  value : jsstring;
  type : jsstring;
  disabled : bool;
  required : bool;                         (* hasAttribute('required') *)
  classList : gset jsstring;
  aria_invalid : option jsstring;
  aria_describedby : option jsstring;
  errorSpan : option span
}.

Definition with_display (e : element) (classes : gset jsstring)
    (invalid : option jsstring) (describedby : option jsstring)
    (sp : option span) : element :=
  {| id := id e; value := value e; type := type e; disabled := disabled e;
     required := required e; classList := classes; aria_invalid := invalid;
     aria_describedby := describedby; errorSpan := sp |}.

Definition showFieldError (input : element) (message : string) : element :=
  let sp :=
    match errorSpan input with
    | Some sp0 =>
        Some {| span_id := span_id sp0; textContent := message;
                span_classList := span_classList sp0 ∖ {[ str "hidden" ]} |}
    | None => None
    end in
  let classes :=
    (classList input ∪ {[ str "border-red-500" ]})
      ∖ {[ str "border-brand-green-dark" ]} in
  let describedby :=
    match errorSpan input with
    | Some sp0 =>
        if is_empty (span_id sp0) then aria_describedby input
        else Some (span_id sp0)
    | None => aria_describedby input
    end in
  with_display input classes (Some (str "true")) describedby sp.

Definition clearFieldError (input : element) : element :=
  let sp :=
    match errorSpan input with
    | Some sp0 =>
        Some {| span_id := span_id sp0; textContent := EmptyString;
                span_classList := span_classList sp0 ∪ {[ str "hidden" ]} |}
    | None => None
    end in
  let classes :=
    (classList input ∖ {[ str "border-red-500" ]})
      ∪ {[ str "border-brand-green-dark" ]} in
  with_display input classes (Some (str "false")) None sp.

(** [document.getElementById(name)] among the controls of the page. *)
Definition getElementById (document : list element) (name : jsstring)
  : option element :=
  List.find (fun e => JsString.eqb (id e) name) document.

(** The country a code stands for in the pattern and message tables. *)
Definition country_of (code : jsstring) : ValidationPatterns.country :=
  if JsString.eqb code (str "NZ") then ValidationPatterns.NZ
  else if JsString.eqb code (str "AU") then ValidationPatterns.AU
  else if JsString.eqb code (str "US") then ValidationPatterns.US
  else ValidationPatterns.OtherCountry.

(** [switch (id)] *)
Definition validateField (now : Date) (document : list element)
    (input : element) (country : jsstring) : ValidationResult :=
  let named name := JsString.eqb (id input) name in
  let value := value input in
  if named (str "firstName") then validateName value firstName
  else if named (str "lastName") then validateName value lastName
  else if named (str "email") then validateEmail value
  else if named (str "phone") then validatePhone value (country_of country)
  else if named (str "postalCode") then validatePostalCode value (country_of country)
  else if named (str "address1") then validateAddress value
  else if named (str "city") then validateCity value
  else if named (str "country") then
    if is_empty value then invalid ErrorMessages.country else ok
  else if named (str "cardNumber") then validateCardNumber value
  else if named (str "expiry") then validateCardExpiry now value
  else if named (str "cvv") then
    let number :=
      match getElementById document (str "cardNumber") with
      | Some e => if is_empty (Form.value e) then [] else Form.value e
      | None => []
      end in
    validateCVV value (detectCardType number)
  else if named (str "cardHolder") then validateName value cardHolder
  else if required input && missing value then invalid ErrorMessages.required
  else ok.

(** [input.disabled || input.type === 'hidden'] *)
Definition skipped (input : element) : bool :=
  disabled input || JsString.eqb (type input) (str "hidden").

(** What the loop of [validateForm] has done so far: the inputs as it left
    them, [isValid], and the position of [firstInvalidField]. *)
Record progress := {
  done : list element;
  isValid : bool;
  firstInvalidField : option nat
}.

Definition validate_one (now : Date) (document : list element)
    (country : jsstring) (acc : progress) (input : element) : progress :=
  if skipped input then
    {| done := done acc ++ [input]; isValid := isValid acc;
       firstInvalidField := firstInvalidField acc |}
  else
    let result := validateField now document input country in
    if valid result then
      {| done := done acc ++ [clearFieldError input]; isValid := isValid acc;
         firstInvalidField := firstInvalidField acc |}
    else
      {| done := done acc ++ [showFieldError input (message result)];
         isValid := false;
         firstInvalidField :=
           match firstInvalidField acc with
           | Some i => Some i
           | None => Some (List.length (done acc))
           end |}.

(** [validateForm(form, { getCountry })] on the controls
    [form.querySelectorAll(...)] selects, in document order. The result
    holds the controls afterwards, the value returned and the control that
    received the focus. *)
Definition validateForm (now : Date) (document : list element)
    (inputs : list element) (country : jsstring) : progress :=
  fold_left (validate_one now document country) inputs
    {| done := []; isValid := true; firstInvalidField := None |}.

(** The [blur] handler of [setupRealTimeValidation]. *)
Definition on_blur (now : Date) (document : list element)
    (country : jsstring) (input : element) : element :=
  let result := validateField now document input country in
  if valid result then clearFieldError input
  else showFieldError input (message result).

End Form.

(** ** Integers as text *)

Module Decimal.

(** The decimal digits of [n] in front of [acc], most significant first;
    [fuel] bounds the number of digits. *)
Fixpoint digits (fuel : nat) (n : N) (acc : jsstring) : jsstring :=
  match fuel with
  | O => acc
  | S fuel' =>
      let acc' := (48 + n mod 10)%N :: acc in
      if (n <? 10)%N then acc' else digits fuel' (n / 10)%N acc'
  end.

(** [String(n)] for an integer [n >= 0] below 10^21, which JavaScript
    writes in plain decimal digits. *)
Definition to_string (n : Z) : jsstring :=
  digits (S (N.to_nat (N.log2 (Z.to_N n)))) (Z.to_N n) [].

(** [text.padStart(2, '0')] *)
Definition padStart2 (text : jsstring) : jsstring :=
  match text with
  | [] => str "00"
  | [c] => [48%N; c]
  | _ => text
  end.

End Decimal.

(** ** [home.js]: the countdown of the limited offer

    Times are [Date.now()] readings: whole milliseconds, far below 2^53 and
    so exact as numbers; they are modelled by integers. *)

Module Countdown.

(** [const COUNTDOWN_KEY = 'aag_countdown_end'] *)
Definition COUNTDOWN_KEY : jsstring := str "aag_countdown_end".

(** [const COUNTDOWN_DURATION = 24 * 60 * 60 * 1000] *)
Definition COUNTDOWN_DURATION : Z := 24 * 60 * 60 * 1000.

(** [Number.MAX_SAFE_INTEGER], 2^53 - 1: up to it the integers are numbers
    of JavaScript and the sums, differences, floored quotients and remainders
    of the timer are those of the integers. The readings of [Date.now()]
    are integers far below it. *)
Definition MAX_SAFE_INTEGER : Z := 9007199254740991.

(** The [localStorage] of the page: [None] when the browser refuses access
    and every use of it throws. *)
Abbreviation local_storage := (option storage).

(** [resetCountdown()], [now] being its reading of the clock. The write is
    inside a [try]: without storage only the new end time is returned. *)
Definition resetCountdown (ls : local_storage) (now : Z) : Z * local_storage :=
  let newEndTime := now + COUNTDOWN_DURATION in
  (newEndTime,
   match ls with
   | Some st => Some (<[ COUNTDOWN_KEY := Decimal.to_string newEndTime ]> st)
   | None => None
   end).

(** [getCountdownEndTime()]: [now] is the clock when the stored end time is
    compared, [later] the clock when [resetCountdown] runs. *)
Definition getCountdownEndTime (ls : local_storage) (now later : Z)
  : Z * local_storage :=
  match ls with
  | Some st =>
      match st !! COUNTDOWN_KEY with
      | Some stored =>
          if JsString.is_empty stored then resetCountdown ls later
          else
            match NumericLiteral.parseInt stored with
            | Some endTime =>
                if now <? endTime then (endTime, ls)
                else resetCountdown ls later
            | None => resetCountdown ls later
            end
      | None => resetCountdown ls later
      end
  | None => resetCountdown ls later          (* catch (e) *)
  end.

(** The hours, minutes and seconds [updateTimer] computes from the time
    remaining: [Math.floor] of the quotients, [%] being the remainder. *)
Definition hours (remaining : Z) : Z := remaining / (1000 * 60 * 60).
Definition minutes (remaining : Z) : Z :=
  Z.rem remaining (1000 * 60 * 60) / (1000 * 60).
Definition seconds (remaining : Z) : Z :=
  Z.rem remaining (1000 * 60) / 1000.

(** [String(n).padStart(2, '0')] *)
Definition two_places (n : Z) : jsstring :=
  Decimal.padStart2 (Decimal.to_string n).

(** What the three elements of the timer show. *)
Record display := { countHours : jsstring; countMinutes : jsstring;
                    countSeconds : jsstring }.

(** One run of [updateTimer] at the clock reading [now], with [later] the
    reading of [resetCountdown] when the time is up: the end time it keeps,
    the storage, what is shown and whether the pulse class was added. *)
Definition updateTimer (endTime : Z) (ls : local_storage) (now later : Z)
  : Z * local_storage * display * bool :=
  let remaining := endTime - now in
  if remaining <=? 0 then
    let '(endTime', ls') := resetCountdown ls later in
    (endTime', ls',
     {| countHours := str "00"; countMinutes := str "00";
        countSeconds := str "00" |}, false)
  else
    (endTime, ls,
     {| countHours := two_places (hours remaining);
        countMinutes := two_places (minutes remaining);
        countSeconds := two_places (seconds remaining) |},
     remaining <? 60 * 60 * 1000).

End Countdown.

(** ** The page controllers of [validation.js] *)

Module Pages.

(** [localStorage.removeItem(key)] *)
Definition removeItem (st : storage) (key : jsstring) : storage :=
  delete key st.

(** The part of [showPaymentSuccess] that empties the checkout state. *)
Definition clear_checkout (st : storage) : storage :=
  removeItem
    (removeItem (removeItem st STORAGE_KEYS.totals) STORAGE_KEYS.cart)
    (str "cpa_shipping").

(** A page with a form: its controls, the store, the success overlays on
    top of the page and the address the window was sent to, if any. *)
Record page := {
  inputs : list Form.element;
  store : storage;
  overlays : nat;
  navigated : option jsstring
}.

Definition showPaymentSuccess (p : page) : page :=
  {| inputs := inputs p; store := clear_checkout (store p);
     overlays := S (overlays p); navigated := navigated p |}.


(** [countrySelect?.value || 'NZ'] *)
Definition getCountry (document : list Form.element) : jsstring :=
  match Form.getElementById document (str "country") with
  | Some e => if JsString.is_empty (Form.value e) then str "NZ" else Form.value e
  | None => str "NZ"
  end.

(** The [submit] handler of the shipping form; [shippingData] is the object
    the browser builds from the form,
    [Object.fromEntries(new FormData(form).entries())]. *)
Definition shipping_submit (JSON_stringify : value -> option jsstring)
    (now : Date) (shippingData : value) (p : page) : page :=
  let r := Form.validateForm now (inputs p) (inputs p) (getCountry (inputs p)) in
  if Form.isValid r then
    {| inputs := Form.done r;
       store := saveToStorage JSON_stringify (store p) (str "cpa_shipping")
                  shippingData;
       overlays := overlays p;
       navigated := Some (str "payment.html") |}
  else
    {| inputs := Form.done r; store := store p; overlays := overlays p;
       navigated := navigated p |}.




End Pages.

(** ** [validation.js] and [payment.js]: typing, the payment method and the
    newsletter *)

Module Typing.
Import JsString Form.

(** [resetFieldStyling(input)] *)
Definition resetFieldStyling (input : element) : element :=
  with_display input
    ((classList input ∖ {[ str "border-red-500" ]}
        ∖ {[ str "border-green-500" ]})
       ∪ {[ str "border-brand-green-dark" ]})
    (Some (str "false")) (aria_describedby input) (errorSpan input).

(** The [input] handler of [setupRealTimeValidation]: an error that is
    visible is hidden, without validating. *)
Definition on_input (input : element) : element :=
  match errorSpan input with
  | Some sp =>
      if bool_decide (str "hidden" ∈ span_classList sp) then input
      else
        let e := resetFieldStyling input in
        with_display e (classList e) (aria_invalid e) (aria_describedby e)
          (Some {| span_id := span_id sp; textContent := textContent sp;
                   span_classList := span_classList sp ∪ {[ str "hidden" ]} |})
  | None => input
  end.

End Typing.

Module PaymentMethod.
Import JsString Form.

(** [field.disabled = d] *)
Definition set_disabled (d : bool) (e : element) : element :=
  {| id := id e; value := Form.value e; type := type e; disabled := d;
     required := required e; classList := classList e;
     aria_invalid := aria_invalid e; aria_describedby := aria_describedby e;
     errorSpan := errorSpan e |}.

(** What the [change] handlers of the payment radios do to one card field:
    the handler of [initPaymentFormValidation], and [toggleCardFields] of
    [payment.js] for a field inside a wrapper. *)
Definition toggle_field (isCard : bool) (field : element) : element :=
  if isCard then set_disabled false field
  else clearFieldError (set_disabled true field).

(** The [change] handler of a payment radio, [value] being the value of the
    radio, on the card fields. *)
Definition on_change (value : jsstring) (cardFields : list element)
  : list element :=
  map (toggle_field (JsString.eqb value (str "card"))) cardFields.

End PaymentMethod.

Module Newsletter.
Import JsString Validation Form.

(** The newsletter form: the control [#email] of the document, if any, the
    number of elements of class [text-green-400] inside the form, and
    whether the handler moved the focus to the e-mail field. *)
Record form := {
  emailInput : option element;
  successMessages : nat;
  focused : bool
}.

(** [emailInput.value = v] *)
Definition with_value (e : element) (v : jsstring) : element :=
  {| id := id e; value := v; type := type e; disabled := disabled e;
     required := required e; classList := classList e;
     aria_invalid := aria_invalid e; aria_describedby := aria_describedby e;
     errorSpan := errorSpan e |}.

(** The [submit] handler, up to the timer that removes the message three
    seconds later. Without an e-mail field, [validateEmail(undefined)] is
    invalid and [showFieldError(null, ...)] reads a property of [null]. *)
Definition submit (f : form) : completion form :=
  match emailInput f with
  | None => Throw TypeError
  | Some e =>
      let result := validateEmail (Form.value e) in
      if valid result then
        Normal {| emailInput := Some (with_value (clearFieldError e) []);
                  successMessages := S (pred (successMessages f));
                  focused := focused f |}
      else
        Normal {| emailInput := Some (showFieldError e (message result));
                  successMessages := successMessages f;
                  focused := true |}
  end.

End Newsletter.

(** ** [home.js]: the floating button *)

Module FloatingAnchor.

(** What [initFloatingAnchor] holds and touches: the scroll position of the
    window, whether the button carries the class [show], the flag
    [ticking], and the callbacks handed to [requestAnimationFrame] that the
    browser has not run yet. ([lastScrollY] is written and never read.) *)
Record state := {
  scrollY : number;
  shown : bool;
  ticking : bool;
  pending : nat
}.

(** [updateVisibility()] *)
Definition updateVisibility (st : state) : state :=
  {| scrollY := scrollY st;
     shown := JsNumber.gt (scrollY st) (JsNumber.of_Z 400);
     ticking := ticking st; pending := pending st |}.

(** [onScroll()] *)
Definition onScroll (st : state) : state :=
  if ticking st then st
  else {| scrollY := scrollY st; shown := shown st; ticking := true;
          pending := S (pending st) |}.

(** The callback [onScroll] hands to [requestAnimationFrame]. *)
Definition frame (st : state) : state :=
  let st' := updateVisibility st in
  {| scrollY := scrollY st'; shown := shown st'; ticking := false;
     pending := pending st' |}.

(** What happens to the page: the window is scrolled to a position, which
    runs [onScroll], or the browser runs the oldest callback it was handed,
    if there is one. *)
Inductive event := Scroll (y : number) | Frame.

Definition step (st : state) (ev : event) : state :=
  match ev with
  | Scroll y =>
      onScroll {| scrollY := y; shown := shown st; ticking := ticking st;
                  pending := pending st |}
  | Frame =>
      match pending st with
      | O => st
      | S n => frame {| scrollY := scrollY st; shown := shown st;
                        ticking := ticking st; pending := n |}
      end
  end.

(** The state [initFloatingAnchor] leaves, the window being at [y] and the
    button carrying [show] or not: [updateVisibility()] has run once. *)
Definition init (y : number) (show : bool) : state :=
  updateVisibility {| scrollY := y; shown := show; ticking := false;
                      pending := 0 |}.

Definition run (events : list event) (st : state) : state :=
  fold_left step events st.

(** What holds of the button between two events: at most one callback is
    waiting, [ticking] tells whether one is, and when none is the button is
    shown exactly when the window is scrolled beyond 400. *)
Definition settled (st : state) : Prop :=
  (pending st <= 1)%nat
  /\ (ticking st = true <-> pending st = 1%nat)
  /\ (pending st = 0%nat ->
      shown st = JsNumber.gt (scrollY st) (JsNumber.of_Z 400)).

End FloatingAnchor.

(** ** Whole-form validation, in plain terms *)

Module FormSpec.

(** The position of the first element [f] accepts. *)
Fixpoint first_index {A : Type} (f : A -> bool) (l : list A) : option nat :=
  match l with
  | [] => None
  | x :: rest => if f x then Some 0%nat else option_map S (first_index f rest)
  end.

(** A control that is examined and whose validator fails. *)
Definition failing (now : Date) (document : list Form.element)
    (country : jsstring) (e : Form.element) : bool :=
  negb (Form.skipped e)
  && negb (valid (Form.validateField now document e country)).

(** What the form shows for a control once it has been gone through. *)
Definition shown (now : Date) (document : list Form.element)
    (country : jsstring) (e : Form.element) : Form.element :=
  if Form.skipped e then e else Form.on_blur now document country e.

End FormSpec.

(** ** [validation.js]: the input formatters *)

Module Formatting.
Import JsString Validation.

(** [digits.match(/.{1,4}/g)]: the digits four by four, the last group
    shorter when they run out; no group at all ([null]) on the empty
    string. *)
Fixpoint groups_of_4 (digits : jsstring) : list jsstring :=
  match digits with
  | a :: b :: c :: d :: rest => [a; b; c; d] :: groups_of_4 rest
  | [] => []
  | short => [short]
  end.

(** [groups.join(sep)] *)
Fixpoint join (sep : jsstring) (groups : list jsstring) : jsstring :=
  match groups with
  | [] => []
  | [g] => g
  | g :: rest => g ++ sep ++ join sep rest
  end.

Definition formatCardNumber (value : jsstring) : jsstring :=
  let digits := stripNonDigits value in
  match groups_of_4 digits with
  | [] => digits                       (* groups ? ... : digits *)
  | groups => join (str " ") groups
  end.

(** [s.slice(from, to)] for [0 <= from <= to]. *)
Definition slice (from to : nat) (s : jsstring) : jsstring :=
  firstn (to - from) (skipn from s).

(** [s.slice(from)] *)
Definition slice_from (from : nat) (s : jsstring) : jsstring := skipn from s.


(** [s.startsWith(prefix)] *)
Definition startsWith (prefix s : jsstring) : bool :=
  match NumericLiteral.strip_prefix prefix s with
  | Some _ => true
  | None => false
  end.

Definition formatPhoneNZ (value : jsstring) : jsstring :=
  let digits := stripNonDigits value in
  if startsWith (str "64") digits then
    str "+" ++ slice 0 2 digits ++ str " " ++ slice 2 4 digits ++ str " "
    ++ slice 4 7 digits ++ str " " ++ slice_from 7 digits
  else if startsWith (str "0") digits then
    slice 0 3 digits ++ str " " ++ slice 3 6 digits ++ str " "
    ++ slice_from 6 digits
  else value.



End Formatting.

(** ** Card networks, as the specification words them *)

Module Network.

(** The number the first [k] digits write, when there are that many. *)
Definition leading (k : nat) (digits : jsstring) : option Z :=
  if (k <=? List.length digits)%nat
  then Some (NumericLiteral.decimal_value (firstn k digits))
  else None.

Definition among (lo hi : Z) (x : option Z) : bool :=
  match x with
  | Some v => (lo <=? v) && (v <=? hi)
  | None => false
  end.

(** First digit 4: visa; 51-55 or 22-27: mastercard; 34 or 37: amex; 6011 or
    65: discover; unknown otherwise. *)
Definition of_digits (digits : jsstring) : cardType :=
  if among 4 4 (leading 1 digits) then visa
  else if among 51 55 (leading 2 digits) || among 22 27 (leading 2 digits)
  then mastercard
  else if among 34 34 (leading 2 digits) || among 37 37 (leading 2 digits)
  then amex
  else if among 6011 6011 (leading 4 digits) || among 65 65 (leading 2 digits)
  then discover
  else unknown.

End Network.

(** What [validatePhone] matches against its pattern: the input without
    white space, hyphens and parentheses. *)
Definition cleanPhone (phone : jsstring) : jsstring :=
  JsString.keep_only
    (fun c => negb (JsString.is_space c
                    || ValidationPatterns.one_of ["-"; "("; ")"]%char c)) phone.

(** ** A sample of the JSON built-ins

    [JSON.stringify] and [JSON.parse] restricted to [null] and to objects
    whose properties are integers written in plain decimal digits: enough to
    run the storage helpers on the totals of the wireframe. *)

Module JsonSample.
Import JsString NumericLiteral.

(** The decimal digits of a natural number, most significant first. *)
Fixpoint digits_of (fuel : nat) (n : N) (acc : jsstring) : jsstring :=
  match fuel with
  | O => acc
  | S fuel' =>
      let acc' := (48 + n mod 10)%N :: acc in
      if (n <? 10)%N then acc' else digits_of fuel' (n / 10)%N acc'
  end.

(** The natural number a number is, when it is one. *)
Definition natural_of (n : number) : option N :=
  match n with
  | S754_zero _ => Some 0%N
  | S754_finite false m e =>
      match e with
      | Z0 => Some (Npos m)
      | Zpos k => Some (Npos m * 2 ^ Npos k)%N
      | Zneg k =>
          if (Npos m mod 2 ^ Npos k =? 0)%N
          then Some (Npos m / 2 ^ Npos k)%N else None
      end
  | _ => None
  end.

Definition quote (s : jsstring) : jsstring := 34%N :: s ++ [34%N].

Definition stringify_number (n : number) : option jsstring :=
  match natural_of n with
  | Some k => Some (digits_of (S (N.to_nat (N.log2 k))) k [])
  | None => None
  end.

Fixpoint stringify_props (props : list (jsstring * value)) : option jsstring :=
  match props with
  | [] => Some []
  | (k, VNumber n) :: rest =>
      match stringify_number n, stringify_props rest with
      | Some text, Some more =>
          Some (quote k ++ 58%N :: text
                ++ match rest with [] => [] | _ => 44%N :: more end)
      | _, _ => None
      end
  | _ => None
  end.

Definition stringify (v : value) : option jsstring :=
  match v with
  | VNull => Some (str "null")
  | VObject props =>
      match stringify_props props with
      | Some body => Some (123%N :: body ++ [125%N])
      | None => None
      end
  | _ => None
  end.

(** The properties after an opening brace or a comma, up to the closing
    brace that ends the text. *)
Fixpoint parse_props (fuel : nat) (s : jsstring)
  : option (list (jsstring * value)) :=
  match fuel, s with
  | S fuel', q :: r =>
      if negb (q =? 34)%N then None else
      let '(key, r1) := span (fun c => negb (c =? 34)%N) r in
      match r1 with
      | _ :: colon :: r2 =>
          if negb (colon =? 58)%N then None else
          let '(ds, r3) := span is_digit r2 in
          match ds, r3 with
          | _ :: _, sep :: r4 =>
              let prop := (key, VNumber (JsNumber.of_Z (decimal_value ds))) in
              if (sep =? 125)%N then
                match r4 with [] => Some [prop] | _ => None end
              else if (sep =? 44)%N then
                option_map (cons prop) (parse_props fuel' r4)
              else None
          | _, _ => None
          end
      | _ => None
      end
  | _, _ => None
  end.

Definition parse (text : jsstring) : completion value :=
  if JsString.eqb text (str "null") then Normal VNull
  else
    match text with
    | open :: rest =>
        if negb (open =? 123)%N then Throw SyntaxError
        else if JsString.eqb rest [125%N] then Normal (VObject [])
        else match parse_props (List.length rest) rest with
             | Some props => Normal (VObject props)
             | None => Throw SyntaxError
             end
    | [] => Throw SyntaxError
    end.

(** The totals of the wireframe: $600, $13 taxes, free shipping, $613. *)
Definition wireframe : Totals :=
  {| subtotal := JsNumber.of_Z 600; taxes := JsNumber.of_Z 13;
     shippingCost := JsNumber.of_Z 0; total := JsNumber.of_Z 613 |}.

End JsonSample.

(** ** The Luhn checksum, as the specification words it *)

Module Luhn.

(** A doubled digit, less 9 when it exceeds 9. *)
Definition doubled (d : Z) : Z :=
  if 9 <? 2 * d then 2 * d - 9 else 2 * d.

(** The sum over the digits taken from the least significant one: the
    first as it is, the second doubled, and so on in turn. *)
Fixpoint sum_from_right (ds : list Z) : Z :=
  match ds with
  | [] => 0
  | [d] => d
  | d1 :: d2 :: rest => d1 + doubled d2 + sum_from_right rest
  end.

(** The checksum of a digit string, most significant digit first. *)
Definition checksum (digits : jsstring) : Z :=
  sum_from_right (map JsString.digit_value (rev digits)).

(** The checksum holds: the sum is divisible by 10. *)
Definition holds (digits : jsstring) : Prop := (10 | checksum digits).

End Luhn.

(** ** The expiry format, as the specification words it *)

Module ExpiryFormat.
Import JsString.

(** Nothing, or one white-space character. *)
Definition optional_space (ws : jsstring) : Prop :=
  ws = [] \/ exists w, ws = [w] /\ is_space w = true.

(** The number two decimal digits write. *)
Definition two_digits (a b : N) : Z := 10 * digit_value a + digit_value b.

(** [s] reads [MM/YY]: two digits for a month from 01 to 12, a slash with
    at most one white-space character on each side, two digits for the
    year. *)
Definition MM_YY (s : jsstring) (month yy : Z) : Prop :=
  exists m1 m2 ws1 ws2 y1 y2,
    s = [m1; m2] ++ ws1 ++ [47%N] ++ ws2 ++ [y1; y2]
    /\ is_digit m1 = true /\ is_digit m2 = true
    /\ is_digit y1 = true /\ is_digit y2 = true
    /\ optional_space ws1 /\ optional_space ws2
    /\ month = two_digits m1 m2 /\ 1 <= month <= 12
    /\ yy = two_digits y1 y2.

(** [s] has the format, whatever month and year it writes. *)
Definition well_formed (s : jsstring) : Prop :=
  exists month yy, MM_YY s month yy.

End ExpiryFormat.

(** ** Sample inputs *)

Module Sample.

(** A shipping page on a given subtotal: free shipping at 0 and next-day
    delivery at 15, the latter selected, nothing stored yet. *)
Definition shipping_page (subtotal : number) : Shipping.page :=
  {| Shipping.subtotal_ := subtotal;
     Shipping.freeRadio :=
       {| Shipping.checked := false; Shipping.disabled := false;
          Shipping.data_ship_cost := Some (str "0") |};
     Shipping.nextRadio :=
       {| Shipping.checked := true; Shipping.disabled := false;
          Shipping.data_ship_cost := Some (str "15") |};
     Shipping.nextLabelDimmed := Some false;
     Shipping.summary := None;
     Shipping.store := ∅ |}.

(** November 2026. *)
Definition november_2026 : Date := {| getFullYear := 2026; getMonth := 10 |}.


End Sample.

(** ** Sums and digit-free text, as the specification words them *)

(** The sum of the line amounts, taken from the left starting at [0], each
    addition and product being the one of JavaScript numbers. *)
Fixpoint sum_from (acc : number) (amounts : list number) : number :=
  match amounts with
  | [] => acc
  | a :: rest => sum_from (acc + a)%js rest
  end.

Definition line_amount (row : CartRow) : number := (price row * qty row)%js.

(** A string that holds no decimal digit. *)
Definition no_digit (s : jsstring) : Prop :=
  Forall (fun c => JsString.is_digit c = false) s.

(** ** Shapes of field values, in plain terms *)

Module Shape.
Import JsString.

(** A run of decimal digits. *)
Definition digits (s : jsstring) : Prop :=
  Forall (fun c => is_digit c = true) s.

(** Exactly [n] decimal digits. *)
Definition n_digits (n : nat) (s : jsstring) : Prop :=
  List.length s = n /\ digits s.

(** A US ZIP code: five digits, or five digits, a hyphen and four digits. *)
Definition us_zip (code : jsstring) : Prop :=
  exists zip plus4,
    code = zip ++ plus4 /\ n_digits 5 zip
    /\ (plus4 = [] \/ exists four, plus4 = 45%N :: four /\ n_digits 4 four).

(** The characters of a name: ASCII letters, U+00C0 to U+00FF, white space,
    hyphen and apostrophe. *)
Definition name_char (c : N) : bool :=
  is_alpha c || in_range 192 255 c || is_space c
  || (c =? 45)%N || (c =? 39)%N.

(** The characters a phone number keeps once spaces, hyphens and
    parentheses are removed, for a country without a pattern of its own. *)
Definition digit_or_plus (c : N) : bool := is_digit c || (c =? 43)%N.

(** A New Zealand phone number, separators removed: [+64], [64] or [0], a
    digit from 2 to 9, then seven to nine digits. *)
Definition nz_phone (clean : jsstring) : Prop :=
  exists prefix d rest,
    clean = prefix ++ d :: rest
    /\ (prefix = str "+64" \/ prefix = str "64" \/ prefix = str "0")
    /\ in_range 50 57 d = true
    /\ (7 <= List.length rest <= 9)%nat /\ digits rest.

(** The characters before the [@] of an e-mail address: ASCII letters and
    digits, dot, underscore, percent, plus and hyphen. *)
Definition local_char (c : N) : bool :=
  is_alpha c || is_digit c
  || (c =? 46)%N || (c =? 95)%N || (c =? 37)%N || (c =? 43)%N || (c =? 45)%N.

(** The characters of its domain: ASCII letters and digits, dot and hyphen. *)
Definition domain_char (c : N) : bool :=
  is_alpha c || is_digit c || (c =? 46)%N || (c =? 45)%N.

(** [local@domain.tld]: none of the three parts empty, a top-level domain of
    two letters or more. *)
Definition email_address (s : jsstring) : Prop :=
  exists local domain tld,
    s = local ++ 64%N :: domain ++ 46%N :: tld
    /\ local <> [] /\ Forall (fun c => local_char c = true) local
    /\ domain <> [] /\ Forall (fun c => domain_char c = true) domain
    /\ (2 <= List.length tld)%nat /\ Forall (fun c => is_alpha c = true) tld.

End Shape.

(** * Properties *)

(** ** Cart totals *)

Lemma cart_subtotal_sum_from (cart : list CartRow) (acc : number) :
  fold_left (fun sum row => (sum + price row * qty row)%js) cart acc
  = sum_from acc (map line_amount cart).
Proof.
  revert acc. induction cart as [|row cart IH]; intros acc; simpl.
  - reflexivity.
  - apply IH.
Qed.

(** C1. For every cart and every shipping cost, [calculateTotals] returns the
    subtotal as the sum of the [price * qty] line amounts, the taxes as
    [subtotal * (13 / 600)], the shipping cost unchanged and the total as
    [subtotal + taxes + shippingCost]; on the one-row cart [{600, 1}] with
    free shipping the four fields are exactly 600, 13, 0 and 613. *)
Theorem calculateTotals_spec :
  (forall (cart : list CartRow) (ship : number),
      let t := Cart.calculateTotals cart ship in
      subtotal t = sum_from JsNumber.zero (map line_amount cart)
      /\ taxes t = (subtotal t * (JsNumber.of_Z 13 / JsNumber.of_Z 600))%js
      /\ shippingCost t = ship
      /\ total t = (subtotal t + taxes t + ship)%js)
  /\ Cart.calculateTotals
       [{| price := JsNumber.of_Z 600; qty := JsNumber.of_Z 1 |}]
       (JsNumber.of_Z 0)
     = {| subtotal := JsNumber.of_Z 600; taxes := JsNumber.of_Z 13;
          shippingCost := JsNumber.of_Z 0; total := JsNumber.of_Z 613 |}.
Proof.
  split.
  - intros cart ship. cbn. repeat split.
    apply cart_subtotal_sum_from.
  - vm_compute. reflexivity.
Qed.

(** ** Numbers read from text *)

Section NumbersFromText.
Import JsString NumericLiteral.

(** Rounding keeps the sign it is given. *)
Lemma binary_round_aux_sign (sx : bool) (mx ex : Z) (lx : location) :
  JsNumber.sign (binary_round_aux JsNumber.prec JsNumber.emax sx mx ex lx)
  = if JsNumber.isNaN
         (binary_round_aux JsNumber.prec JsNumber.emax sx mx ex lx)
    then false else sx.
Proof.
  unfold binary_round_aux.
  destruct (shr_fexp _ _ mx ex lx) as [mrs' e'].
  destruct (shr_fexp _ _ _ e' loc_Exact) as [mrs'' e''].
  destruct (shr_m mrs'') as [|m|m]; simpl; try reflexivity.
  destruct (e'' <=? _); reflexivity.
Qed.

Lemma of_decimal_sign (m e : Z) :
  JsNumber.sign (of_decimal false m e) = false.
Proof.
  unfold of_decimal. destruct m as [|p|p]; try reflexivity.
  unfold SFdiv.
  destruct (SFdiv_core_binary _ _ _ _ _ _) as [[mz ez] lz].
  rewrite binary_round_aux_sign. simpl.
  destruct (JsNumber.isNaN _); reflexivity.
Qed.

Lemma to_number_sign (l : literal) :
  JsNumber.sign (to_number false l) = false.
Proof. destruct l; [reflexivity | apply of_decimal_sign]. Qed.

Lemma trimStart_Forall (P : N -> Prop) (s : jsstring) :
  Forall P s -> Forall P (trimStart s).
Proof.
  induction 1 as [|c r Hc Hr IH]; simpl; [constructor|].
  destruct (is_space c); [exact IH | constructor; assumption].
Qed.

Lemma trim_Forall (P : N -> Prop) (s : jsstring) :
  Forall P s -> Forall P (trim s).
Proof.
  intros H. unfold trim, trimEnd.
  apply Forall_rev, trimStart_Forall, Forall_rev, trimStart_Forall, H.
Qed.

Lemma keep_only_Forall (keep : N -> bool) (s : jsstring) :
  Forall (fun c => keep c = true) (keep_only keep s).
Proof.
  unfold keep_only. apply List.Forall_forall. intros c Hc.
  apply List.filter_In in Hc. tauto.
Qed.

Lemma digit_or_dot_cases (c : N) :
  digit_or_dot c = true -> (48 <= c <= 57)%N \/ c = 46%N.
Proof.
  unfold digit_or_dot, is_digit, in_range. intros H.
  apply orb_true_iff in H as [H|H].
  - apply andb_true_iff in H as [H1 H2].
    apply N.leb_le in H1, H2. left; lia.
  - apply N.eqb_eq in H. right; exact H.
Qed.

(** A string of digits and dots holds no radix prefix and no sign. *)
Lemma Number_cleaned_sign (t : jsstring) :
  Forall (fun c => digit_or_dot c = true) t ->
  JsNumber.sign (Number t) = false.
Proof.
  intros H. unfold Number.
  apply (trim_Forall _ _) in H.
  destruct (trim t) as [|c r]; [reflexivity|].
  assert (Hnd : scan_nondecimal (c :: r) = None).
  { unfold scan_nondecimal. destruct r as [|k ds]; [reflexivity|].
    inversion H as [|? ? _ Hr]; subst. inversion Hr as [|? ? Hk _]; subst.
    apply digit_or_dot_cases in Hk.
    assert (E1 : (k =? 120)%N = false) by (apply N.eqb_neq; lia).
    assert (E2 : (k =? 88)%N = false) by (apply N.eqb_neq; lia).
    assert (E3 : (k =? 111)%N = false) by (apply N.eqb_neq; lia).
    assert (E4 : (k =? 79)%N = false) by (apply N.eqb_neq; lia).
    assert (E5 : (k =? 98)%N = false) by (apply N.eqb_neq; lia).
    assert (E6 : (k =? 66)%N = false) by (apply N.eqb_neq; lia).
    cbv zeta. rewrite E1, E2, E3, E4, E5, E6.
    destruct (negb _); reflexivity. }
  rewrite Hnd.
  assert (Hs : scan_sign (c :: r) = (false, c :: r)).
  { inversion H as [|? ? Hc _]; subst.
    apply digit_or_dot_cases in Hc.
    unfold scan_sign, is_sign.
    assert (E1 : (c =? 43)%N = false) by (apply N.eqb_neq; lia).
    assert (E2 : (c =? 45)%N = false) by (apply N.eqb_neq; lia).
    rewrite E1, E2. reflexivity. }
  unfold scan_signed. rewrite Hs.
  destruct (scan_unsigned (c :: r)) as [[l rest]|]; [|reflexivity].
  destruct rest; [apply to_number_sign | reflexivity].
Qed.

(** A string of dots alone is no numeric literal. *)
Lemma Number_dots (t : jsstring) :
  Forall (fun c => c = 46%N) t ->
  Number t = JsNumber.zero \/ Number t = JsNumber.NaN.
Proof.
  intros H. unfold Number.
  apply (trim_Forall _ _) in H.
  destruct (trim t) as [|c r]; [left; reflexivity|].
  right. inversion H as [|? ? Hc Hr]; subst.
  assert (Hnd : scan_nondecimal (46%N :: r) = None).
  { unfold scan_nondecimal. destruct r as [|k ds]; reflexivity. }
  rewrite Hnd. unfold scan_signed.
  change (scan_sign (46%N :: r)) with (false, 46%N :: r).
  unfold scan_unsigned.
  change (strip_prefix (str "Infinity") (46%N :: r)) with (@None jsstring).
  change (span is_digit (46%N :: r)) with (@nil N, 46%N :: r).
  cbv iota beta. change (46 =? 46)%N with true. cbv iota.
  assert (Hsp : span is_digit r = ([], r)).
  { destruct Hr as [|d r' Hd _]; [reflexivity|]. subst d. reflexivity. }
  rewrite Hsp. reflexivity.
Qed.

End NumbersFromText.

(** C10. For every argument ([null], [undefined], any text), [parseCurrency]
    returns a finite number that is not negative; on [null], on the empty
    string and on every text that holds no digit it returns [0]. *)
Theorem parseCurrency_finite_nonneg :
  (forall text : text_arg, JsNumber.finite_nonneg (parseCurrency text))
  /\ parseCurrency Null = JsNumber.zero
  /\ parseCurrency Undefined = JsNumber.zero
  /\ parseCurrency (Text []) = JsNumber.zero
  /\ (forall s : jsstring,
         no_digit s -> parseCurrency (Text s) = JsNumber.zero).
Proof.
  split; [|repeat split].
  - intros text. unfold parseCurrency, JsNumber.finite_nonneg.
    destruct (falsy_text text); [split; reflexivity|].
    pose proof (Number_cleaned_sign
                  (JsString.keep_only digit_or_dot (String_of text))
                  (keep_only_Forall _ _)) as Hs.
    destruct (NumericLiteral.Number _) as [s0|s0| |s0 m e]; simpl in *;
      split; auto.
  - intros s Hs. unfold parseCurrency.
    destruct (falsy_text (Text s)); [reflexivity|].
    assert (Hd : Forall (fun c => c = 46%N)
                   (JsString.keep_only digit_or_dot (String_of (Text s)))).
    { simpl. unfold JsString.keep_only. apply List.Forall_forall.
      intros c Hc. apply List.filter_In in Hc as [Hin Hk].
      unfold no_digit in Hs. rewrite List.Forall_forall in Hs.
      specialize (Hs c Hin). unfold digit_or_dot in Hk.
      rewrite Hs in Hk. simpl in Hk. apply N.eqb_eq in Hk. exact Hk. }
    destruct (Number_dots _ Hd) as [E|E]; rewrite E; reflexivity.
Qed.

(** A placeholder without any digit reads as zero. *)
Lemma parseCurrency_finite_nonneg_witness :
  parseCurrency (Text (str "$--.--")) = JsNumber.zero.
Proof.
  destruct parseCurrency_finite_nonneg as (_ & _ & _ & _ & H).
  apply H. unfold no_digit. repeat constructor.
Defined.

(** ** Storage helpers *)

Section StorageProperties.

Variable JSON_stringify : value -> option jsstring.
Variable JSON_parse : jsstring -> completion value.

(** [JSON.parse('')] throws: the empty text is no JSON text. *)
Hypothesis JSON_parse_empty : JSON_parse [] = Throw SyntaxError.

Lemma getItem_setItem (st : storage) (key : jsstring) (text : jsstring) :
  getItem (setItem st key (Some text)) key = Some text.
Proof. unfold getItem, setItem. apply lookup_insert_eq. Qed.

Lemma loadFromStorage_normal (st : storage) (key : jsstring) (fallback : value) :
  exists v, loadFromStorage JSON_parse st key fallback = Normal v.
Proof.
  unfold loadFromStorage.
  destruct (getItem st key) as [raw|]; [|eauto].
  destruct (JsString.is_empty raw); [eauto|].
  destruct (JSON_parse raw); eauto.
Qed.

(** C8. For every store, key and fallback, [loadFromStorage] completes
    normally; it returns the fallback when the key is absent and when the
    stored text makes [JSON.parse] throw, and the parsed value when the
    stored text parses. *)
Theorem loadFromStorage_fallback
    (st : storage) (key : jsstring) (fallback : value) :
  (exists v, loadFromStorage JSON_parse st key fallback = Normal v)
  /\ (getItem st key = None ->
      loadFromStorage JSON_parse st key fallback = Normal fallback)
  /\ (forall raw e,
        getItem st key = Some raw -> JSON_parse raw = Throw e ->
        loadFromStorage JSON_parse st key fallback = Normal fallback)
  /\ (forall raw v,
        getItem st key = Some raw -> JSON_parse raw = Normal v ->
        loadFromStorage JSON_parse st key fallback = Normal v).
Proof.
  split; [apply loadFromStorage_normal|].
  unfold loadFromStorage. repeat split.
  - intros ->. reflexivity.
  - intros raw e -> Hthrow. rewrite Hthrow.
    destruct (JsString.is_empty raw); reflexivity.
  - intros raw v -> Hparse.
    destruct raw as [|c r]; [congruence|].
    simpl. rewrite Hparse. reflexivity.
Qed.

(** C9. A [Totals] record saved under a key with [saveToStorage] and read
    back with [loadFromStorage] comes back with the same four field values,
    whenever [JSON.parse] gives back the record [JSON.stringify] was given
    (the JSON round trip of its numbers); the shipping page then starts
    from the saved subtotal when that is a finite number. *)
Theorem totals_round_trip
    (st : storage) (key : jsstring) (t : Totals) (fallback : value)
    (text : jsstring) :
  JSON_stringify (totals_value t) = Some text ->
  JSON_parse text = Normal (totals_value t) ->
  let st' := saveToStorage JSON_stringify st key (totals_value t) in
  (exists loaded,
      loadFromStorage JSON_parse st' key fallback = Normal loaded
      /\ get_prop loaded (str "subtotal") = VNumber (subtotal t)
      /\ get_prop loaded (str "taxes") = VNumber (taxes t)
      /\ get_prop loaded (str "shippingCost") = VNumber (shippingCost t)
      /\ get_prop loaded (str "total") = VNumber (total t))
  /\ (key = STORAGE_KEYS.totals ->
      JsNumber.isFinite (subtotal t) = true ->
      forall textContent,
        Shipping.initial_subtotal JSON_parse st' textContent
        = Normal (subtotal t)).
Proof.
  intros Hs Hp st'.
  assert (Hload : forall fb,
             loadFromStorage JSON_parse st' key fb = Normal (totals_value t)).
  { intros fb. unfold loadFromStorage, st', saveToStorage.
    rewrite Hs, getItem_setItem.
    destruct text as [|c r]; [congruence|].
    simpl. rewrite Hp. reflexivity. }
  split.
  - exists (totals_value t). split; [apply Hload|].
    repeat split; reflexivity.
  - intros -> Hfin textContent. unfold Shipping.initial_subtotal.
    rewrite Hload. simpl.
    change (lookup_prop (str "subtotal") _) with (VNumber (subtotal t)).
    simpl. rewrite Hfin. reflexivity.
Qed.

End StorageProperties.

(** The three cases on a store that holds no totals, a damaged text under
    [cpa_cart] and the text [null] under [cpa_shipping]. *)
Lemma loadFromStorage_fallback_witness :
  let st : storage :=
    <[ str "cpa_shipping" := str "null" ]>
      (<[ STORAGE_KEYS.cart := str "{oops" ]> ∅) in
  loadFromStorage JsonSample.parse st STORAGE_KEYS.totals (VNumber JsNumber.zero)
    = Normal (VNumber JsNumber.zero)
  /\ loadFromStorage JsonSample.parse st STORAGE_KEYS.cart (VNumber JsNumber.zero)
    = Normal (VNumber JsNumber.zero)
  /\ loadFromStorage JsonSample.parse st (str "cpa_shipping") (VNumber JsNumber.zero)
    = Normal VNull.
Proof.
  intros st.
  pose proof (fun key =>
    loadFromStorage_fallback JsonSample.parse eq_refl st key (VNumber JsNumber.zero))
    as H.
  split; [|split].
  - apply (H STORAGE_KEYS.totals). vm_compute. reflexivity.
  - apply (proj1 (proj2 (proj2 (H STORAGE_KEYS.cart))) (str "{oops") SyntaxError);
      vm_compute; reflexivity.
  - apply (proj2 (proj2 (proj2 (H (str "cpa_shipping")))) (str "null") VNull);
      vm_compute; reflexivity.
Defined.

(** The totals of the wireframe, saved by the cart page and read back. *)
Lemma totals_round_trip_witness :
  exists loaded,
    loadFromStorage JsonSample.parse
      (saveToStorage JsonSample.stringify ∅ STORAGE_KEYS.totals
         (totals_value JsonSample.wireframe))
      STORAGE_KEYS.totals VNull
    = Normal loaded
    /\ get_prop loaded (str "total") = VNumber (JsNumber.of_Z 613).
Proof.
  destruct (JsonSample.stringify (totals_value JsonSample.wireframe))
    as [text|] eqn:Hs; [|vm_compute in Hs; discriminate].
  assert (Hp : JsonSample.parse text = Normal (totals_value JsonSample.wireframe)).
  { vm_compute in Hs. injection Hs as <-. vm_compute. reflexivity. }
  destruct (totals_round_trip JsonSample.stringify JsonSample.parse eq_refl
              ∅ STORAGE_KEYS.totals JsonSample.wireframe VNull text Hs Hp)
    as [[loaded (Hl & _ & _ & _ & Htotal)] _].
  exists loaded. split; [exact Hl | exact Htotal].
Defined.

(** ** The free-shipping rule of the shipping page *)

Section ComparingNumbers.

Lemma SFcompare_antisym (x y : number) :
  SFcompare y x = option_map CompOpp (SFcompare x y).
Proof.
  destruct x as [sx|sx| |sx mx ex], y as [sy|sy| |sy my ey]; simpl;
    try reflexivity;
    try (destruct sx; reflexivity); try (destruct sy; reflexivity);
    try (destruct sx, sy; reflexivity).
  assert (Hm : Pos.compare_cont Eq my mx = CompOpp (Pos.compare_cont Eq mx my))
    by (symmetry; apply (Pos.compare_cont_antisym mx my Eq)).
  destruct sx, sy; simpl; try reflexivity;
    rewrite (Z.compare_antisym ex ey), Hm;
    destruct (ex ?= ey); simpl; try reflexivity;
    destruct (Pos.compare_cont Eq mx my); reflexivity.
Qed.

(** [x <= y] excludes [x > y]. *)
Lemma le_not_gt (x y : number) :
  JsNumber.le x y = true -> JsNumber.gt x y = false.
Proof.
  unfold JsNumber.le, JsNumber.gt, SFleb, SFltb.
  rewrite (SFcompare_antisym x y).
  destruct (SFcompare x y) as [[| |]|]; simpl; congruence.
Qed.

(** On numbers that are not NaN, [x > y] fails exactly when [x <= y]. *)
Lemma not_gt_le (x y : number) :
  JsNumber.isNaN x = false -> JsNumber.isNaN y = false ->
  JsNumber.gt x y = false -> JsNumber.le x y = true.
Proof.
  unfold JsNumber.le, JsNumber.gt, SFleb, SFltb.
  rewrite (SFcompare_antisym x y).
  destruct x as [sx|sx| |sx mx ex], y as [sy|sy| |sy my ey]; simpl;
    try discriminate; intros _ _;
    try (destruct sx; simpl; congruence);
    try (destruct sy; simpl; congruence);
    try (destruct sx, sy; simpl; congruence).
  destruct sx, sy; simpl; try congruence;
    destruct (ex ?= ey); simpl; try congruence;
    destruct (Pos.compare_cont Eq mx my); simpl; congruence.
Qed.

End ComparingNumbers.

Section ShippingProperties.
Import Shipping.

Variable JSON_stringify : value -> option jsstring.

Local Abbreviation recompute := (Shipping.recompute JSON_stringify).

(** The totals a recompute leaves in the summary panel. *)
Lemma recompute_summary (p : page) :
  summary (recompute p)
  = Some (calculateTotals p
            (getSelectedShippingCost (enforceFreeShippingRule p))).
Proof.
  unfold Shipping.recompute, calculateTotals, enforceFreeShippingRule.
  destruct (qualifies p); reflexivity.
Qed.

(** The subtotal the page starts from is always a finite number. *)
Lemma initial_subtotal_finite
    (JSON_parse : jsstring -> completion value)
    (st : storage) (textContent : text_arg) :
  exists n, initial_subtotal JSON_parse st textContent = Normal n
            /\ JsNumber.isFinite n = true.
Proof.
  unfold initial_subtotal.
  destruct (loadFromStorage_normal JSON_parse st STORAGE_KEYS.totals VNull)
    as [v ->].
  eexists. split; [reflexivity|].
  destruct (truthy v && Number_isFinite (get_prop v (str "subtotal"))) eqn:E.
  - apply andb_true_iff in E as [_ E].
    destruct (get_prop v (str "subtotal")); try discriminate. exact E.
  - unfold fallbackSubtotal.
    destruct (JsNumber.truthy (parseCurrency textContent)); [|reflexivity].
    unfold parseCurrency. destruct (falsy_text textContent); [reflexivity|].
    destruct (JsNumber.isFinite (NumericLiteral.Number _)) eqn:F;
      [exact F | reflexivity].
Qed.

(** C2. On the shipping page a recompute applies the free-shipping rule
    exactly when the subtotal is strictly greater than 600. Above 600 the
    free option ends up the selected one, the other option is disabled and
    the totals carry the free option's cost. At 600 or below the other
    option is enabled, the selection is left as it was, and the totals
    carry the cost of the selected option as its [data-ship-cost] gives
    it. A subtotal that is a number is in one case or the other; 601 is
    above the threshold and 600 is not. *)
Theorem free_shipping_rule (p : page) :
  let p' := recompute p in
  let limit := JsNumber.of_Z 600 in
  (disabled (nextRadio p') = JsNumber.gt (subtotal_ p) limit)
  /\ (JsNumber.gt (subtotal_ p) limit = true ->
      checked (freeRadio p') = true
      /\ selected p' = Some (freeRadio p')
      /\ disabled (nextRadio p') = true
      /\ exists t, summary p' = Some t
           /\ shippingCost t = getSelectedShippingCost p'
           /\ forall cost,
                Number_attr (data_ship_cost (freeRadio p)) = cost ->
                JsNumber.isFinite cost = true -> shippingCost t = cost)
  /\ (JsNumber.le (subtotal_ p) limit = true ->
      disabled (nextRadio p') = false
      /\ checked (freeRadio p') = checked (freeRadio p)
      /\ checked (nextRadio p') = checked (nextRadio p)
      /\ exists t, summary p' = Some t
           /\ shippingCost t = getSelectedShippingCost p
           /\ forall r cost,
                selected p = Some r ->
                Number_attr (data_ship_cost r) = cost ->
                JsNumber.isFinite cost = true -> shippingCost t = cost)
  /\ (JsNumber.isNaN (subtotal_ p) = false ->
      (JsNumber.gt (subtotal_ p) limit = false
       <-> JsNumber.le (subtotal_ p) limit = true))
  /\ JsNumber.gt (JsNumber.of_Z 601) limit = true
  /\ JsNumber.gt (JsNumber.of_Z 600) limit = false
  /\ JsNumber.le (JsNumber.of_Z 600) limit = true.
Proof.
  intros p' limit. subst p'.
  split; [|split; [|split; [|split; [|repeat split; vm_compute; reflexivity]]]];
    [| | |intros Hnan; split;
          [apply not_gt_le; [exact Hnan | reflexivity]
          |intros Hle; apply le_not_gt; exact Hle]].
  - unfold Shipping.recompute, enforceFreeShippingRule, qualifies.
    fold limit. destruct (JsNumber.gt (subtotal_ p) limit); reflexivity.
  - intros Hgt.
    assert (Hq : qualifies p = true) by exact Hgt.
    rewrite recompute_summary.
    unfold Shipping.recompute, enforceFreeShippingRule.
    rewrite Hq. simpl. unfold selected, getSelectedShippingCost, selected. simpl.
    repeat split.
    eexists. split; [reflexivity|]. simpl. split; [reflexivity|].
    intros cost <- Hfin. rewrite Hfin. reflexivity.
  - intros Hle.
    assert (Hq : qualifies p = false) by (apply le_not_gt; exact Hle).
    rewrite recompute_summary.
    unfold Shipping.recompute, enforceFreeShippingRule.
    rewrite Hq. simpl. repeat split.
    eexists. split; [reflexivity|]. simpl.
    match goal with
    | |- getSelectedShippingCost ?q = _ /\ _ =>
        assert (Hsel : getSelectedShippingCost q = getSelectedShippingCost p)
    end.
    { unfold getSelectedShippingCost, selected. simpl.
      destruct (checked (freeRadio p)), (checked (nextRadio p)); reflexivity. }
    split; [exact Hsel|].
    intros r cost Hr <- Hfin.
    rewrite Hsel. unfold getSelectedShippingCost.
    rewrite Hr, Hfin. reflexivity.
Qed.

End ShippingProperties.

(** On a subtotal of 650 the next-day option, though selected, gives way to
    free shipping; on 600 its cost of 15 goes into the totals. *)
Lemma free_shipping_rule_witness :
  (exists t,
      Shipping.summary
        (Shipping.recompute JsonSample.stringify
           (Sample.shipping_page (JsNumber.of_Z 650))) = Some t
      /\ shippingCost t = JsNumber.of_Z 0)
  /\ (exists t,
      Shipping.summary
        (Shipping.recompute JsonSample.stringify
           (Sample.shipping_page (JsNumber.of_Z 600))) = Some t
      /\ shippingCost t = JsNumber.of_Z 15).
Proof.
  split.
  - destruct (free_shipping_rule JsonSample.stringify
                (Sample.shipping_page (JsNumber.of_Z 650)))
      as (_ & Habove & _).
    destruct (Habove eq_refl) as (_ & _ & _ & t & Ht & _ & Hcost).
    exists t. split; [exact Ht|].
    apply Hcost; vm_compute; reflexivity.
  - destruct (free_shipping_rule JsonSample.stringify
                (Sample.shipping_page (JsNumber.of_Z 600)))
      as (_ & _ & Hbelow & _).
    destruct (Hbelow eq_refl) as (_ & _ & _ & t & Ht & _ & Hcost).
    exists t. split; [exact Ht|].
    apply (Hcost (Shipping.nextRadio (Sample.shipping_page (JsNumber.of_Z 600))));
      vm_compute; reflexivity.
Defined.

(** ** Blank strings and [trim] *)

Section Trimming.
Import JsString.

Lemma trimStart_nil (s : jsstring) :
  trimStart s = [] <-> blank s = true.
Proof.
  unfold blank. induction s as [|c r IH]; simpl.
  - tauto.
  - destruct (is_space c) eqn:E; simpl; [exact IH|].
    split; discriminate.
Qed.

Lemma trimStart_head (s : jsstring) (c : N) (r : jsstring) :
  trimStart s = c :: r -> is_space c = false.
Proof.
  induction s as [|d s' IH]; simpl; [discriminate|].
  destruct (is_space d) eqn:E; [exact IH|].
  intros [= <- _]. exact E.
Qed.

Lemma blank_rev (s : jsstring) : blank (rev s) = blank s.
Proof.
  unfold blank. apply eq_true_iff_eq.
  rewrite !forallb_forall. split; intros H x Hx; apply H.
  - apply in_rev in Hx. exact Hx.
  - apply in_rev. exact Hx.
Qed.

Lemma trim_nil (s : jsstring) : trim s = [] <-> blank s = true.
Proof.
  unfold trim, trimEnd. split.
  - intros H.
    assert (H1 : trimStart (rev (trimStart s)) = []).
    { destruct (trimStart (rev (trimStart s))) as [|x l]; [reflexivity|].
      simpl in H. destruct (rev l); discriminate. }
    apply trimStart_nil in H1. rewrite blank_rev in H1.
    destruct (trimStart s) as [|c r] eqn:E.
    + apply trimStart_nil. exact E.
    + apply trimStart_head in E. simpl in H1. rewrite E in H1. discriminate.
  - intros H. apply trimStart_nil in H. rewrite H. reflexivity.
Qed.

(** [!x || x.trim() === ''] holds exactly of the blank strings. *)
Lemma missing_blank (s : jsstring) :
  Validation.missing s = blank s.
Proof.
  unfold Validation.missing. apply eq_true_iff_eq.
  rewrite orb_true_iff. split.
  - intros [H|H].
    + destruct s; [reflexivity | discriminate].
    + apply trim_nil. destruct (trim s); [reflexivity | discriminate].
  - intros H. right. apply trim_nil in H. rewrite H. reflexivity.
Qed.

Lemma digit_not_space (c : N) : is_digit c = true -> is_space c = false.
Proof.
  unfold is_digit, is_space, in_range. intros H.
  apply andb_true_iff in H as [H1 H2]. apply N.leb_le in H1, H2.
  repeat (apply orb_false_iff; split);
    try (apply N.eqb_neq; lia);
    apply andb_false_iff; first [left; apply N.leb_gt; lia | right; apply N.leb_gt; lia].
Qed.

(** A blank string holds no digit. *)
Lemma blank_stripNonDigits (s : jsstring) :
  blank s = true -> Validation.stripNonDigits s = [].
Proof.
  unfold blank, Validation.stripNonDigits, keep_only.
  induction s as [|c r IH]; simpl; [reflexivity|].
  intros H. apply andb_true_iff in H as [Hc Hr].
  destruct (is_digit c) eqn:E.
  - apply digit_not_space in E. congruence.
  - apply IH, Hr.
Qed.

Lemma stripNonDigits_digits (s : jsstring) :
  Forall (fun c => is_digit c = true) (Validation.stripNonDigits s).
Proof. apply keep_only_Forall. Qed.

End Trimming.

(** ** Patterns and their languages *)

Section RegexProperties.
Import Regex.

Lemma nullable_matches (r : Regex.t) :
  nullable r = true <-> matches r [].
Proof.
  split.
  - induction r as [| |p|a IHa b IHb|a IHa b IHb|a IHa]; simpl; intros H;
      try discriminate.
    + constructor.
    + apply andb_true_iff in H as [Ha Hb].
      change (@nil N) with (@nil N ++ @nil N). constructor; auto.
    + apply orb_true_iff in H as [Ha|Hb];
        [apply m_alt_l | apply m_alt_r]; auto.
    + constructor.
  - intros H. remember (@nil N) as s eqn:Es.
    induction H as [|p c Hp|a b s1 s2 Ha IHa Hb IHb|a b s Ha IHa|a b s Hb IHb
                    |a|a s1 s2 Ha IHa Hs IHs]; simpl; try reflexivity.
    + discriminate.
    + apply app_eq_nil in Es as [-> ->].
      rewrite IHa, IHb; reflexivity.
    + rewrite IHa; auto.
    + rewrite IHb; auto using orb_true_r.
Qed.

Lemma deriv_sound (c : N) (r : Regex.t) :
  forall s, matches (deriv c r) s -> matches r (c :: s).
Proof.
  induction r as [| |p|a IHa b IHb|a IHa b IHb|a IHa]; simpl; intros s H.
  - inversion H.
  - inversion H.
  - destruct (p c) eqn:E; inversion H; subst. constructor. exact E.
  - destruct (nullable a) eqn:En.
    + inversion H as [| | |? ? ? Hl|? ? ? Hr| |]; subst.
      * inversion Hl as [| |? ? s1 s2 H1 H2| | | |]; subst.
        change (c :: s1 ++ s2) with ((c :: s1) ++ s2). constructor; auto.
      * change (c :: s) with ([] ++ c :: s). constructor; auto.
        apply nullable_matches. exact En.
    + inversion H as [| |? ? s1 s2 H1 H2| | | |]; subst.
      change (c :: s1 ++ s2) with ((c :: s1) ++ s2). constructor; auto.
  - inversion H; subst; [apply m_alt_l | apply m_alt_r]; auto.
  - inversion H as [| |? ? s1 s2 H1 H2| | | |]; subst.
    change (c :: s1 ++ s2) with ((c :: s1) ++ s2). constructor; auto.
Qed.

Lemma deriv_complete (c : N) (r : Regex.t) (cs : jsstring) :
  matches r cs -> forall s, cs = c :: s -> matches (deriv c r) s.
Proof.
  induction 1 as [|p d Hp|a b s1 s2 Ha IHa Hb IHb|a b s' Ha IHa|a b s' Hb IHb
                  |a|a s1 s2 Ha IHa Hs IHs]; intros s E; simpl.
  - discriminate.
  - injection E as -> <-. rewrite Hp. constructor.
  - destruct s1 as [|d s1'].
    + simpl in E. subst s2.
      assert (En : nullable a = true) by (apply nullable_matches; exact Ha).
      rewrite En. apply m_alt_r. apply IHb. reflexivity.
    + simpl in E. injection E as -> <-.
      assert (Hd : matches (Seq (deriv c a) b) (s1' ++ s2))
        by (constructor; auto).
      destruct (nullable a); [apply m_alt_l|]; exact Hd.
  - apply m_alt_l. auto.
  - apply m_alt_r. auto.
  - discriminate.
  - destruct s1 as [|d s1'].
    + simpl in E. apply IHs in E. exact E.
    + simpl in E. injection E as -> <-. constructor; auto.
Qed.

(** [test] decides membership in the pattern's language. *)
Lemma test_matches (s : jsstring) :
  forall r, test r s = true <-> matches r s.
Proof.
  induction s as [|c s IH]; intros r; simpl.
  - apply nullable_matches.
  - rewrite IH. split.
    + apply deriv_sound.
    + intros H. apply (deriv_complete c r (c :: s) H). reflexivity.
Qed.

Lemma matches_star_class (p : N -> bool) (s : jsstring) :
  Forall (fun c => p c = true) s -> matches (Star (Class p)) s.
Proof.
  induction 1 as [|c r Hc Hr IH]; [constructor|].
  change (c :: r) with ([c] ++ r). constructor; [constructor; exact Hc | exact IH].
Qed.

(** [/^\d+$/] and the like accept every non-empty run of the class. *)
Lemma test_plus_class (p : N -> bool) (s : jsstring) :
  Forall (fun c => p c = true) s -> s <> [] ->
  test (AtLeast 1 (Class p)) s = true.
Proof.
  intros H Hne. apply test_matches.
  destruct H as [|c r Hc Hr]; [congruence|].
  change (c :: r) with (([c] ++ []) ++ r).
  repeat constructor; [exact Hc | apply matches_star_class; exact Hr].
Qed.

End RegexProperties.

(** ** Card number and CVV *)

Section CardProperties.
Import JsString Validation.

(** The loop adds up what the specification's sum does. *)
Lemma luhn_fold (l : jsstring) :
  (forall acc,
      fst (fold_left luhn_step l (acc, false))
      = acc + Luhn.sum_from_right (map digit_value l))
  /\ (forall acc c,
      fst (fold_left luhn_step (c :: l) (acc, false))
      = acc + Luhn.sum_from_right (map digit_value (c :: l))).
Proof.
  induction l as [|a l [IH1 IH2]].
  - split; intros; simpl; lia.
  - split; [intros acc; apply IH2|].
    intros acc c. cbn [fold_left luhn_step negb map Luhn.sum_from_right].
    rewrite IH1. unfold Luhn.doubled.
    replace (digit_value a * 2) with (2 * digit_value a) by lia.
    destruct (9 <? 2 * digit_value a); lia.
Qed.

Lemma luhn_loop_checksum (digits : jsstring) :
  fst (luhn_loop digits) = Luhn.checksum digits.
Proof.
  unfold luhn_loop, Luhn.checksum.
  rewrite (proj1 (luhn_fold (rev digits)) 0). lia.
Qed.

(** C3. For every input string, [validateCardNumber] is valid exactly when
    the digits left after stripping every other character number 13 to 19
    and their Luhn checksum holds; it accepts [4111 1111 1111 1111] and
    rejects [4111 1111 1111 1112]. *)
Theorem validateCardNumber_luhn :
  (forall cardNumber : jsstring,
      let digits := stripNonDigits cardNumber in
      valid (validateCardNumber cardNumber) = true
      <-> ((13 <= List.length digits <= 19)%nat /\ Luhn.holds digits))
  /\ valid (validateCardNumber (str "4111 1111 1111 1111")) = true
  /\ valid (validateCardNumber (str "4111 1111 1111 1112")) = false.
Proof.
  split; [|split; vm_compute; reflexivity].
  intros cardNumber digits. unfold validateCardNumber.
  rewrite missing_blank. fold digits.
  destruct (blank cardNumber) eqn:Eb.
  - apply blank_stripNonDigits in Eb. unfold digits. rewrite Eb. simpl.
    split; [discriminate | intros [[H _] _]; lia].
  - destruct ((Z.of_nat (List.length digits) <? 13)
              || (19 <? Z.of_nat (List.length digits))) eqn:El.
    + simpl. split; [discriminate|]. intros [[H1 H2] _].
      apply orb_true_iff in El as [El|El]; apply Z.ltb_lt in El; lia.
    + apply orb_false_iff in El as [E1 E2].
      apply Z.ltb_ge in E1, E2.
      cbn [valid verdict]. rewrite luhn_loop_checksum.
      unfold Luhn.holds. rewrite Z.eqb_eq.
      rewrite <- (Z.rem_divide (Luhn.checksum digits) 10) by lia.
      split; [intros H; split; [lia | exact H] | intros [_ H]; exact H].
Qed.

(** C7. For every CVV string and every card type, [validateCVV] is valid
    exactly when the string holds 3 or 4 digits once every other character
    is stripped; the expected length of the network (4 for amex, 3 for the
    others) is not part of the test, so the result is the same for every
    card type. *)
Theorem validateCVV_three_or_four (cvv : jsstring) (type : cardType) :
  (valid (validateCVV cvv type) = true
   <-> (List.length (stripNonDigits cvv) = 3%nat
        \/ List.length (stripNonDigits cvv) = 4%nat))
  /\ (forall other : cardType, validateCVV cvv type = validateCVV cvv other).
Proof.
  split; [|intros other; reflexivity].
  unfold validateCVV. rewrite missing_blank.
  destruct (blank cvv) eqn:Eb.
  - apply blank_stripNonDigits in Eb. rewrite Eb. simpl.
    split; [discriminate | intros [H|H]; discriminate].
  - cbn [valid verdict].
    pose proof (stripNonDigits_digits cvv) as Hd.
    set (digits := stripNonDigits cvv) in *.
    split.
    + intros H. apply andb_true_iff in H as [H _].
      apply andb_true_iff in H as [H1 H2].
      apply Z.leb_le in H1, H2. lia.
    + intros H.
      assert (Hne : digits <> []) by (destruct digits; [simpl in H; lia | discriminate]).
      unfold ValidationPatterns.digit.
      rewrite (test_plus_class _ _ Hd Hne).
      rewrite andb_true_r. apply andb_true_iff.
      split; apply Z.leb_le; lia.
Qed.

End CardProperties.

(** A valid Mastercard test number read through the equivalence, and a CVV
    of four digits typed with a space. *)
Lemma validateCardNumber_luhn_witness :
  Luhn.holds (Validation.stripNonDigits (str "5500-0000-0000-0004")).
Proof.
  destruct validateCardNumber_luhn as [H _].
  apply (proj1 (H (str "5500-0000-0000-0004"))). vm_compute. reflexivity.
Defined.

Lemma validateCVV_three_or_four_witness :
  valid (Validation.validateCVV (str "12 34") amex) = true.
Proof.
  apply (proj1 (validateCVV_three_or_four (str "12 34") amex)).
  right. vm_compute. reflexivity.
Defined.

(** ** Empty and blank input *)

Section RequiredProperties.
Import JsString Validation ValidationPatterns.

Lemma parseFloat_blank (s : jsstring) :
  blank s = true -> NumericLiteral.parseFloat s = JsNumber.NaN.
Proof.
  intros H. apply trimStart_nil in H.
  unfold NumericLiteral.parseFloat. rewrite H. reflexivity.
Qed.

Lemma parseInt_blank (s : jsstring) :
  blank s = true -> NumericLiteral.parseInt s = None.
Proof.
  intros H. apply trimStart_nil in H.
  unfold NumericLiteral.parseInt. rewrite H. reflexivity.
Qed.

(** C5, as the code has it. The email, name, phone, postal code, address,
    city, card number, expiry and CVV validators answer every empty or
    blank input with the [required] message. The currency and quantity
    validators answer [required] on the empty string, [null] and
    [undefined] only: a blank string that is not empty gets their own
    message. *)
Theorem blank_input_required :
  (forall (s : jsstring) (field : nameField) (c : country) (now : Date)
          (type : cardType),
      blank s = true ->
      validateEmail s = invalid ErrorMessages.required
      /\ validateName s field = invalid ErrorMessages.required
      /\ validatePhone s c = invalid ErrorMessages.required
      /\ validatePostalCode s c = invalid ErrorMessages.required
      /\ validateAddress s = invalid ErrorMessages.required
      /\ validateCity s = invalid ErrorMessages.required
      /\ validateCardNumber s = invalid ErrorMessages.required
      /\ validateCardExpiry now s = invalid ErrorMessages.required
      /\ validateCVV s type = invalid ErrorMessages.required)
  /\ (forall x : text_arg,
        absent x = true ->
        validateCurrency x = invalid ErrorMessages.required
        /\ validateQuantity x = invalid ErrorMessages.required)
  /\ (forall s : jsstring,
        blank s = true -> s <> [] ->
        validateCurrency (Text s) = invalid ErrorMessages.currency
        /\ validateQuantity (Text s) = invalid ErrorMessages.quantity).
Proof.
  split; [|split].
  - intros s field c now type H.
    unfold validateEmail, validateName, validatePhone, validatePostalCode,
      validateAddress, validateCity, validateCardNumber, validateCardExpiry,
      validateCVV.
    rewrite missing_blank, H. repeat split.
  - intros x H. unfold validateCurrency, validateQuantity.
    rewrite H. split; reflexivity.
  - intros s H Hne. unfold validateCurrency, validateQuantity.
    assert (Ha : absent (Text s) = false) by (destruct s; [congruence | reflexivity]).
    rewrite Ha. simpl String_of.
    rewrite (parseFloat_blank s H), (parseInt_blank s H).
    split; reflexivity.
Qed.

(** The currency and quantity validators on a single space, a blank input:
    invalid with their own messages, neither of them the [required] one. *)
Lemma blank_amount_not_required :
  blank (str " ") = true
  /\ validateCurrency (Text (str " ")) = invalid ErrorMessages.currency
  /\ validateQuantity (Text (str " ")) = invalid ErrorMessages.quantity
  /\ ErrorMessages.currency <> ErrorMessages.required
  /\ ErrorMessages.quantity <> ErrorMessages.required.
Proof. repeat split; try reflexivity; discriminate. Qed.

Lemma blank_input_required_witness :
  validateEmail (str "  ") = invalid ErrorMessages.required
  /\ validateCurrency (Text []) = invalid ErrorMessages.required
  /\ validateQuantity (Text (str " ")) = invalid ErrorMessages.quantity.
Proof.
  destruct blank_input_required as (H1 & H2 & H3).
  split; [|split].
  - apply (H1 (str "  ") firstName NZ
             {| getFullYear := 2026; getMonth := 10 |} visa eq_refl).
  - apply (H2 (Text []) eq_refl).
  - apply (H3 (str " ") eq_refl). discriminate.
Defined.

End RequiredProperties.

(** ** Quantity *)

Section QuantityProperties.
Import JsString Validation.

(** C6. For every non-empty string whose integer parse is [n],
    [validateQuantity] is valid exactly when [1 <= n <= 99]; below 1, and
    when the parse fails, it is invalid with the quantity message; above
    99 it is invalid with the maximum message, a different one. [0] is
    invalid, [99] is valid and [100] is invalid with the maximum message. *)
Theorem validateQuantity_range :
  (forall s : jsstring,
      s <> [] ->
      (forall n : Z,
          NumericLiteral.parseInt s = Some n ->
          (valid (validateQuantity (Text s)) = true <-> 1 <= n <= 99)
          /\ (n < 1 ->
              validateQuantity (Text s) = invalid ErrorMessages.quantity)
          /\ (99 < n ->
              validateQuantity (Text s) = invalid ErrorMessages.quantityMax))
      /\ (NumericLiteral.parseInt s = None ->
          validateQuantity (Text s) = invalid ErrorMessages.quantity))
  /\ ErrorMessages.quantityMax <> ErrorMessages.quantity
  /\ validateQuantity (Text (str "0")) = invalid ErrorMessages.quantity
  /\ validateQuantity (Text (str "99")) = ok
  /\ validateQuantity (Text (str "100")) = invalid ErrorMessages.quantityMax.
Proof.
  split; [|repeat split; try reflexivity; discriminate].
  intros s Hne.
  assert (Ha : absent (Text s) = false) by (destruct s; [congruence | reflexivity]).
  unfold validateQuantity. rewrite Ha. simpl String_of.
  split.
  - intros n ->.
    destruct (n <? 1) eqn:E1; [|destruct (99 <? n) eqn:E2]; simpl;
      try apply Z.ltb_lt in E1; try apply Z.ltb_ge in E1;
      try apply Z.ltb_lt in E2; try apply Z.ltb_ge in E2;
      repeat split; intros; try reflexivity; try discriminate; try lia.
  - intros ->. reflexivity.
Qed.

Lemma validateQuantity_range_witness :
  valid (validateQuantity (Text (str "42"))) = true
  /\ validateQuantity (Text (str "250")) = invalid ErrorMessages.quantityMax
  /\ validateQuantity (Text (str "-3")) = invalid ErrorMessages.quantity
  /\ validateQuantity (Text (str "many")) = invalid ErrorMessages.quantity.
Proof.
  destruct validateQuantity_range as [H _].
  assert (N1 : str "42" <> []) by (simpl; discriminate).
  assert (N2 : str "250" <> []) by (simpl; discriminate).
  assert (N3 : str "-3" <> []) by (simpl; discriminate).
  assert (N4 : str "many" <> []) by (simpl; discriminate).
  split; [|split; [|split]].
  - apply (proj1 (H (str "42") N1) 42 eq_refl). lia.
  - apply (proj1 (H (str "250") N2) 250 eq_refl). lia.
  - apply (proj1 (H (str "-3") N3) (-3) eq_refl). lia.
  - apply (proj2 (H (str "many") N4) eq_refl).
Defined.

End QuantityProperties.

(** ** Card expiry *)

Section ExpiryProperties.
Import JsString Validation ExpiryFormat Regex.

Lemma is_digit_bounds (c : N) : is_digit c = true <-> (48 <= c <= 57)%N.
Proof.
  unfold is_digit, in_range. rewrite andb_true_iff, !N.leb_le. tauto.
Qed.

Lemma in_range_bounds (lo hi c : N) :
  in_range lo hi c = true <-> (lo <= c <= hi)%N.
Proof. unfold in_range. rewrite andb_true_iff, !N.leb_le. tauto. Qed.

Lemma matches_optional_space (ws : jsstring) :
  matches (Opt ValidationPatterns.space) ws <-> optional_space ws.
Proof.
  unfold Opt, ValidationPatterns.space, optional_space. split.
  - intros H. inversion H as [| | |? ? ? Hl|? ? ? Hr| |]; subst.
    + inversion Hl; subst. right. eauto.
    + inversion Hr; subst. left. reflexivity.
  - intros [->|(w & -> & Hw)].
    + apply m_alt_r. constructor.
    + apply m_alt_l. constructor. exact Hw.
Qed.

Lemma matches_two_digits (s : jsstring) :
  matches (Rep 2 ValidationPatterns.digit) s
  <-> exists a b, s = [a; b] /\ is_digit a = true /\ is_digit b = true.
Proof.
  unfold ValidationPatterns.digit. simpl. split.
  - intros H.
    inversion H as [| |? ? s1 s2 Hfst Hsnd| | | |]; subst.
    inversion Hfst; subst.
    inversion Hsnd as [| |? ? s3 s4 Hthird Hend| | | |]; subst.
    inversion Hthird; subst. inversion Hend; subst.
    eauto 6.
  - intros (a & b & -> & Ha & Hb).
    change [a; b] with ([a] ++ [b] ++ []).
    repeat constructor; assumption.
Qed.

(** The month part of the pattern: [0[1-9]|1[0-2]]. *)
Lemma matches_month (s : jsstring) :
  matches (Alt (Seq (Chr "0") (Class (in_range 49 57)))
               (Seq (Chr "1") (Class (in_range 48 50)))) s
  <-> exists a b, s = [a; b] /\ is_digit a = true /\ is_digit b = true
                  /\ 1 <= two_digits a b <= 12.
Proof.
  unfold Chr, two_digits, digit_value.
  change (N_of_ascii "0") with 48%N. change (N_of_ascii "1") with 49%N.
  split.
  - intros H.
    inversion H as [| | |? ? ? Hl|? ? ? Hr| |]; subst;
      [inversion Hl as [| |? ? s1 s2 Hfst Hsnd| | | |]
      |inversion Hr as [| |? ? s1 s2 Hfst Hsnd| | | |]]; subst;
      inversion Hfst as [|? a Ha| | | | |]; subst;
      inversion Hsnd as [|? b Hb| | | | |]; subst;
      apply N.eqb_eq in Ha; apply in_range_bounds in Hb; subst a;
      eexists _, b;
      (split; [reflexivity|]);
      (split; [reflexivity|]);
      (split; [apply is_digit_bounds; lia|]); lia.
  - intros (a & b & -> & Ha & Hb & Hm).
    apply is_digit_bounds in Ha, Hb.
    change [a; b] with ([a] ++ [b]).
    assert (Hcase : a = 48%N \/ a = 49%N) by lia.
    destruct Hcase as [-> | ->].
    + apply m_alt_l. constructor; constructor;
        [reflexivity | apply in_range_bounds; lia].
    + apply m_alt_r. constructor; constructor;
        [reflexivity | apply in_range_bounds; lia].
Qed.

(** The pattern [cardExpiry] accepts exactly the strings of the format. *)
Lemma cardExpiry_well_formed (s : jsstring) :
  test ValidationPatterns.cardExpiry s = true <-> well_formed s.
Proof.
  rewrite test_matches. unfold ValidationPatterns.cardExpiry, well_formed, MM_YY.
  split.
  - intros H.
    inversion H as [| |? ? sm r1 Hm Hr1| | | |]; subst.
    inversion Hr1 as [| |? ? w1 r2 Hw1 Hr2| | | |]; subst.
    inversion Hr2 as [| |? ? sl r3 Hsl Hr3| | | |]; subst.
    inversion Hr3 as [| |? ? w2 sy Hw2 Hy| | | |]; subst.
    apply matches_month in Hm as (m1 & m2 & -> & Hm1 & Hm2 & Hrange).
    apply matches_optional_space in Hw1, Hw2.
    apply matches_two_digits in Hy as (y1 & y2 & -> & Hy1 & Hy2).
    unfold Chr in Hsl. change (N_of_ascii "/") with 47%N in Hsl.
    inversion Hsl as [|? c Hc| | | | |]; subst.
    apply N.eqb_eq in Hc. subst c.
    exists (two_digits m1 m2), (two_digits y1 y2), m1, m2, w1, w2, y1, y2.
    repeat split; try assumption; lia.
  - intros (month & yy & m1 & m2 & ws1 & ws2 & y1 & y2 & -> & Hm1 & Hm2
            & Hy1 & Hy2 & Hw1 & Hw2 & -> & Hrange & ->).
    constructor; [apply matches_month; eauto 7|].
    constructor; [apply matches_optional_space; exact Hw1|].
    constructor; [constructor; reflexivity|].
    constructor; [apply matches_optional_space; exact Hw2|].
    apply matches_two_digits. eauto.
Qed.

Lemma span_digits (ds : jsstring) :
  Forall (fun c => is_digit c = true) ds ->
  NumericLiteral.span is_digit ds = (ds, []).
Proof.
  induction 1 as [|d r Hd Hr IH]; simpl; [reflexivity|].
  rewrite Hd, IH. reflexivity.
Qed.

(** [parseInt] on a run of digits reads all of it. *)
Lemma parseInt_digits (d : N) (r : jsstring) :
  Forall (fun c => is_digit c = true) (d :: r) ->
  NumericLiteral.parseInt (d :: r)
  = Some (NumericLiteral.decimal_value (d :: r)).
Proof.
  intros H. pose proof (span_digits _ H) as Hsp.
  inversion H as [|? ? Hd _]; subst.
  pose proof (digit_not_space d Hd) as Hns.
  apply is_digit_bounds in Hd.
  unfold NumericLiteral.parseInt. cbn [trimStart]. rewrite Hns.
  unfold NumericLiteral.scan_sign, NumericLiteral.is_sign.
  assert (E1 : (d =? 43)%N = false) by (apply N.eqb_neq; lia).
  assert (E2 : (d =? 45)%N = false) by (apply N.eqb_neq; lia).
  rewrite E1, E2. cbn [orb]. rewrite Hsp. reflexivity.
Qed.

Lemma keep_nonspace_optional (ws : jsstring) :
  optional_space ws -> keep_only (fun c => negb (is_space c)) ws = [].
Proof.
  intros [->|(w & -> & Hw)]; [reflexivity|].
  unfold keep_only. simpl. rewrite Hw. reflexivity.
Qed.

(** What the validator reads in a string of the format: its month and the
    year 2000 + YY. *)
Lemma expiry_parts (s : jsstring) (month yy : Z) :
  MM_YY s month yy ->
  let parts := split 47 (keep_only (fun c => negb (is_space c)) s) in
  NumericLiteral.parseInt (String_of (part parts 0)) = Some month
  /\ NumericLiteral.parseInt (str "20" ++ String_of (part parts 1))
     = Some (2000 + yy).
Proof.
  intros (m1 & m2 & ws1 & ws2 & y1 & y2 & -> & Hm1 & Hm2 & Hy1 & Hy2
          & Hw1 & Hw2 & -> & _ & ->).
  assert (Hclean :
            keep_only (fun c => negb (is_space c))
              ([m1; m2] ++ ws1 ++ [47%N] ++ ws2 ++ [y1; y2])
            = [m1; m2; 47%N; y1; y2]).
  { unfold keep_only. rewrite !List.filter_app.
    fold (keep_only (fun c => negb (is_space c)) ws1).
    fold (keep_only (fun c => negb (is_space c)) ws2).
    rewrite (keep_nonspace_optional ws1 Hw1), (keep_nonspace_optional ws2 Hw2).
    cbn [List.filter app].
    rewrite (digit_not_space m1 Hm1), (digit_not_space m2 Hm2),
      (digit_not_space y1 Hy1), (digit_not_space y2 Hy2).
    reflexivity. }
  cbv zeta. rewrite Hclean.
  assert (Hsplit : split 47 [m1; m2; 47%N; y1; y2] = [[m1; m2]; [y1; y2]]).
  { pose proof (proj1 (is_digit_bounds _) Hm1).
    pose proof (proj1 (is_digit_bounds _) Hm2).
    pose proof (proj1 (is_digit_bounds _) Hy1).
    pose proof (proj1 (is_digit_bounds _) Hy2).
    cbn [split].
    replace (m1 =? 47)%N with false by (symmetry; apply N.eqb_neq; lia).
    replace (m2 =? 47)%N with false by (symmetry; apply N.eqb_neq; lia).
    replace (y1 =? 47)%N with false by (symmetry; apply N.eqb_neq; lia).
    replace (y2 =? 47)%N with false by (symmetry; apply N.eqb_neq; lia).
    reflexivity. }
  rewrite Hsplit. cbn [part nth_error String_of].
  split.
  - rewrite parseInt_digits by (repeat constructor; assumption).
    unfold NumericLiteral.decimal_value, NumericLiteral.digits_value, two_digits.
    simpl. f_equal. lia.
  - change (str "20" ++ [y1; y2]) with [50%N; 48%N; y1; y2].
    rewrite parseInt_digits by (repeat constructor; assumption).
    unfold NumericLiteral.decimal_value, NumericLiteral.digits_value, two_digits.
    cbn [fold_left]. change (digit_value 50) with 2. change (digit_value 48) with 0.
    f_equal. lia.
Qed.

Lemma well_formed_not_blank (s : jsstring) :
  well_formed s -> blank s = false.
Proof.
  intros (month & yy & m1 & m2 & ws1 & ws2 & y1 & y2 & -> & Hm1 & _).
  simpl. rewrite (digit_not_space m1 Hm1). reflexivity.
Qed.

(** C4, as the code has it. On a string of the format [MM/YY], with the
    year read as 2000 + YY: when year and month are strictly before the
    current year and month the result is invalid with the expired message;
    otherwise, when the year is more than 10 above the current year, it is
    invalid with the format message; otherwise it is valid. A string that
    is not blank and not of the format is invalid with the format message;
    a blank string is invalid with the required message. *)
Theorem validateCardExpiry_cases (now : Date) (s : jsstring) :
  let currentYear := getFullYear now in
  let currentMonth := getMonth now + 1 in
  (forall month yy : Z,
      MM_YY s month yy ->
      let year := 2000 + yy in
      let past :=
        year < currentYear \/ (year = currentYear /\ month < currentMonth) in
      (past ->
       validateCardExpiry now s = invalid ErrorMessages.cardExpiryPast)
      /\ (~ past -> currentYear + 10 < year ->
          validateCardExpiry now s = invalid ErrorMessages.cardExpiry)
      /\ (~ past -> year <= currentYear + 10 ->
          validateCardExpiry now s = ok))
  /\ (~ well_formed s -> blank s = false ->
      validateCardExpiry now s = invalid ErrorMessages.cardExpiry)
  /\ (blank s = true ->
      validateCardExpiry now s = invalid ErrorMessages.required)
  /\ ErrorMessages.cardExpiryPast <> ErrorMessages.cardExpiry.
Proof.
  intros currentYear currentMonth.
  split; [|split; [|split; [|discriminate]]].
  - intros month yy Hform year past.
    assert (Hwf : well_formed s) by (exists month, yy; exact Hform).
    pose proof (expiry_parts s month yy Hform) as [Hmonth Hyear].
    cbv zeta in Hmonth, Hyear.
    unfold validateCardExpiry.
    rewrite missing_blank, (well_formed_not_blank s Hwf).
    rewrite (proj2 (cardExpiry_well_formed s) Hwf).
    cbn [negb]. rewrite Hmonth, Hyear. cbn [int_lt int_eq].
    fold year currentYear currentMonth.
    unfold past.
    destruct (Z.ltb_spec year currentYear) as [E1|E1];
      destruct (Z.eqb_spec year currentYear) as [E2|E2];
      destruct (Z.ltb_spec month currentMonth) as [E3|E3];
      destruct (Z.ltb_spec (currentYear + 10) year) as [E4|E4];
      cbn [orb andb];
      repeat split; intros; try reflexivity; exfalso; lia.
  - intros Hnot Hnb. unfold validateCardExpiry.
    rewrite missing_blank, Hnb.
    destruct (test ValidationPatterns.cardExpiry s) eqn:E; [|reflexivity].
    apply cardExpiry_well_formed in E. contradiction.
  - intros Hb. unfold validateCardExpiry.
    rewrite missing_blank, Hb. reflexivity.
Qed.

End ExpiryProperties.

(** Two inputs on which the expiry validator departs from the rule "not of
    the format, hence the format message; more than 10 years ahead, hence
    invalid": the empty string is not of the format and gets the required
    message; in November 2026 the expiry [12/36] lies 121 months ahead and is
    valid. *)
Lemma validateCardExpiry_not_as_claimed :
  (~ ExpiryFormat.well_formed []
   /\ Validation.validateCardExpiry Sample.november_2026 []
      = invalid ErrorMessages.required
   /\ ErrorMessages.required <> ErrorMessages.cardExpiry)
  /\ (ExpiryFormat.MM_YY (str "12/36") 12 36
      /\ (12 * (2000 + 36) + 12) - (12 * 2026 + 11) > 12 * 10
      /\ Validation.validateCardExpiry Sample.november_2026 (str "12/36") = ok).
Proof.
  split; split.
  - intros (month & yy & m1 & m2 & ws1 & ws2 & y1 & y2 & E & _).
    discriminate E.
  - split; [reflexivity | discriminate].
  - exists 49%N, 50%N, [], [], 51%N, 54%N.
    repeat split; try reflexivity; try (left; reflexivity); try discriminate.
  - split; [lia | reflexivity].
Qed.

(** In November 2026: [01/20] has expired, [12 / 35] is valid, [01/37] is
    too far ahead, [1/30] is not of the format. *)
Lemma validateCardExpiry_cases_witness :
  Validation.validateCardExpiry Sample.november_2026 (str "01/20")
    = invalid ErrorMessages.cardExpiryPast
  /\ Validation.validateCardExpiry Sample.november_2026 (str "12 / 35") = ok
  /\ Validation.validateCardExpiry Sample.november_2026 (str "01/37")
    = invalid ErrorMessages.cardExpiry
  /\ Validation.validateCardExpiry Sample.november_2026 (str "1/30")
    = invalid ErrorMessages.cardExpiry.
Proof.
  assert (form : forall m1 m2 ws1 ws2 y1 y2 month yy,
             JsString.is_digit m1 = true -> JsString.is_digit m2 = true ->
             JsString.is_digit y1 = true -> JsString.is_digit y2 = true ->
             ExpiryFormat.optional_space ws1 -> ExpiryFormat.optional_space ws2 ->
             month = ExpiryFormat.two_digits m1 m2 -> 1 <= month <= 12 ->
             yy = ExpiryFormat.two_digits y1 y2 ->
             ExpiryFormat.MM_YY ([m1; m2] ++ ws1 ++ [47%N] ++ ws2 ++ [y1; y2])
               month yy).
  { intros. exists m1, m2, ws1, ws2, y1, y2. repeat split; assumption || lia. }
  assert (one_space : ExpiryFormat.optional_space [32%N])
    by (right; exists 32%N; split; reflexivity).
  assert (no_space : ExpiryFormat.optional_space []) by (left; reflexivity).
  split; [|split; [|split]].
  - apply (proj1 (validateCardExpiry_cases Sample.november_2026 (str "01/20")) 1 20).
    + apply (form 48%N 49%N [] [] 50%N 48%N); try reflexivity; try assumption.
      vm_compute. split; discriminate.
    + cbv zeta. simpl. lia.
  - apply (proj1 (validateCardExpiry_cases Sample.november_2026 (str "12 / 35")) 12 35).
    + apply (form 49%N 50%N [32%N] [32%N] 51%N 53%N); try reflexivity; try assumption.
      vm_compute. split; discriminate.
    + cbv zeta. simpl. lia.
    + cbv zeta. simpl. lia.
  - apply (proj1 (validateCardExpiry_cases Sample.november_2026 (str "01/37")) 1 37).
    + apply (form 48%N 49%N [] [] 51%N 55%N); try reflexivity; try assumption.
      vm_compute. split; discriminate.
    + cbv zeta. simpl. lia.
    + cbv zeta. simpl. lia.
  - apply (proj2 (validateCardExpiry_cases Sample.november_2026 (str "1/30"))).
    + intros (month & yy & m1 & m2 & ws1 & ws2 & y1 & y2 & E & _ & H2 & _).
      change (str "1/30") with [49%N; 47%N; 51%N; 48%N] in E.
      cbn [app] in E. injection E as <- <- _.
      vm_compute in H2. discriminate H2.
    + reflexivity.
Defined.

(** * Further properties of the scripts *)

(** ** Repetitions of a character class *)

Section ClassRepetitions.
Import Regex.

Variable p : N -> bool.

Abbreviation all_in s := (Forall (fun c => p c = true) s).

Lemma matches_rep_class (n : nat) (s : jsstring) :
  matches (Rep n (Class p)) s <-> List.length s = n /\ all_in s.
Proof.
  revert s. induction n as [|n IH]; intros s; simpl.
  - split.
    + intros H. inversion H; subst. split; [reflexivity | constructor].
    + intros [H _]. destruct s; [constructor | discriminate].
  - split.
    + intros H. inversion H as [| |? ? s1 s2 Hc Hr| | | |]; subst.
      inversion Hc; subst. apply IH in Hr as [Hl Hf].
      simpl. split; [congruence | constructor; assumption].
    + intros [Hl Hf]. destruct s as [|c r]; [discriminate|].
      inversion Hf; subst. change (c :: r) with ([c] ++ r).
      constructor; [constructor; assumption|].
      apply IH. split; [simpl in Hl; congruence | assumption].
Qed.

Lemma matches_upto_class (n : nat) (s : jsstring) :
  matches (UpTo n (Class p)) s <-> (List.length s <= n)%nat /\ all_in s.
Proof.
  revert s. induction n as [|n IH]; intros s; simpl.
  - split.
    + intros H. inversion H; subst. split; [simpl; lia | constructor].
    + intros [H _]. destruct s; [constructor | simpl in H; lia].
  - unfold Opt. split.
    + intros H. inversion H as [| | |? ? ? Hl|? ? ? Hr| |]; subst.
      * inversion Hl as [| |? ? s1 s2 Hc Hrest| | | |]; subst.
        inversion Hc; subst. apply IH in Hrest as [Hlen Hf].
        simpl. split; [lia | constructor; assumption].
      * inversion Hr; subst. split; [simpl; lia | constructor].
    + intros [Hl Hf]. destruct s as [|c r].
      * apply m_alt_r. constructor.
      * inversion Hf; subst. apply m_alt_l. change (c :: r) with ([c] ++ r).
        constructor; [constructor; assumption|].
        apply IH. split; [simpl in Hl; lia | assumption].
Qed.

Lemma star_class_all (s : jsstring) :
  matches (Star (Class p)) s -> all_in s.
Proof.
  intros H. remember (Star (Class p)) as r eqn:Er.
  induction H as [|q c Hq|a b s1 s2 Ha IHa Hb IHb|a b s' Ha IHa|a b s' Hb IHb
                  |a|a s1 s2 Ha IHa Hs IHs]; try discriminate.
  - constructor.
  - injection Er as ->. inversion Ha; subst.
    constructor; [assumption | apply IHs; reflexivity].
Qed.

Lemma all_in_app (s1 s2 : jsstring) :
  all_in (s1 ++ s2) <-> all_in s1 /\ all_in s2.
Proof. apply Forall_app. Qed.

(** [[class]{m,n}] accepts the runs of the class of [m] to [n] units. *)
Lemma matches_range_class (m n : nat) (s : jsstring) :
  (m <= n)%nat ->
  matches (Range m n (Class p)) s
  <-> (m <= List.length s <= n)%nat /\ all_in s.
Proof.
  intros Hmn. unfold Range. split.
  - intros H. inversion H as [| |? ? s1 s2 H1 H2| | | |]; subst.
    apply matches_rep_class in H1 as [L1 F1].
    apply matches_upto_class in H2 as [L2 F2].
    rewrite length_app. split; [lia | apply all_in_app; split; assumption].
  - intros [Hl Hf].
    rewrite <- (firstn_skipn m s) in Hf |- *.
    apply all_in_app in Hf as [F1 F2].
    constructor.
    + apply matches_rep_class. split; [|assumption].
      rewrite length_firstn. lia.
    + apply matches_upto_class. split; [|assumption].
      rewrite length_skipn. lia.
Qed.

(** [[class]{m,}] accepts the runs of the class of at least [m] units. *)
Lemma matches_atleast_class (m : nat) (s : jsstring) :
  matches (AtLeast m (Class p)) s
  <-> (m <= List.length s)%nat /\ all_in s.
Proof.
  unfold AtLeast. split.
  - intros H. inversion H as [| |? ? s1 s2 H1 H2| | | |]; subst.
    apply matches_rep_class in H1 as [L1 F1].
    apply star_class_all in H2.
    rewrite length_app. split; [lia | apply all_in_app; split; assumption].
  - intros [Hl Hf].
    rewrite <- (firstn_skipn m s) in Hf |- *.
    apply all_in_app in Hf as [F1 F2].
    constructor.
    + apply matches_rep_class. split; [|assumption].
      rewrite length_firstn. lia.
    + apply matches_star_class. assumption.
Qed.

End ClassRepetitions.

(** ** Postal codes *)

Section PostalProperties.
Import JsString Validation ValidationPatterns Regex.

Lemma upper_digit (c : N) :
  is_digit (if is_lower c then (c - 32)%N else c) = is_digit c.
Proof.
  unfold is_digit, is_lower, in_range.
  destruct ((97 <=? c)%N && (c <=? 122)%N) eqn:E; [|reflexivity].
  apply andb_true_iff in E as [E1 E2]. apply N.leb_le in E1, E2.
  apply eq_true_iff_eq. rewrite !andb_true_iff, !N.leb_le. lia.
Qed.

Lemma upper_hyphen (c : N) :
  (if is_lower c then (c - 32)%N else c) = 45%N -> c = 45%N.
Proof.
  unfold is_lower, in_range.
  destruct ((97 <=? c)%N && (c <=? 122)%N) eqn:E; [|tauto].
  apply andb_true_iff in E as [E1 E2]. apply N.leb_le in E1, E2. lia.
Qed.

Lemma toUpperCase_digits (t : jsstring) :
  Shape.digits (toUpperCase t) <-> Shape.digits t.
Proof.
  unfold Shape.digits, toUpperCase.
  induction t as [|c r IH]; simpl.
  - split; constructor.
  - split; intros H; inversion H; subst; constructor;
      try (apply IH; assumption);
      [rewrite <- upper_digit | rewrite upper_digit]; assumption.
Qed.

(** Upper-casing leaves a text alone when it yields digits and hyphens. *)
Lemma toUpperCase_plain (t : jsstring) :
  Forall (fun c => is_digit c = true \/ c = 45%N) (toUpperCase t) ->
  toUpperCase t = t.
Proof.
  unfold toUpperCase. induction t as [|c r IH]; simpl; [reflexivity|].
  intros H. inversion H as [|? ? Hc Hr]; subst. rewrite (IH Hr).
  f_equal. destruct Hc as [Hd|Hh].
  - rewrite upper_digit in Hd. apply is_digit_bounds in Hd.
    unfold is_lower, in_range.
    replace (97 <=? c)%N with false by (symmetry; apply N.leb_gt; lia).
    reflexivity.
  - apply upper_hyphen in Hh. subst c. reflexivity.
Qed.

Lemma toUpperCase_of_plain (t : jsstring) :
  Forall (fun c => is_digit c = true \/ c = 45%N) t ->
  toUpperCase t = t.
Proof.
  unfold toUpperCase. induction 1 as [|c r Hc Hr IH]; simpl; [reflexivity|].
  rewrite IH. f_equal. unfold is_lower, in_range.
  replace (97 <=? c)%N with false; [reflexivity|].
  symmetry. apply N.leb_gt.
  destruct Hc as [Hd| ->]; [apply is_digit_bounds in Hd|]; lia.
Qed.

Lemma digits_plain (t : jsstring) :
  Shape.digits t -> Forall (fun c => is_digit c = true \/ c = 45%N) t.
Proof. intros H. induction H; constructor; auto. Qed.

Lemma matches_us_zip (u : jsstring) :
  matches (Seq (Rep 5 digit) (Opt (Seq (Chr "-") (Rep 4 digit)))) u
  <-> Shape.us_zip u.
Proof.
  unfold Shape.us_zip, Shape.n_digits, Shape.digits, digit, Opt, Chr.
  change (N_of_ascii "-") with 45%N. split.
  - intros H. inversion H as [| |? ? zip rest Hz Hr| | | |]; subst.
    apply (matches_rep_class is_digit 5) in Hz.
    exists zip, rest. split; [reflexivity|]. split; [exact Hz|].
    inversion Hr as [| | |? ? ? Hl|? ? ? He| |]; subst.
    + right. inversion Hl as [| |? ? h four Hh Hf| | | |]; subst.
      inversion Hh as [|? c Hc| | | | |]; subst. apply N.eqb_eq in Hc. subst c.
      apply (matches_rep_class is_digit 4) in Hf.
      exists four. split; [reflexivity | exact Hf].
    + left. inversion He. reflexivity.
  - intros (zip & plus4 & -> & Hz & Hp).
    constructor; [apply (matches_rep_class is_digit 5); exact Hz|].
    destruct Hp as [->|(four & -> & Hf)].
    + apply m_alt_r. constructor.
    + apply m_alt_l. change (45%N :: four) with ([45%N] ++ four).
      constructor;
        [constructor; reflexivity | apply (matches_rep_class is_digit 4); exact Hf].
Qed.

Lemma us_zip_plain (u : jsstring) :
  Shape.us_zip u -> Forall (fun c => is_digit c = true \/ c = 45%N) u.
Proof.
  intros (zip & plus4 & -> & [_ Hz] & Hp).
  apply Forall_app. split; [apply digits_plain; exact Hz|].
  destruct Hp as [->|(four & -> & [_ Hf])]; [constructor|].
  constructor; [right; reflexivity | apply digits_plain; exact Hf].
Qed.

Lemma us_zip_length (u : jsstring) :
  Shape.us_zip u -> List.length u = 5%nat \/ List.length u = 10%nat.
Proof.
  intros (zip & plus4 & -> & [Lz _] & Hp). rewrite length_app.
  destruct Hp as [->|(four & -> & [Lf _])]; simpl; lia.
Qed.

Lemma validatePostalCode_NZ (postalCode : jsstring) :
  valid (validatePostalCode postalCode NZ) = true
  <-> Shape.n_digits 4 (trim postalCode).
Proof.
  unfold validatePostalCode. rewrite missing_blank.
  destruct (blank postalCode) eqn:Eb.
  - apply trim_nil in Eb. rewrite Eb. simpl.
    split; [discriminate | intros [H _]; discriminate].
  - cbn [postalCodes valid verdict].
    rewrite test_matches. unfold digit. rewrite matches_rep_class.
    unfold Shape.n_digits. unfold toUpperCase at 1. rewrite length_map.
    fold (Shape.digits (toUpperCase (trim postalCode))).
    rewrite toUpperCase_digits. reflexivity.
Qed.

Lemma validatePostalCode_US (postalCode : jsstring) :
  valid (validatePostalCode postalCode US) = true
  <-> Shape.us_zip (trim postalCode).
Proof.
  unfold validatePostalCode. rewrite missing_blank.
  destruct (blank postalCode) eqn:Eb.
  - apply trim_nil in Eb. rewrite Eb. simpl.
    split; [discriminate|]. intros H. apply us_zip_length in H.
    simpl in H. lia.
  - cbn [postalCodes valid verdict].
    rewrite test_matches, matches_us_zip. split.
    + intros H. rewrite <- (toUpperCase_plain (trim postalCode)); [exact H|].
      apply us_zip_plain. exact H.
    + intros H. rewrite (toUpperCase_of_plain (trim postalCode)); [exact H|].
      apply us_zip_plain. exact H.
Qed.

(** A code of four digits is no US ZIP code. *)
Lemma four_digits_not_US (postalCode : jsstring) :
  Shape.n_digits 4 (trim postalCode) ->
  valid (validatePostalCode postalCode US) = false.
Proof.
  intros [L _]. apply not_true_is_false. intros E.
  apply validatePostalCode_US, us_zip_length in E. lia.
Qed.

(** X1. [validatePostalCode] by country, on the trimmed input: New Zealand
    and Australia accept exactly four digits, the United States five digits
    with an optional hyphen and four more, every other country any input
    that is not blank; no input is valid for both New Zealand and the United
    States. *)
Theorem validatePostalCode_by_country (postalCode : jsstring) :
  let code := trim postalCode in
  (valid (validatePostalCode postalCode NZ) = true <-> Shape.n_digits 4 code)
  /\ valid (validatePostalCode postalCode AU)
     = valid (validatePostalCode postalCode NZ)
  /\ (valid (validatePostalCode postalCode US) = true <-> Shape.us_zip code)
  /\ (valid (validatePostalCode postalCode OtherCountry) = true
      <-> blank postalCode = false)
  /\ (valid (validatePostalCode postalCode NZ) = true ->
      valid (validatePostalCode postalCode US) = false).
Proof.
  intros code.
  split; [apply validatePostalCode_NZ|].
  split; [|split; [apply validatePostalCode_US|split]].
  - unfold validatePostalCode. rewrite missing_blank.
    destruct (blank postalCode); reflexivity.
  - unfold validatePostalCode. rewrite missing_blank.
    destruct (blank postalCode); simpl; split; congruence.
  - intros H. apply four_digits_not_US, validatePostalCode_NZ, H.
Qed.

End PostalProperties.

(** ** Names, phone numbers and e-mail addresses *)

Section TextFieldProperties.
Import JsString Validation ValidationPatterns Regex.

Lemma Forall_class_ext (p q : N -> bool) (s : jsstring) :
  (forall c, p c = q c) ->
  Forall (fun c => p c = true) s <-> Forall (fun c => q c = true) s.
Proof.
  intros E. split; intros H; induction H; constructor; auto; congruence.
Qed.

Lemma test_name_pattern (t : jsstring) :
  test ValidationPatterns.name t = true
  <-> (2 <= List.length t <= 50)%nat
      /\ Forall (fun c => Shape.name_char c = true) t.
Proof.
  rewrite test_matches. unfold ValidationPatterns.name.
  rewrite matches_range_class by lia.
  rewrite (Forall_class_ext _ Shape.name_char); [reflexivity|].
  intros c. unfold Shape.name_char, one_of. simpl.
  rewrite orb_false_r, !orb_assoc. reflexivity.
Qed.

(** X2. [validateName] and [validateCity] are valid exactly when the trimmed
    input has 2 to 50 characters, each a letter (ASCII or U+00C0 to U+00FF),
    a white-space character, a hyphen or an apostrophe; the kind of name
    changes the message only. *)
Theorem validateName_shape (name : jsstring) (fieldType : nameField) :
  (valid (validateName name fieldType) = true
   <-> (2 <= List.length (trim name) <= 50)%nat
       /\ Forall (fun c => Shape.name_char c = true) (trim name))
  /\ valid (validateCity name) = valid (validateName name fieldType)
  /\ (forall other, valid (validateName name other)
                    = valid (validateName name fieldType)).
Proof.
  unfold validateName, validateCity. rewrite missing_blank.
  destruct (blank name) eqn:Eb.
  - apply trim_nil in Eb. rewrite Eb. simpl.
    split; [|split; reflexivity].
    split; [discriminate | intros [[H _] _]; lia].
  - cbn [valid verdict]. split; [apply test_name_pattern | split; reflexivity].
Qed.

Lemma cleanPhone_chars (phone : jsstring) :
  Forall (fun c => is_space c = false /\ c <> 45%N /\ c <> 40%N /\ c <> 41%N)
    (cleanPhone phone).
Proof.
  unfold cleanPhone, keep_only. apply List.Forall_forall. intros c Hc.
  apply List.filter_In in Hc as [_ Hc].
  apply negb_true_iff, orb_false_iff in Hc as [Hs Ho].
  unfold one_of in Ho. simpl in Ho.
  change (N_of_ascii "-") with 45%N in Ho.
  change (N_of_ascii "(") with 40%N in Ho.
  change (N_of_ascii ")") with 41%N in Ho.
  rewrite !orb_false_iff in Ho. destruct Ho as (H1 & H2 & H3 & _).
  apply N.eqb_neq in H1, H2, H3. auto.
Qed.

Lemma test_phone_fallback (phone : jsstring) :
  test ValidationPatterns.phone (cleanPhone phone) = true
  <-> (8 <= List.length (cleanPhone phone) <= 20)%nat
      /\ Forall (fun c => Shape.digit_or_plus c = true) (cleanPhone phone).
Proof.
  rewrite test_matches. unfold ValidationPatterns.phone.
  rewrite matches_range_class by lia.
  assert (Hpt : forall c,
             is_space c = false -> c <> 45%N -> c <> 40%N -> c <> 41%N ->
             (is_digit c || is_space c || one_of ["-"; "+"; "("; ")"]%char c)
             = Shape.digit_or_plus c).
  { intros c Hs H1 H2 H3. unfold one_of, Shape.digit_or_plus. cbn [existsb].
    change (N_of_ascii "-") with 45%N. change (N_of_ascii "+") with 43%N.
    change (N_of_ascii "(") with 40%N. change (N_of_ascii ")") with 41%N.
    apply N.eqb_neq in H1, H2, H3. rewrite Hs, H1, H2, H3.
    destruct (is_digit c), (c =? 43)%N; reflexivity. }
  pose proof (cleanPhone_chars phone) as Hc.
  assert (Hall : Forall (fun c => (is_digit c || is_space c
                                   || one_of ["-"; "+"; "("; ")"]%char c) = true)
                   (cleanPhone phone)
                 <-> Forall (fun c => Shape.digit_or_plus c = true)
                       (cleanPhone phone)).
  { induction Hc as [|c r (Hs & H1 & H2 & H3) Hr IH].
    - split; constructor.
    - split; intros H; inversion H; subst; constructor;
        try (apply IH; assumption);
        [rewrite <- Hpt | rewrite Hpt]; assumption. }
  rewrite Hall. reflexivity.
Qed.

Lemma matches_nz_phone (u : jsstring) :
  matches (Seq (Alt (Seq (Opt (Chr "+")) (Seq (Chr "6") (Chr "4"))) (Chr "0"))
               (Seq from_2_to_9 (Range 7 9 digit))) u
  <-> Shape.nz_phone u.
Proof.
  unfold Shape.nz_phone, Shape.digits, from_2_to_9, digit, Opt, Chr.
  change (N_of_ascii "+") with 43%N. change (N_of_ascii "6") with 54%N.
  change (N_of_ascii "4") with 52%N. change (N_of_ascii "0") with 48%N.
  change (str "+64") with [43%N; 54%N; 52%N].
  change (str "64") with [54%N; 52%N]. change (str "0") with [48%N].
  split.
  - intros H. inversion H as [| |? ? pre tail Hpre Htail| | | |]; subst.
    inversion Htail as [| |? ? sd rest Hd Hrest| | | |]; subst.
    inversion Hd as [|? d Hdr| | | | |]; subst.
    apply (matches_range_class is_digit 7 9) in Hrest; [|lia].
    exists pre, d, rest. split; [reflexivity|].
    split; [|split; [exact Hdr | exact Hrest]].
    inversion Hpre as [| | |? ? ? Hl|? ? ? Hr| |]; subst.
    + inversion Hl as [| |? ? plus sf Hplus Hsf| | | |]; subst.
      inversion Hsf as [| |? ? s6 s4 H6 H4| | | |]; subst.
      inversion H6 as [|? c6 E6| | | | |]; subst.
      inversion H4 as [|? c4 E4| | | | |]; subst.
      apply N.eqb_eq in E6, E4. subst c6 c4.
      inversion Hplus as [| | |? ? ? Hp|? ? ? He| |]; subst.
      * inversion Hp as [|? cp Ep| | | | |]; subst.
        apply N.eqb_eq in Ep. subst cp. left. reflexivity.
      * inversion He. right. left. reflexivity.
    + inversion Hr as [|? c0 E0| | | | |]; subst.
      apply N.eqb_eq in E0. subst c0. right. right. reflexivity.
  - intros (prefix & d & rest & -> & Hp & Hd & Hrest).
    change (d :: rest) with ([d] ++ rest).
    constructor.
    + destruct Hp as [->|[->| ->]].
      * apply m_alt_l. change [43%N; 54%N; 52%N] with ([43%N] ++ [54%N] ++ [52%N]).
        repeat constructor.
      * apply m_alt_l. change [54%N; 52%N] with ([] ++ [54%N] ++ [52%N]).
        constructor; [apply m_alt_r; constructor | repeat constructor].
      * apply m_alt_r. constructor. reflexivity.
    + constructor; [constructor; exact Hd|].
      apply (matches_range_class is_digit 7 9); [lia | exact Hrest].
Qed.

(** X3. [validatePhone] tests the input with its white space, hyphens and
    parentheses removed. For New Zealand that text must read [+64], [64] or
    [0], a digit from 2 to 9 and seven to nine more digits; for a country
    without a pattern of its own it must be 8 to 20 digits and plus signs. A
    blank input is never valid. *)
Theorem validatePhone_shape (phone : jsstring) :
  (valid (validatePhone phone NZ) = true
   <-> blank phone = false /\ Shape.nz_phone (cleanPhone phone))
  /\ (valid (validatePhone phone OtherCountry) = true
      <-> blank phone = false
          /\ (8 <= List.length (cleanPhone phone) <= 20)%nat
          /\ Forall (fun c => Shape.digit_or_plus c = true) (cleanPhone phone)).
Proof.
  unfold validatePhone. rewrite missing_blank.
  fold (cleanPhone phone).
  destruct (blank phone) eqn:Eb.
  - simpl. split; (split; [discriminate | intros [H _]; discriminate]).
  - cbn [valid verdict phonePatterns]. split.
    + rewrite test_matches, matches_nz_phone. tauto.
    + rewrite test_phone_fallback. tauto.
Qed.

Lemma matches_email (u : jsstring) :
  matches ValidationPatterns.email u <-> Shape.email_address u.
Proof.
  unfold ValidationPatterns.email, Shape.email_address, Chr.
  change (N_of_ascii "@") with 64%N. change (N_of_ascii ".") with 46%N.
  assert (Hlocal : forall c,
             (alnum c || one_of ["."; "_"; "%"; "+"; "-"]%char c)
             = Shape.local_char c).
  { intros c. unfold alnum, one_of, Shape.local_char. simpl.
    rewrite orb_false_r, !orb_assoc. reflexivity. }
  assert (Hdomain : forall c,
             (alnum c || one_of ["."; "-"]%char c) = Shape.domain_char c).
  { intros c. unfold alnum, one_of, Shape.domain_char. simpl.
    rewrite orb_false_r, !orb_assoc. reflexivity. }
  assert (Hne : forall l : jsstring, (1 <= List.length l)%nat <-> l <> [])
    by (intros [|]; simpl; split; intros; try lia; congruence).
  split.
  - intros H. inversion H as [| |? ? local r1 Hl Hr1| | | |]; subst.
    inversion Hr1 as [| |? ? at_ r2 Hat Hr2| | | |]; subst.
    inversion Hr2 as [| |? ? domain r3 Hd Hr3| | | |]; subst.
    inversion Hr3 as [| |? ? dot tld Hdot Ht| | | |]; subst.
    inversion Hat as [|? ca Ea| | | | |]; subst.
    inversion Hdot as [|? cd Ed| | | | |]; subst.
    apply N.eqb_eq in Ea, Ed. subst ca cd.
    apply matches_atleast_class in Hl as [Ll Fl], Hd as [Ld Fd], Ht as [Lt Ft].
    exists local, domain, tld. split; [reflexivity|].
    repeat split; try (apply Hne; assumption); try assumption.
    + apply (Forall_class_ext _ _ _ Hlocal). exact Fl.
    + apply (Forall_class_ext _ _ _ Hdomain). exact Fd.
  - intros (local & domain & tld & -> & Nl & Fl & Nd & Fd & Lt & Ft).
    change (local ++ 64%N :: domain ++ 46%N :: tld)
      with (local ++ [64%N] ++ domain ++ [46%N] ++ tld).
    constructor.
    { apply matches_atleast_class. split; [apply Hne; exact Nl|].
      apply (Forall_class_ext _ _ _ Hlocal). exact Fl. }
    constructor; [constructor; reflexivity|].
    constructor.
    { apply matches_atleast_class. split; [apply Hne; exact Nd|].
      apply (Forall_class_ext _ _ _ Hdomain). exact Fd. }
    constructor; [constructor; reflexivity|].
    apply matches_atleast_class. split; assumption.
Qed.

(** X4. [validateEmail] is valid exactly when the trimmed input reads
    [local@domain.tld] with no part empty, the local part made of letters,
    digits and [._%+-], the domain of letters, digits, dots and hyphens, and
    a top-level domain of at least two letters. *)
Theorem validateEmail_shape (email : jsstring) :
  valid (validateEmail email) = true <-> Shape.email_address (trim email).
Proof.
  unfold validateEmail. rewrite missing_blank.
  destruct (blank email) eqn:Eb.
  - apply trim_nil in Eb. rewrite Eb. simpl.
    split; [discriminate|].
    intros (local & domain & tld & E & _). destruct local; discriminate E.
  - cbn [valid verdict]. rewrite test_matches. apply matches_email.
Qed.

End TextFieldProperties.

(** ** Card number formatting and card networks *)

Section CardFormatProperties.
Import JsString Validation Formatting Regex.

Lemma stripNonDigits_app (a b : jsstring) :
  stripNonDigits (a ++ b) = stripNonDigits a ++ stripNonDigits b.
Proof. unfold stripNonDigits, keep_only. apply List.filter_app. Qed.

(** Stripping leaves a run of digits as it is. *)
Lemma stripNonDigits_of_digits (d : jsstring) :
  Shape.digits d -> stripNonDigits d = d.
Proof.
  unfold stripNonDigits, keep_only.
  induction 1 as [|c r Hc Hr IH]; simpl; [reflexivity|].
  rewrite Hc, IH. reflexivity.
Qed.

Lemma stripNonDigits_idem (s : jsstring) :
  stripNonDigits (stripNonDigits s) = stripNonDigits s.
Proof. apply stripNonDigits_of_digits, stripNonDigits_digits. Qed.

(** The groups put end to end are the digits. *)
Lemma strip_join_groups (d : jsstring) :
  Shape.digits d ->
  stripNonDigits (join (str " ") (groups_of_4 d)) = d.
Proof.
  assert (Hstep : forall n d, (List.length d <= n)%nat -> Shape.digits d ->
             stripNonDigits (join (str " ") (groups_of_4 d)) = d).
  { clear d. induction n as [|n IH]; intros d Hl Hd.
    - destruct d; [reflexivity | simpl in Hl; lia].
    - destruct d as [|a [|b [|c [|e rest]]]];
        try (apply (stripNonDigits_of_digits _ Hd)).
      assert (Hd4 : Shape.digits [a; b; c; e] /\ Shape.digits rest).
      { apply (Forall_app _ [a; b; c; e] rest). exact Hd. }
      destruct Hd4 as [Hd4 Hrest].
      specialize (IH rest ltac:(simpl in Hl; lia) Hrest).
      cbn [groups_of_4]. destruct (groups_of_4 rest) as [|g gs] eqn:Eg.
      + cbn [join]. simpl in IH. subst rest.
        apply (stripNonDigits_of_digits _ Hd).
      + change (join (str " ") ([a; b; c; e] :: g :: gs))
          with ([a; b; c; e] ++ str " " ++ join (str " ") (g :: gs)).
        rewrite !stripNonDigits_app, IH.
        rewrite (stripNonDigits_of_digits _ Hd4). reflexivity. }
  intros Hd. apply (Hstep (List.length d)); [lia | exact Hd].
Qed.

Lemma formatCardNumber_digits (value : jsstring) :
  stripNonDigits (formatCardNumber value) = stripNonDigits value.
Proof.
  unfold formatCardNumber.
  pose proof (strip_join_groups _ (stripNonDigits_digits value)) as H.
  destruct (groups_of_4 (stripNonDigits value)) as [|g gs].
  - apply stripNonDigits_idem.
  - exact H.
Qed.

(** Whether a card number is valid is a matter of its digits alone. *)
Lemma validateCardNumber_by_digits (x : jsstring) :
  valid (validateCardNumber x)
  = negb ((Z.of_nat (List.length (stripNonDigits x)) <? 13)
          || (19 <? Z.of_nat (List.length (stripNonDigits x))))
    && (Z.rem (fst (luhn_loop (stripNonDigits x))) 10 =? 0).
Proof.
  unfold validateCardNumber. rewrite missing_blank.
  destruct (blank x) eqn:Eb.
  - apply blank_stripNonDigits in Eb. rewrite Eb. reflexivity.
  - destruct ((Z.of_nat (List.length (stripNonDigits x)) <? 13)
              || (19 <? Z.of_nat (List.length (stripNonDigits x))));
      reflexivity.
Qed.

(** X5. [formatCardNumber] keeps the digits of its input and nothing else
    but single spaces: stripping its result gives the stripped input, it
    changes nothing when applied twice, and the formatted text is a valid
    card number, and of the same network, exactly when the input is. *)
Theorem formatCardNumber_keeps_digits (value : jsstring) :
  stripNonDigits (formatCardNumber value) = stripNonDigits value
  /\ formatCardNumber (formatCardNumber value) = formatCardNumber value
  /\ valid (validateCardNumber (formatCardNumber value))
     = valid (validateCardNumber value)
  /\ detectCardType (formatCardNumber value) = detectCardType value.
Proof.
  pose proof (formatCardNumber_digits value) as H.
  split; [exact H|]. split; [|split].
  - unfold formatCardNumber at 1. rewrite H. reflexivity.
  - rewrite !validateCardNumber_by_digits, H. reflexivity.
  - unfold detectCardType. rewrite H. reflexivity.
Qed.

End CardFormatProperties.

Section NetworkProperties.
Import JsString Validation Regex.

Lemma test_prefix_never (s : jsstring) : test_prefix Never s = false.
Proof. induction s as [|c s IH]; simpl; [reflexivity | exact IH]. Qed.

Lemma test_prefix_eps (s : jsstring) : test_prefix Eps s = true.
Proof. destruct s; reflexivity. Qed.

Lemma test_prefix_alt (s : jsstring) :
  forall a b, test_prefix (Alt a b) s = test_prefix a s || test_prefix b s.
Proof.
  induction s as [|c s IH]; intros a b; simpl.
  - rewrite !orb_false_r. reflexivity.
  - rewrite IH.
    destruct (nullable a), (nullable b), (test_prefix (deriv c a) s); reflexivity.
Qed.

Lemma test_prefix_seq_never (s : jsstring) (r : Regex.t) :
  test_prefix (Seq Never r) s = false.
Proof. induction s as [|c s IH]; simpl; [reflexivity | exact IH]. Qed.

Lemma test_prefix_seq_eps (s : jsstring) :
  forall r, test_prefix (Seq Eps r) s = test_prefix r s.
Proof.
  destruct s as [|c s]; intros r; simpl; [reflexivity|].
  rewrite test_prefix_alt, test_prefix_seq_never. reflexivity.
Qed.

Lemma test_prefix_class (p : N -> bool) (s : jsstring) :
  test_prefix (Class p) s = match s with c :: _ => p c | [] => false end.
Proof.
  destruct s as [|c s]; simpl; [reflexivity|].
  destruct (p c); [apply test_prefix_eps | apply test_prefix_never].
Qed.

Lemma test_prefix_seq_class (p : N -> bool) (r : Regex.t) (s : jsstring) :
  test_prefix (Seq (Class p) r) s
  = match s with c :: s' => p c && test_prefix r s' | [] => false end.
Proof.
  destruct s as [|c s]; simpl; [reflexivity|].
  destruct (p c); [apply test_prefix_seq_eps | apply test_prefix_seq_never].
Qed.

Ltac same_test :=
  unfold in_range, digit_value;
  apply eq_true_iff_eq;
  repeat rewrite ?andb_true_iff, ?orb_true_iff, ?Z.leb_le, ?N.leb_le, ?N.eqb_eq;
  intuition (try discriminate; lia).

Ltac same_network :=
  repeat match goal with
         | |- (if ?b then _ else _) = (if ?c then _ else _) =>
             replace b with c by (symmetry; same_test);
             destruct c; [reflexivity|]
         | |- (if ?b then _ else _) = _ =>
             replace b with false by (symmetry; same_test)
         | |- _ = (if ?c then _ else _) =>
             replace c with false by (symmetry; same_test)
         end;
  reflexivity.

(** X6. [detectCardType] reads the network off the leading digits of the
    stripped input: 4 is visa; 51 to 55 and 22 to 27 are mastercard; 34 and
    37 are amex; 6011 and 65 are discover; anything else, the empty input
    included, is unknown. *)
Theorem detectCardType_by_leading_digits (cardNumber : jsstring) :
  detectCardType cardNumber = Network.of_digits (stripNonDigits cardNumber).
Proof.
  unfold detectCardType, Network.of_digits.
  pose proof (stripNonDigits_digits cardNumber) as Hd.
  set (d := stripNonDigits cardNumber) in *. clearbody d.
  unfold Chr, ValidationPatterns.one_of. cbn [existsb].
  change (N_of_ascii "4") with 52%N. change (N_of_ascii "5") with 53%N.
  change (N_of_ascii "2") with 50%N. change (N_of_ascii "3") with 51%N.
  change (N_of_ascii "7") with 55%N. change (N_of_ascii "6") with 54%N.
  change (N_of_ascii "0") with 48%N. change (N_of_ascii "1") with 49%N.
  unfold Network.leading, Network.among,
    NumericLiteral.decimal_value, NumericLiteral.digits_value.
  destruct d as [|a [|b [|c [|e d]]]];
    repeat match goal with
           | H : Forall _ (_ :: _) |- _ => inversion H; subst; clear H
           end;
    repeat match goal with
           | H : is_digit _ = true |- _ => apply is_digit_bounds in H
           end;
    repeat rewrite ?test_prefix_class, ?test_prefix_seq_class, ?test_prefix_alt;
    cbn [List.length Nat.leb firstn fold_left];
    rewrite ?List.firstn_O; cbn [fold_left];
    same_network.
Qed.

End NetworkProperties.

(** ** Expiry and CVV as typed *)

Section TypedFieldProperties.
Import JsString Validation Formatting ExpiryFormat.

Lemma digits_cons (c : N) (r : jsstring) :
  Shape.digits (c :: r) <-> is_digit c = true /\ Shape.digits r.
Proof.
  unfold Shape.digits. split.
  - intros H. inversion H; subst. split; assumption.
  - intros [H1 H2]. constructor; assumption.
Qed.





End TypedFieldProperties.

(** ** Phone formatting *)

Section PhoneFormatProperties.
Import JsString Validation Formatting ValidationPatterns.

Lemma slice_cut (a b : nat) (d : jsstring) :
  (a <= b)%nat -> slice a b d ++ skipn b d = skipn a d.
Proof.
  intros H. unfold slice.
  rewrite <- (firstn_skipn (b - a) (skipn a d)) at 2.
  f_equal. rewrite List.skipn_skipn. f_equal. lia.
Qed.

Lemma digits_slice (a b : nat) (d : jsstring) :
  Shape.digits d -> Shape.digits (slice a b d).
Proof. intros H. unfold slice. apply Forall_take, Forall_drop, H. Qed.

Lemma digits_skipn (a : nat) (d : jsstring) :
  Shape.digits d -> Shape.digits (skipn a d).
Proof. intros H. apply Forall_drop, H. Qed.

Lemma cleanPhone_app (a b : jsstring) :
  cleanPhone (a ++ b) = cleanPhone a ++ cleanPhone b.
Proof. unfold cleanPhone, keep_only. apply List.filter_app. Qed.

Lemma cleanPhone_digits (d : jsstring) :
  Shape.digits d -> cleanPhone d = d.
Proof.
  unfold cleanPhone, keep_only.
  induction 1 as [|c r Hc Hr IH]; [reflexivity|].
  assert (Hk : negb (is_space c || one_of ["-"; "("; ")"]%char c) = true).
  { rewrite (digit_not_space c Hc). apply is_digit_bounds in Hc.
    unfold one_of. cbn [existsb orb].
    change (N_of_ascii "-") with 45%N. change (N_of_ascii "(") with 40%N.
    change (N_of_ascii ")") with 41%N.
    replace (c =? 45)%N with false by (symmetry; apply N.eqb_neq; lia).
    replace (c =? 40)%N with false by (symmetry; apply N.eqb_neq; lia).
    replace (c =? 41)%N with false by (symmetry; apply N.eqb_neq; lia).
    reflexivity. }
  cbn [List.filter]. rewrite Hk, IH. reflexivity.
Qed.

(** The pieces the formatter cuts put end to end are the digits. *)
Lemma pieces_international (d : jsstring) :
  slice 0 2 d ++ slice 2 4 d ++ slice 4 7 d ++ slice_from 7 d = d.
Proof.
  unfold slice_from.
  rewrite (slice_cut 4 7) by lia. rewrite (slice_cut 2 4) by lia.
  rewrite (slice_cut 0 2) by lia. reflexivity.
Qed.

Lemma pieces_local (d : jsstring) :
  slice 0 3 d ++ slice 3 6 d ++ slice_from 6 d = d.
Proof.
  unfold slice_from.
  rewrite (slice_cut 3 6) by lia. rewrite (slice_cut 0 3) by lia.
  reflexivity.
Qed.

(** X9. [formatPhoneNZ] keeps the digits of its input; and when those
    digits are a New Zealand number ([64] or [0], a digit from 2 to 9, seven
    to nine more digits) the formatted text is a valid New Zealand phone
    number for [validatePhone]. *)
Theorem formatPhoneNZ_keeps_digits (value : jsstring) :
  stripNonDigits (formatPhoneNZ value) = stripNonDigits value
  /\ (Shape.nz_phone (stripNonDigits value) ->
      valid (validatePhone (formatPhoneNZ value) NZ) = true).
Proof.
  pose proof (stripNonDigits_digits value) as Hd.
  fold (Shape.digits (stripNonDigits value)) in Hd.
  unfold formatPhoneNZ.
  set (d := stripNonDigits value) in *.
  assert (Hint : stripNonDigits
                   (str "+" ++ slice 0 2 d ++ str " " ++ slice 2 4 d ++ str " "
                    ++ slice 4 7 d ++ str " " ++ slice_from 7 d) = d).
  { rewrite !stripNonDigits_app.
    rewrite !(stripNonDigits_of_digits (slice _ _ d)) by (apply digits_slice, Hd).
    rewrite (stripNonDigits_of_digits (slice_from 7 d)) by (apply digits_skipn, Hd).
    change (stripNonDigits (str "+")) with (@nil N).
    change (stripNonDigits (str " ")) with (@nil N).
    cbn [app]. apply pieces_international. }
  assert (Hloc : stripNonDigits
                   (slice 0 3 d ++ str " " ++ slice 3 6 d ++ str " "
                    ++ slice_from 6 d) = d).
  { rewrite !stripNonDigits_app.
    rewrite !(stripNonDigits_of_digits (slice _ _ d)) by (apply digits_slice, Hd).
    rewrite (stripNonDigits_of_digits (slice_from 6 d)) by (apply digits_skipn, Hd).
    change (stripNonDigits (str " ")) with (@nil N).
    cbn [app]. apply pieces_local. }
  split.
  - destruct (startsWith (str "64") d); [exact Hint|].
    destruct (startsWith (str "0") d); [exact Hloc | reflexivity].
  - intros (prefix & x & rest & E & Hp & Hx & Hrest).
    assert (Hnz : forall u, Shape.nz_phone u ->
               Regex.test
                 (Regex.Seq
                    (Regex.Alt
                       (Regex.Seq (Regex.Opt (Regex.Chr "+"))
                          (Regex.Seq (Regex.Chr "6") (Regex.Chr "4")))
                       (Regex.Chr "0"))
                    (Regex.Seq from_2_to_9 (Regex.Range 7 9 digit))) u = true).
    { intros u Hu. apply test_matches, matches_nz_phone, Hu. }
    destruct Hp as [->|[->| ->]].
    + rewrite E in Hd. apply digits_cons in Hd as [Hplus _].
      vm_compute in Hplus. discriminate Hplus.
    + assert (Hs : startsWith (str "64") d = true) by (rewrite E; reflexivity).
      rewrite Hs. unfold validatePhone. rewrite missing_blank.
      change (blank (str "+" ++ _)) with false. cbn [valid verdict phonePatterns].
      fold (cleanPhone (str "+" ++ slice 0 2 d ++ str " " ++ slice 2 4 d
                        ++ str " " ++ slice 4 7 d ++ str " " ++ slice_from 7 d)).
      apply Hnz.
      rewrite !cleanPhone_app.
      rewrite !(cleanPhone_digits (slice _ _ d)) by (apply digits_slice, Hd).
      rewrite (cleanPhone_digits (slice_from 7 d)) by (apply digits_skipn, Hd).
      change (cleanPhone (str "+")) with [43%N].
      change (cleanPhone (str " ")) with (@nil N).
      cbn [app]. rewrite pieces_international. rewrite E.
      exists (str "+64"), x, rest.
      split; [reflexivity|]. split; [left; reflexivity|]. split; assumption.
    + assert (Hs : startsWith (str "64") d = false) by (rewrite E; reflexivity).
      assert (Hz : startsWith (str "0") d = true) by (rewrite E; reflexivity).
      rewrite Hs, Hz. unfold validatePhone. rewrite missing_blank.
      assert (Hb : blank (slice 0 3 d ++ str " " ++ slice 3 6 d ++ str " "
                          ++ slice_from 6 d) = false)
        by (rewrite E; reflexivity).
      rewrite Hb. cbn [valid verdict phonePatterns].
      fold (cleanPhone (slice 0 3 d ++ str " " ++ slice 3 6 d ++ str " "
                        ++ slice_from 6 d)).
      apply Hnz.
      rewrite !cleanPhone_app.
      rewrite !(cleanPhone_digits (slice _ _ d)) by (apply digits_slice, Hd).
      rewrite (cleanPhone_digits (slice_from 6 d)) by (apply digits_skipn, Hd).
      change (cleanPhone (str " ")) with (@nil N).
      cbn [app]. rewrite pieces_local. rewrite E.
      exists (str "0"), x, rest.
      split; [reflexivity|]. split; [right; right; reflexivity|].
      split; assumption.
Qed.

(** The digits of a mobile number pasted with dots. *)
Lemma formatPhoneNZ_keeps_digits_witness :
  valid (validatePhone (formatPhoneNZ (str "021.123.4567")) NZ) = true.
Proof.
  apply (proj2 (formatPhoneNZ_keeps_digits (str "021.123.4567"))).
  exists (str "0"), 50%N, (str "11234567").
  split; [reflexivity|]. split; [right; right; reflexivity|].
  split; [reflexivity|]. split; [simpl; lia | repeat constructor].
Defined.

End PhoneFormatProperties.

(** ** Storage: other keys, clearing, and the shipping page's start *)

Section MoreStorageProperties.

Variable JSON_stringify : value -> option jsstring.
Variable JSON_parse : jsstring -> completion value.

(** X10. Saving under one key leaves what [loadFromStorage] reads under
    every other key as it was, and a second save under a key replaces the
    first. *)
Theorem saveToStorage_other_keys
    (st : storage) (key other : jsstring) (data data' fallback : value) :
  key <> other ->
  loadFromStorage JSON_parse (saveToStorage JSON_stringify st key data)
    other fallback
  = loadFromStorage JSON_parse st other fallback
  /\ saveToStorage JSON_stringify
       (saveToStorage JSON_stringify st key data) key data'
     = saveToStorage JSON_stringify st key data'.
Proof.
  intros Hne. split.
  - unfold loadFromStorage, saveToStorage, setItem, getItem.
    rewrite lookup_insert_ne by exact Hne. reflexivity.
  - unfold saveToStorage, setItem. apply insert_insert_eq.
Qed.

Lemma parseCurrency_sign (text : text_arg) :
  JsNumber.sign (parseCurrency text) = false.
Proof.
  unfold parseCurrency. destruct (falsy_text text); [reflexivity|].
  pose proof (Number_cleaned_sign
                (JsString.keep_only digit_or_dot (String_of text))
                (keep_only_Forall _ _)) as Hs.
  destruct (JsNumber.isFinite _); [exact Hs | reflexivity].
Qed.

Lemma parseCurrency_no_digit (s : jsstring) :
  no_digit s -> parseCurrency (Text s) = JsNumber.zero.
Proof.
  intros Hs. unfold parseCurrency.
  destruct (falsy_text (Text s)); [reflexivity|].
  assert (Hd : Forall (fun c => c = 46%N)
                 (JsString.keep_only digit_or_dot (String_of (Text s)))).
  { simpl. unfold JsString.keep_only. apply List.Forall_forall.
    intros c Hc. apply List.filter_In in Hc as [Hin Hk].
    unfold no_digit in Hs. rewrite List.Forall_forall in Hs.
    specialize (Hs c Hin). unfold digit_or_dot in Hk.
    rewrite Hs in Hk. simpl in Hk. apply N.eqb_eq in Hk. exact Hk. }
  destruct (Number_dots _ Hd) as [E|E]; rewrite E; reflexivity.
Qed.

(** X11. The subtotal the shipping page starts from is a finite number
    whatever the store holds. With nothing stored under [cpa_totals] it is
    the amount of the placeholder text, which is never zero and never
    negative: a placeholder that reads as zero, one without a digit for
    instance, gives 600. *)
Theorem shipping_initial_subtotal (st : storage) (textContent : text_arg) :
  (exists n,
      Shipping.initial_subtotal JSON_parse st textContent = Normal n
      /\ JsNumber.isFinite n = true)
  /\ (getItem st STORAGE_KEYS.totals = None ->
      Shipping.initial_subtotal JSON_parse st textContent
      = Normal (Shipping.fallbackSubtotal textContent))
  /\ JsNumber.truthy (Shipping.fallbackSubtotal textContent) = true
  /\ JsNumber.sign (Shipping.fallbackSubtotal textContent) = false
  /\ (forall s, textContent = Text s -> no_digit s ->
        Shipping.fallbackSubtotal textContent = JsNumber.of_Z 600).
Proof.
  split; [apply initial_subtotal_finite|].
  split; [|split; [|split]].
  - intros Hnone. unfold Shipping.initial_subtotal, loadFromStorage.
    rewrite Hnone. reflexivity.
  - unfold Shipping.fallbackSubtotal.
    destruct (JsNumber.truthy (parseCurrency textContent)) eqn:E;
      [exact E | reflexivity].
  - unfold Shipping.fallbackSubtotal.
    destruct (JsNumber.truthy (parseCurrency textContent));
      [apply parseCurrency_sign | reflexivity].
  - intros s -> Hs. unfold Shipping.fallbackSubtotal.
    rewrite (parseCurrency_no_digit s Hs). reflexivity.
Qed.

(** X12. When the payment succeeds the three checkout keys are removed:
    reading any of them gives the fallback, the shipping page starts again
    from its placeholder, and every other key keeps its text. *)
Theorem clear_checkout_removes (p : Pages.page) (fallback : value) :
  let st := Pages.store p in
  let st' := Pages.store (Pages.showPaymentSuccess p) in
  loadFromStorage JSON_parse st' STORAGE_KEYS.totals fallback = Normal fallback
  /\ loadFromStorage JSON_parse st' STORAGE_KEYS.cart fallback = Normal fallback
  /\ loadFromStorage JSON_parse st' (str "cpa_shipping") fallback
     = Normal fallback
  /\ (forall textContent,
         Shipping.initial_subtotal JSON_parse st' textContent
         = Normal (Shipping.fallbackSubtotal textContent))
  /\ (forall key,
         key <> STORAGE_KEYS.totals -> key <> STORAGE_KEYS.cart ->
         key <> str "cpa_shipping" ->
         getItem st' key = getItem st key).
Proof.
  intros st st'.
  assert (H1 : getItem st' STORAGE_KEYS.totals = None).
  { unfold st', getItem. simpl. unfold Pages.clear_checkout, Pages.removeItem.
    rewrite lookup_delete_ne by discriminate.
    rewrite lookup_delete_ne by discriminate.
    apply lookup_delete_eq. }
  assert (H2 : getItem st' STORAGE_KEYS.cart = None).
  { unfold st', getItem. simpl. unfold Pages.clear_checkout, Pages.removeItem.
    rewrite lookup_delete_ne by discriminate.
    apply lookup_delete_eq. }
  assert (H3 : getItem st' (str "cpa_shipping") = None).
  { unfold st', getItem. simpl. unfold Pages.clear_checkout, Pages.removeItem.
    apply lookup_delete_eq. }
  unfold loadFromStorage, Shipping.initial_subtotal, loadFromStorage.
  rewrite H1, H2, H3. repeat split.
  intros key N1 N2 N3. unfold st', getItem. simpl.
  unfold Pages.clear_checkout, Pages.removeItem.
  rewrite !lookup_delete_ne by congruence. reflexivity.
Qed.

End MoreStorageProperties.

(** The totals survive a save of the shipping details. *)
Lemma saveToStorage_other_keys_witness :
  loadFromStorage JsonSample.parse
    (saveToStorage JsonSample.stringify
       (saveToStorage JsonSample.stringify ∅ STORAGE_KEYS.totals
          (totals_value JsonSample.wireframe))
       (str "cpa_shipping") VNull)
    STORAGE_KEYS.totals VNull
  = loadFromStorage JsonSample.parse
      (saveToStorage JsonSample.stringify ∅ STORAGE_KEYS.totals
         (totals_value JsonSample.wireframe))
      STORAGE_KEYS.totals VNull.
Proof.
  apply (saveToStorage_other_keys JsonSample.stringify JsonSample.parse
           _ (str "cpa_shipping") STORAGE_KEYS.totals VNull VNull VNull).
  discriminate.
Defined.

(** ** Recomputing the shipping totals twice *)

Section RecomputeProperties.
Import Shipping.

Variable JSON_stringify : value -> option jsstring.

(** The page after [recompute], field by field. *)
Lemma recompute_page (p : page) :
  let q := enforceFreeShippingRule p in
  let t := calculateTotals q (getSelectedShippingCost q) in
  Shipping.recompute JSON_stringify p
  = {| subtotal_ := subtotal_ p; freeRadio := freeRadio q;
       nextRadio := nextRadio q; nextLabelDimmed := nextLabelDimmed q;
       summary := Some t;
       store := saveToStorage JSON_stringify (store p)
                  STORAGE_KEYS.totals (totals_value t) |}.
Proof.
  unfold Shipping.recompute, renderTotals, enforceFreeShippingRule.
  destruct (qualifies p); reflexivity.
Qed.

(** Enforcing the rule a second time changes nothing, and neither the
    summary nor the store matter to it. *)
Lemma enforce_settled (p : page) (sm : option Totals) (st : storage) :
  let q := enforceFreeShippingRule p in
  enforceFreeShippingRule
    {| subtotal_ := subtotal_ p; freeRadio := freeRadio q;
       nextRadio := nextRadio q; nextLabelDimmed := nextLabelDimmed q;
       summary := sm; store := st |}
  = {| subtotal_ := subtotal_ p; freeRadio := freeRadio q;
       nextRadio := nextRadio q; nextLabelDimmed := nextLabelDimmed q;
       summary := sm; store := st |}.
Proof.
  destruct p as [s [fc fd fcost] [nc nd ncost] lbl sm0 st0].
  unfold enforceFreeShippingRule, qualifies.
  cbn [subtotal_].
  destruct (JsNumber.gt s (JsNumber.of_Z 600)) eqn:E;
    cbn [subtotal_ freeRadio nextRadio nextLabelDimmed summary store];
    rewrite ?E; unfold set_checked, set_disabled;
    cbn [checked disabled data_ship_cost];
    destruct lbl; reflexivity.
Qed.

(** X13. A recompute of the shipping page settles the page: a second one
    changes nothing, neither the radios nor the summary nor the store; and
    the text left under [cpa_totals] is the one of the totals the summary
    shows. *)
Theorem recompute_settles (p : page) :
  Shipping.recompute JSON_stringify (Shipping.recompute JSON_stringify p)
  = Shipping.recompute JSON_stringify p
  /\ exists t,
       summary (Shipping.recompute JSON_stringify p) = Some t
       /\ getItem (store (Shipping.recompute JSON_stringify p))
            STORAGE_KEYS.totals
          = Some (match JSON_stringify (totals_value t) with
                  | Some text => text
                  | None => str "undefined"
                  end).
Proof.
  rewrite (recompute_page p). cbv zeta.
  set (q := enforceFreeShippingRule p).
  set (t := calculateTotals q (getSelectedShippingCost q)).
  split.
  - rewrite recompute_page. cbv zeta.
    cbn [subtotal_ store].
    rewrite (enforce_settled p). cbv zeta. fold q.
    cbn [freeRadio nextRadio nextLabelDimmed].
    assert (Hc : getSelectedShippingCost
                   {| subtotal_ := subtotal_ p; freeRadio := freeRadio q;
                      nextRadio := nextRadio q;
                      nextLabelDimmed := nextLabelDimmed q;
                      summary := Some t;
                      store := saveToStorage JSON_stringify (store p)
                                 STORAGE_KEYS.totals (totals_value t) |}
                 = getSelectedShippingCost q) by reflexivity.
    assert (Ht : calculateTotals
                   {| subtotal_ := subtotal_ p; freeRadio := freeRadio q;
                      nextRadio := nextRadio q;
                      nextLabelDimmed := nextLabelDimmed q;
                      summary := Some t;
                      store := saveToStorage JSON_stringify (store p)
                                 STORAGE_KEYS.totals (totals_value t) |}
                   (getSelectedShippingCost q)
                 = t).
    { unfold t, calculateTotals. cbn [subtotal_].
      assert (Hs : subtotal_ q = subtotal_ p)
        by (unfold q, enforceFreeShippingRule; destruct (qualifies p); reflexivity).
      rewrite Hs. reflexivity. }
    rewrite Hc, Ht. f_equal.
    unfold saveToStorage, setItem. apply insert_insert_eq.
  - exists t. split; [reflexivity|].
    cbn [store]. unfold saveToStorage, getItem, setItem.
    apply lookup_insert_eq.
Qed.

End RecomputeProperties.

(** ** Error display and whole-form validation *)

Section FormProperties.
Import Form FormSpec.

(** Equality of two class lists, by cases on the classes they name. *)
Ltac class_lists :=
  let x := fresh "x" in
  repeat match goal with
         | |- context [ {[ str ?a ]} ] =>
             let c := fresh "class" in generalize (str a); intros c
         end;
  apply set_eq; intros x;
  repeat match goal with
         | |- context [ {[ ?a ]} ] =>
             lazymatch goal with
             | _ : x = a |- _ => fail
             | _ : x <> a |- _ => fail
             | _ => destruct (decide (x = a))
             end
         end;
  set_solver.

Lemma showFieldError_keeps (e : element) (m : string) :
  id (showFieldError e m) = id e /\ Form.value (showFieldError e m) = Form.value e
  /\ type (showFieldError e m) = type e
  /\ disabled (showFieldError e m) = disabled e
  /\ required (showFieldError e m) = required e.
Proof. repeat split. Qed.

Lemma clearFieldError_keeps (e : element) :
  id (clearFieldError e) = id e /\ Form.value (clearFieldError e) = Form.value e
  /\ type (clearFieldError e) = type e
  /\ disabled (clearFieldError e) = disabled e
  /\ required (clearFieldError e) = required e.
Proof. repeat split. Qed.

Lemma clear_after_show (e : element) (m : string) :
  clearFieldError (showFieldError e m) = clearFieldError e.
Proof.
  unfold clearFieldError, showFieldError, with_display.
  cbn [id Form.value type disabled required classList aria_invalid
       aria_describedby errorSpan].
  f_equal.
  - class_lists.
  - destruct (errorSpan e) as [sp|]; [|reflexivity].
    cbn [span_id textContent span_classList]. do 2 f_equal. class_lists.
Qed.

Lemma clear_after_clear (e : element) :
  clearFieldError (clearFieldError e) = clearFieldError e.
Proof.
  unfold clearFieldError, with_display.
  cbn [id Form.value type disabled required classList aria_invalid
       aria_describedby errorSpan].
  f_equal.
  - class_lists.
  - destruct (errorSpan e) as [sp|]; [|reflexivity].
    cbn [span_id textContent span_classList]. do 2 f_equal. class_lists.
Qed.

Lemma show_after_show (e : element) (m m' : string) :
  showFieldError (showFieldError e m) m' = showFieldError e m'.
Proof.
  unfold showFieldError, with_display.
  cbn [id Form.value type disabled required classList aria_invalid
       aria_describedby errorSpan].
  f_equal.
  - class_lists.
  - destruct (errorSpan e) as [sp|]; [|reflexivity].
    cbn [span_id]. destruct (JsString.is_empty (span_id sp)); reflexivity.
  - destruct (errorSpan e) as [sp|]; [|reflexivity].
    cbn [span_id textContent span_classList]. do 2 f_equal. class_lists.
Qed.

(** The validator of a control reads its id, value and [required]
    attribute only. *)
Lemma validateField_same (now : Date) (document : list element)
    (country : jsstring) (e e' : element) :
  id e' = id e -> Form.value e' = Form.value e -> required e' = required e ->
  validateField now document e' country = validateField now document e country.
Proof.
  intros H1 H2 H3. unfold validateField. rewrite H1, H2, H3. reflexivity.
Qed.

(** X14. The error display of a field reflects its last validation only:
    leaving the field twice shows what leaving it once shows; a cleared
    field is the same whether or not an error was shown before; a new error
    replaces the old one. Neither showing nor clearing touches the value of
    the field. After an error the field is marked [aria-invalid="true"]
    with the red border and without the neutral one; after a clearing it is
    marked ["false"], the error text is empty and hidden. *)
Theorem error_display_last_outcome
    (now : Date) (document : list element) (country : jsstring)
    (e : element) (m m' : string) :
  on_blur now document country (on_blur now document country e)
  = on_blur now document country e
  /\ clearFieldError (showFieldError e m) = clearFieldError e
  /\ showFieldError (showFieldError e m) m' = showFieldError e m'
  /\ Form.value (on_blur now document country e) = Form.value e
  /\ (aria_invalid (showFieldError e m) = Some (str "true")
      /\ (str "border-red-500" ∈ classList (showFieldError e m))
      /\ (str "border-brand-green-dark" ∉ classList (showFieldError e m)))
  /\ (aria_invalid (clearFieldError e) = Some (str "false")
      /\ (str "border-red-500" ∉ classList (clearFieldError e))
      /\ aria_describedby (clearFieldError e) = None
      /\ forall sp, errorSpan (clearFieldError e) = Some sp ->
           textContent sp = EmptyString
           /\ (str "hidden" ∈ span_classList sp)).
Proof.
  split; [|split; [apply clear_after_show|split; [apply show_after_show|]]].
  - unfold on_blur.
    destruct (valid (validateField now document e country)) eqn:E.
    + rewrite (validateField_same now document country e (clearFieldError e))
        by reflexivity.
      rewrite E. apply clear_after_clear.
    + rewrite (validateField_same now document country e
                 (showFieldError e _)) by reflexivity.
      rewrite E. apply show_after_show.
  - split; [|split].
    + unfold on_blur.
      destruct (valid (validateField now document e country)); reflexivity.
    + split; [reflexivity|].
      unfold showFieldError, with_display. cbn [classList].
      assert (str "border-red-500" <> str "border-brand-green-dark")
        by discriminate.
      split; set_solver.
    + split; [reflexivity|].
      unfold clearFieldError, with_display.
      cbn [classList aria_describedby errorSpan].
      assert (str "border-red-500" <> str "border-brand-green-dark")
        by discriminate.
      split; [set_solver|]. split; [reflexivity|].
      intros sp Hsp. destruct (errorSpan e) as [sp0|]; [|discriminate].
      injection Hsp as <-. cbn [textContent span_classList].
      split; [reflexivity | set_solver].
Qed.

End FormProperties.

Section ValidateFormProperties.
Import Form FormSpec.

Variable now : Date.
Variable document : list element.
Variable country : jsstring.

Abbreviation step := (validate_one now document country).
Abbreviation fails := (failing now document country).

(** The loop of [validateForm], from any point it has reached. *)
Lemma validateForm_from (inputs : list element) :
  forall acc : progress,
    let r := fold_left step inputs acc in
    done r = done acc ++ map (shown now document country) inputs
    /\ isValid r = isValid acc && negb (existsb fails inputs)
    /\ firstInvalidField r
       = match firstInvalidField acc with
         | Some i => Some i
         | None => option_map (Nat.add (List.length (done acc)))
                     (first_index fails inputs)
         end.
Proof.
  induction inputs as [|e rest IH]; intros acc.
  - simpl. rewrite app_nil_r, andb_true_r.
    destruct (firstInvalidField acc); repeat split.
  - cbn [fold_left]. specialize (IH (step acc e)). cbv zeta in IH |- *.
    destruct IH as (Hd & Hv & Hf). rewrite Hd, Hv, Hf. clear Hd Hv Hf.
    unfold validate_one, failing, shown, on_blur.
    cbn [map existsb first_index].
    destruct (skipped e) eqn:Es;
      [|destruct (valid (validateField now document e country)) eqn:Ev];
      cbn [done isValid firstInvalidField negb andb orb];
      rewrite <- ?app_assoc; cbn [app];
      repeat split;
      try (destruct (firstInvalidField acc); [reflexivity|];
           rewrite length_app; cbn [List.length];
           destruct (first_index _ rest); cbn [option_map];
           try reflexivity; f_equal; lia).
    + rewrite andb_false_r. reflexivity.
    + destruct (firstInvalidField acc); [reflexivity|].
      cbn [option_map]. f_equal. lia.
Qed.

Lemma first_index_none {A : Type} (f : A -> bool) (l : list A) :
  first_index f l = None <-> existsb f l = false.
Proof.
  induction l as [|x r IH]; simpl; [tauto|].
  destruct (f x); simpl; [split; discriminate|].
  rewrite <- IH. destruct (first_index f r); simpl; split; congruence.
Qed.

Lemma first_index_some {A : Type} (f : A -> bool) (l : list A) (i : nat) :
  first_index f l = Some i ->
  (exists x, nth_error l i = Some x /\ f x = true)
  /\ forall j y, (j < i)%nat -> nth_error l j = Some y -> f y = false.
Proof.
  revert i. induction l as [|x r IH]; intros i; simpl; [discriminate|].
  destruct (f x) eqn:E.
  - intros [= <-]. split; [exists x; split; [reflexivity | exact E]|].
    intros j y Hj. lia.
  - destruct (first_index f r) as [k|]; [|discriminate].
    intros [= <-]. destruct (IH k eq_refl) as [Hx Hbefore].
    split; [exact Hx|].
    intros [|j] y Hj; simpl.
    + intros [= <-]. exact E.
    + apply Hbefore. lia.
Qed.

(** X15. [validateForm] returns [true] exactly when no control that is
    enabled and not hidden fails its validator; otherwise the focus goes to
    the first such control in document order. Every control examined is
    left displayed as a [blur] would leave it, the skipped ones are left
    alone, and no value changes. *)
Theorem validateForm_outcome (inputs : list element) :
  let r := validateForm now document inputs country in
  (isValid r = true <-> forall e, In e inputs -> fails e = false)
  /\ firstInvalidField r = first_index fails inputs
  /\ (isValid r = false <-> exists i, firstInvalidField r = Some i)
  /\ (forall i, firstInvalidField r = Some i ->
        (exists e, nth_error inputs i = Some e /\ fails e = true)
        /\ forall j e, (j < i)%nat -> nth_error inputs j = Some e ->
                       fails e = false)
  /\ done r = map (shown now document country) inputs
  /\ map Form.value (done r) = map Form.value inputs.
Proof.
  intros r.
  destruct (validateForm_from inputs
              {| done := []; isValid := true; firstInvalidField := None |})
    as (Hd & Hv & Hf).
  cbv zeta in Hd, Hv, Hf. cbn [done isValid firstInvalidField] in Hd, Hv, Hf.
  fold (validateForm now document inputs country) in Hd, Hv, Hf. fold r in Hd, Hv, Hf.
  assert (Hf' : firstInvalidField r = first_index fails inputs).
  { rewrite Hf. destruct (first_index fails inputs); reflexivity. }
  rewrite Hd, Hv, Hf'. cbn [andb app].
  split; [|split; [reflexivity|split; [|split; [|split; [reflexivity|]]]]].
  - rewrite negb_true_iff. split.
    + intros H e He. destruct (fails e) eqn:E; [|reflexivity].
      assert (existsb fails inputs = true)
        by (apply existsb_exists; exists e; split; assumption).
      congruence.
    + intros H. apply not_true_is_false. intros Hex.
      apply existsb_exists in Hex as (e & He & Hfe).
      rewrite (H e He) in Hfe. discriminate.
  - rewrite negb_false_iff. split.
    + intros H. destruct (first_index fails inputs) as [i|] eqn:E; [eauto|].
      apply first_index_none in E. congruence.
    + intros [i Hi]. destruct (existsb fails inputs) eqn:E; [reflexivity|].
      apply first_index_none in E. congruence.
  - intros i Hi. apply first_index_some. exact Hi.
  - rewrite map_map. apply map_ext. intros e. unfold shown, on_blur.
    destruct (skipped e); [reflexivity|].
    destruct (valid (validateField now document e country)); reflexivity.
Qed.

End ValidateFormProperties.

(** ** Submitting the payment and shipping forms *)

Section SubmitProperties.
Import FormSpec.

Variable now : Date.

Lemma validateForm_isValid (document inputs : list Form.element)
    (country : jsstring) :
  Form.isValid (Form.validateForm now document inputs country)
  = negb (existsb (failing now document country) inputs).
Proof.
  destruct (validateForm_from now document country inputs
              {| Form.done := []; Form.isValid := true;
                 Form.firstInvalidField := None |}) as (_ & Hv & _).
  exact Hv.
Qed.

Lemma validateForm_done (document inputs : list Form.element)
    (country : jsstring) :
  Form.done (Form.validateForm now document inputs country)
  = map (shown now document country) inputs.
Proof.
  destruct (validateForm_from now document country inputs
              {| Form.done := []; Form.isValid := true;
                 Form.firstInvalidField := None |}) as (Hd & _ & _).
  exact Hd.
Qed.


Variable JSON_stringify : value -> option jsstring.

(** X17. Submitting the shipping form: when no enabled, visible field fails
    its validator for the country selected, the details are saved under
    [cpa_shipping], every other key being left alone, and the window goes to
    the payment page; otherwise nothing is saved and the window stays. *)
Theorem shipping_submit_outcome (shippingData : value) (p : Pages.page) :
  let p' := Pages.shipping_submit JSON_stringify now shippingData p in
  let failure :=
    existsb (failing now (Pages.inputs p) (Pages.getCountry (Pages.inputs p)))
      (Pages.inputs p) in
  (failure = false ->
   Pages.navigated p' = Some (str "payment.html")
   /\ Pages.store p'
      = saveToStorage JSON_stringify (Pages.store p) (str "cpa_shipping")
          shippingData
   /\ forall key, key <> str "cpa_shipping" ->
        getItem (Pages.store p') key = getItem (Pages.store p) key)
  /\ (failure = true ->
      Pages.navigated p' = Pages.navigated p
      /\ Pages.store p' = Pages.store p)
  /\ map Form.value (Pages.inputs p') = map Form.value (Pages.inputs p).
Proof.
  intros p' failure. unfold p', Pages.shipping_submit.
  rewrite validateForm_isValid. fold failure.
  assert (Hvals :
            map Form.value
              (Form.done (Form.validateForm now (Pages.inputs p) (Pages.inputs p)
                            (Pages.getCountry (Pages.inputs p))))
            = map Form.value (Pages.inputs p)).
  { rewrite validateForm_done, map_map. apply map_ext. intros e.
    unfold shown, Form.on_blur. destruct (Form.skipped e); [reflexivity|].
    destruct (valid _); reflexivity. }
  destruct failure; cbn [negb Pages.navigated Pages.store Pages.inputs].
  - split; [discriminate|]. split; [auto | exact Hvals].
  - split; [|split; [discriminate | exact Hvals]].
    intros _. split; [reflexivity|]. split; [reflexivity|].
    intros key Hk. unfold saveToStorage, setItem, getItem.
    apply lookup_insert_ne. congruence.
Qed.

End SubmitProperties.

(** ** Changing the country *)

Section CountryChangeProperties.
Import Form.


Section UpdateById.
Variable name : jsstring.
Variable f : element -> element.
Hypothesis f_id : forall e, id (f e) = id e.
Hypothesis f_value : forall e, Form.value (f e) = Form.value e.





End UpdateById.


End CountryChangeProperties.


(** ** The countdown *)

Section DecimalProperties.
Import JsString NumericLiteral.

Lemma decimal_fold (l : jsstring) (a : Z) :
  fold_left (fun acc c => acc * 10 + digit_value c) l a
  = a * 10 ^ Z.of_nat (List.length l)
    + fold_left (fun acc c => acc * 10 + digit_value c) l 0.
Proof.
  revert a. induction l as [|c l IH]; intros a.
  - simpl. lia.
  - cbn [fold_left List.length]. rewrite (IH (a * 10 + digit_value c)).
    rewrite (IH (0 * 10 + digit_value c)).
    rewrite Nat2Z.inj_succ, Z.pow_succ_r by lia. lia.
Qed.

Lemma decimal_value_cons (c : N) (l : jsstring) :
  decimal_value (c :: l)
  = digit_value c * 10 ^ Z.of_nat (List.length l) + decimal_value l.
Proof.
  unfold decimal_value, digits_value. cbn [fold_left].
  rewrite decimal_fold. lia.
Qed.

Lemma digit_of_mod (n : N) :
  is_digit (48 + n mod 10) = true
  /\ digit_value (48 + n mod 10) = Z.of_N (n mod 10).
Proof.
  pose proof (N.mod_upper_bound n 10 ltac:(discriminate)) as H.
  set (k := (n mod 10)%N) in *. clearbody k.
  split; [apply is_digit_bounds; lia | unfold digit_value; lia].
Qed.

Lemma Decimal_digits_spec (fuel : nat) :
  forall (n : N) (acc : jsstring),
    Z.of_N n < 10 ^ Z.of_nat fuel ->
    Shape.digits acc ->
    Shape.digits (Decimal.digits fuel n acc)
    /\ decimal_value (Decimal.digits fuel n acc)
       = Z.of_N n * 10 ^ Z.of_nat (List.length acc) + decimal_value acc.
Proof.
  induction fuel as [|fuel IH]; intros n acc Hn Hacc.
  - simpl in Hn |- *. split; [exact Hacc|]. lia.
  - cbn [Decimal.digits]. destruct (digit_of_mod n) as [Hd Hv].
    assert (Hacc' : Shape.digits ((48 + n mod 10)%N :: acc))
      by (constructor; assumption).
    pose proof (N.div_mod n 10 ltac:(discriminate)) as Hdm.
    destruct (N.ltb_spec n 10) as [Hlt|Hge].
    + split; [exact Hacc'|]. rewrite decimal_value_cons, Hv.
      rewrite N.mod_small by exact Hlt. reflexivity.
    + assert (Hq : Z.of_N (n / 10) < 10 ^ Z.of_nat fuel).
      { rewrite Nat2Z.inj_succ, Z.pow_succ_r in Hn by lia.
        rewrite N2Z.inj_div. apply Z.div_lt_upper_bound; lia. }
      destruct (IH (n / 10)%N _ Hq Hacc') as [H1 H2].
      split; [exact H1|]. rewrite H2, decimal_value_cons, Hv.
      cbn [List.length]. rewrite Nat2Z.inj_succ, Z.pow_succ_r by lia.
      rewrite N2Z.inj_mod, N2Z.inj_div.
      pose proof (Z.div_mod (Z.of_N n) 10 ltac:(lia)) as Hz.
      change (Z.of_N 10) with 10. lia.
Qed.

Lemma to_string_fuel (n : N) :
  Z.of_N n < 10 ^ Z.of_nat (S (N.to_nat (N.log2 n))).
Proof.
  destruct (N.eq_dec n 0) as [->|Hne]; [reflexivity|].
  pose proof (N.log2_spec n ltac:(lia)) as [_ Hlog].
  apply Z.lt_le_trans with (2 ^ Z.of_nat (S (N.to_nat (N.log2 n)))).
  - rewrite Nat2Z.inj_succ, N_nat_Z.
    replace (Z.succ (Z.of_N (N.log2 n))) with (Z.of_N (N.succ (N.log2 n))) by lia.
    rewrite <- (N2Z.inj_pow 2). lia.
  - apply Z.pow_le_mono_l. lia.
Qed.

(** [parseInt(String(n), 10)] gives [n] back. *)
Lemma parseInt_to_string (n : Z) :
  0 <= n ->
  Decimal.to_string n <> []
  /\ parseInt (Decimal.to_string n) = Some n.
Proof.
  intros Hn. unfold Decimal.to_string.
  destruct (Decimal_digits_spec _ (Z.to_N n) [] (to_string_fuel (Z.to_N n))
              ltac:(constructor)) as [Hd Hv].
  assert (Hlen : forall f m acc, acc <> [] -> Decimal.digits f m acc <> []).
  { clear. induction f as [|f IH]; intros m acc Ha; [exact Ha|].
    cbn [Decimal.digits]. destruct (m <? 10)%N; [discriminate|].
    apply IH. discriminate. }
  assert (Hne : Decimal.digits (S (N.to_nat (N.log2 (Z.to_N n)))) (Z.to_N n) []
                <> []).
  { cbn [Decimal.digits]. destruct (Z.to_N n <? 10)%N; [discriminate|].
    apply Hlen. discriminate. }
  split; [exact Hne|].
  destruct (Decimal.digits _ _ _) as [|d r] eqn:E; [congruence|].
  rewrite parseInt_digits by exact Hd.
  rewrite Hv. f_equal. change (decimal_value []) with 0.
  cbn [List.length]. rewrite Z2N.id by lia. change (10 ^ Z.of_nat 0) with 1.
  lia.
Qed.

End DecimalProperties.

Section CountdownProperties.
Import Countdown.

(** Numbers below one hundred are shown on two places and read back. *)
Lemma two_places_small (n : Z) :
  0 <= n < 100 ->
  List.length (two_places n) = 2%nat
  /\ NumericLiteral.parseInt (two_places n) = Some n.
Proof.
  intros Hn.
  set (check := fun k : nat =>
         (List.length (two_places (Z.of_nat k)) =? 2)%nat
         && bool_decide (NumericLiteral.parseInt (two_places (Z.of_nat k))
                         = Some (Z.of_nat k))).
  assert (Hall : forallb check (seq 0 100) = true) by (vm_compute; reflexivity).
  rewrite forallb_forall in Hall.
  specialize (Hall (Z.to_nat n)).
  assert (Hin : In (Z.to_nat n) (seq 0 100)) by (apply in_seq; lia).
  apply Hall in Hin. unfold check in Hin.
  rewrite Z2Nat.id in Hin by lia.
  apply andb_true_iff in Hin as [H1 H2].
  split; [apply Nat.eqb_eq; exact H1 | apply bool_decide_eq_true in H2; exact H2].
Qed.

(** X19. While time remains, [updateTimer] keeps the end time and the
    store, and shows the time left split into whole hours, minutes below 60
    and seconds below 60 that account for all of it but less than a second;
    the timer pulses exactly when the hours are zero. Within the 24 hours of
    an offer the hours do not exceed 24. Minutes and seconds, and hours
    below 100, are shown on exactly two places that read back as the
    number. *)
Theorem countdown_parts (endTime now later : Z) (ls : local_storage) :
  0 < endTime - now <= MAX_SAFE_INTEGER ->
  let remaining := endTime - now in
  let h := hours remaining in
  let m := minutes remaining in
  let s := seconds remaining in
  updateTimer endTime ls now later
  = (endTime, ls,
     {| countHours := two_places h; countMinutes := two_places m;
        countSeconds := two_places s |},
     bool_decide (h = 0))
  /\ 0 <= h /\ 0 <= m < 60 /\ 0 <= s < 60
  /\ 0 <= remaining - (h * 3600000 + m * 60000 + s * 1000) < 1000
  /\ (remaining <= COUNTDOWN_DURATION -> h <= 24)
  /\ List.length (two_places m) = 2%nat
  /\ NumericLiteral.parseInt (two_places m) = Some m
  /\ List.length (two_places s) = 2%nat
  /\ NumericLiteral.parseInt (two_places s) = Some s
  /\ (h < 100 -> List.length (two_places h) = 2%nat
                 /\ NumericLiteral.parseInt (two_places h) = Some h).
Proof.
  intros [Hpos _] remaining h m s.
  assert (Hh : 0 <= h /\ (remaining <= COUNTDOWN_DURATION -> h <= 24)
               /\ 0 <= m < 60 /\ 0 <= s < 60
               /\ 0 <= remaining - (h * 3600000 + m * 60000 + s * 1000) < 1000
               /\ (remaining < 60 * 60 * 1000 <-> h = 0)).
  { unfold h, m, s, hours, minutes, seconds, COUNTDOWN_DURATION.
    fold remaining in Hpos. clearbody remaining.
    rewrite !Z.rem_mod_nonneg by lia.
    change (1000 * 60 * 60) with 3600000. change (1000 * 60) with 60000.
    change (60 * 60 * 1000) with 3600000.
    change (24 * 60 * 60 * 1000) with 86400000.
    Z.to_euclidean_division_equations. lia. }
  destruct Hh as (H0 & H24 & Hm & Hs & Hsum & Hpulse).
  pose proof (two_places_small m ltac:(lia)) as [Lm Pm].
  pose proof (two_places_small s ltac:(lia)) as [Ls Ps].
  split.
  { unfold updateTimer. fold remaining.
    destruct (Z.leb_spec remaining 0) as [Hle|_]; [unfold remaining in Hle; lia|].
    fold h m s. do 2 f_equal.
    destruct (Z.ltb_spec remaining (60 * 60 * 1000)) as [Hlt|Hge].
    - symmetry. apply bool_decide_eq_true. apply Hpulse, Hlt.
    - symmetry. apply bool_decide_eq_false. intros E. apply Hpulse in E. lia. }
  split; [exact H0|]. split; [exact Hm|]. split; [exact Hs|].
  split; [exact Hsum|]. split; [exact H24|].
  split; [exact Lm|]. split; [exact Pm|].
  split; [exact Ls|]. split; [exact Ps|].
  intros H100. apply (two_places_small h). lia.
Qed.

(** Ninety minutes and a half second before the end. *)
Lemma countdown_parts_witness :
  updateTimer 48600500 None 43200000 43200000
  = (48600500, None,
     {| countHours := str "01"; countMinutes := str "30";
        countSeconds := str "00" |}, false).
Proof.
  pose proof (countdown_parts 48600500 43200000 43200000 None
                ltac:(unfold MAX_SAFE_INTEGER; lia)) as H.
  cbv zeta in H. destruct H as (Hrun & _).
  rewrite Hrun. vm_compute. reflexivity.
Defined.

(** X20. [getCountdownEndTime] returns an end time after the moment it is
    asked. With a usable [localStorage], the text left under the countdown
    key reads back as that end time, so that asking again at any moment
    before the end, after a reload for instance, returns the same end time
    and leaves the store as it is: the countdown does not start over.
    Without [localStorage] every call starts a new period of 24 hours. *)
Theorem countdown_end_time_persists (st : storage) (now later : Z) :
  0 <= now -> now <= later ->
  later + COUNTDOWN_DURATION <= MAX_SAFE_INTEGER ->
  let endTime := fst (getCountdownEndTime (Some st) now later) in
  let ls' := snd (getCountdownEndTime (Some st) now later) in
  now < endTime
  /\ (exists st' text,
         ls' = Some st' /\ st' !! COUNTDOWN_KEY = Some text /\ text <> []
         /\ NumericLiteral.parseInt text = Some endTime)
  /\ (forall now2 later2,
         now2 < endTime ->
         getCountdownEndTime ls' now2 later2 = (endTime, ls'))
  /\ getCountdownEndTime None now later = (later + COUNTDOWN_DURATION, None).
Proof.
  intros Hnow Hlater _ endTime ls'.
  assert (Hreset :
            let e := later + COUNTDOWN_DURATION in
            let st' := <[ COUNTDOWN_KEY := Decimal.to_string e ]> st in
            now < e
            /\ st' !! COUNTDOWN_KEY = Some (Decimal.to_string e)
            /\ Decimal.to_string e <> []
            /\ NumericLiteral.parseInt (Decimal.to_string e) = Some e).
  { cbv zeta. unfold COUNTDOWN_DURATION.
    destruct (parseInt_to_string (later + 24 * 60 * 60 * 1000) ltac:(lia))
      as [Hne Hp].
    split; [lia|]. split; [apply lookup_insert_eq|]. split; assumption. }
  cbv zeta in Hreset. destruct Hreset as (R1 & R2 & R3 & R4).
  assert (Hagain : forall (s0 : storage) text e now2 later2,
             s0 !! COUNTDOWN_KEY = Some text -> text <> [] ->
             NumericLiteral.parseInt text = Some e -> now2 < e ->
             getCountdownEndTime (Some s0) now2 later2 = (e, Some s0)).
  { intros s0 text e now2 later2 Hl Hne Hp Hlt. unfold getCountdownEndTime.
    rewrite Hl. destruct text; [congruence|]. cbn [JsString.is_empty].
    rewrite Hp. apply Z.ltb_lt in Hlt. rewrite Hlt. reflexivity. }
  assert (Hcases :
            (exists text, st !! COUNTDOWN_KEY = Some text /\ text <> []
                          /\ NumericLiteral.parseInt text = Some endTime
                          /\ now < endTime /\ ls' = Some st)
            \/ (endTime = later + COUNTDOWN_DURATION
                /\ ls' = Some (<[ COUNTDOWN_KEY :=
                                  Decimal.to_string (later + COUNTDOWN_DURATION) ]> st))).
  { unfold endTime, ls', getCountdownEndTime, resetCountdown.
    destruct (st !! COUNTDOWN_KEY) as [stored|] eqn:El; [|right; split; reflexivity].
    destruct stored as [|c r]; [right; split; reflexivity|].
    cbn [JsString.is_empty].
    destruct (NumericLiteral.parseInt (c :: r)) as [e|] eqn:Ep;
      [|right; split; reflexivity].
    destruct (Z.ltb_spec now e) as [Hlt|Hge]; [|right; split; reflexivity].
    left. exists (c :: r). cbn [fst snd].
    repeat split; try assumption; discriminate. }
  split; [|split; [|split]].
  - destruct Hcases as [(text & _ & _ & _ & H & _)|[-> _]]; [exact H | exact R1].
  - destruct Hcases as [(text & Hl & Hne & Hp & _ & ->)|[-> ->]].
    + exists st, text. repeat split; assumption.
    + eexists _, _. repeat split; eassumption.
  - intros now2 later2 Hlt.
    destruct Hcases as [(text & Hl & Hne & Hp & _ & ->)|[E ->]].
    + apply (Hagain st text); assumption.
    + rewrite E in Hlt |- *.
      apply (Hagain _ (Decimal.to_string (later + COUNTDOWN_DURATION)));
        assumption.
  - reflexivity.
Qed.

(** A first visit at noon, clock in milliseconds, and a reload an hour
    later. *)
Lemma countdown_end_time_persists_witness :
  getCountdownEndTime
    (snd (getCountdownEndTime (Some ∅) 43200000 43200001))
    46800000 46800001
  = (129600001, snd (getCountdownEndTime (Some ∅) 43200000 43200001)).
Proof.
  pose proof (countdown_end_time_persists ∅ 43200000 43200001
                ltac:(lia) ltac:(lia) ltac:(vm_compute; discriminate)) as H.
  cbv zeta in H. destruct H as (_ & _ & Hagain & _).
  apply (Hagain 46800000 46800001). vm_compute. reflexivity.
Defined.

End CountdownProperties.

(** ** The quantity and currency patterns *)

Section QuantityPatternProperties.
Import JsString NumericLiteral Regex Validation.

(** A run of [n] digits denotes a number below [10 ^ n]. *)
Lemma decimal_value_bound (ds : jsstring) :
  Shape.digits ds ->
  0 <= decimal_value ds < 10 ^ Z.of_nat (List.length ds).
Proof.
  induction 1 as [|d r Hd Hr IH].
  - cbn. lia.
  - rewrite decimal_value_cons. cbn [List.length].
    rewrite Nat2Z.inj_succ, Z.pow_succ_r by lia.
    apply is_digit_bounds in Hd. unfold digit_value.
    assert (0 < 10 ^ Z.of_nat (List.length r)) by (apply Z.pow_pos_nonneg; lia).
    nia.
Qed.

(** What [/^[1-9]\d*$/] accepts. *)
Lemma matches_quantity (s : jsstring) :
  test ValidationPatterns.quantity s = true
  <-> exists d r, s = d :: r /\ in_range 49 57 d = true /\ Shape.digits r.
Proof.
  rewrite test_matches. unfold ValidationPatterns.quantity. split.
  - intros H. inversion H as [| |? ? s1 s2 H1 H2| | | |]; subst.
    inversion H1 as [|? d Hd| | | | |]; subst.
    exists d, s2. split; [reflexivity|]. split; [exact Hd|].
    apply (star_class_all is_digit). exact H2.
  - intros (d & r & -> & Hd & Hr).
    change (d :: r) with ([d] ++ r).
    constructor; [constructor; exact Hd | apply matches_star_class; exact Hr].
Qed.

(** X21. A quantity written as [ValidationPatterns.quantity] describes it,
    a digit from 1 to 9 followed by digits, is never answered with the
    general quantity message: [validateQuantity] accepts it when it has one
    or two digits and answers with the message of the maximum otherwise.
    The validator itself is more lenient than the pattern: it reads the
    number a text starts with. *)
Theorem validateQuantity_of_pattern :
  (forall s : jsstring,
      test ValidationPatterns.quantity s = true ->
      (validateQuantity (Text s) = ok <-> (List.length s <= 2)%nat)
      /\ ((2 < List.length s)%nat ->
          validateQuantity (Text s) = invalid ErrorMessages.quantityMax)
      /\ exists n, parseInt s = Some n /\ 1 <= n)
  /\ test ValidationPatterns.quantity (str "5 apples") = false
  /\ validateQuantity (Text (str "5 apples")) = ok
  /\ test ValidationPatterns.quantity (str "007") = false
  /\ validateQuantity (Text (str "007")) = ok.
Proof.
  split; [|repeat split; vm_compute; reflexivity].
  intros s Hs. apply matches_quantity in Hs as (d & r & -> & Hd & Hr).
  apply in_range_bounds in Hd.
  assert (Hdig : Shape.digits (d :: r)).
  { constructor; [apply is_digit_bounds; lia | exact Hr]. }
  pose proof (parseInt_digits d r Hdig) as Hp.
  pose proof (decimal_value_bound r Hr) as Hb.
  pose proof (decimal_value_cons d r) as Hv.
  assert (Hpow : 0 < 10 ^ Z.of_nat (List.length r))
    by (apply Z.pow_pos_nonneg; lia).
  assert (Hdv : 1 <= digit_value d <= 9) by (unfold digit_value; lia).
  set (n := decimal_value (d :: r)) in *.
  assert (H1 : 1 <= n) by nia.
  assert (Hsmall : (List.length r <= 1)%nat -> n <= 99).
  { intros Hl.
    assert (10 ^ Z.of_nat (List.length r) <= 10).
    { destruct r as [|a [|b r']]; cbn in Hl |- *; lia. }
    nia. }
  assert (Hlarge : (2 <= List.length r)%nat -> 99 < n).
  { intros Hl.
    assert (100 <= 10 ^ Z.of_nat (List.length r)).
    { change 100 with (10 ^ 2).
      apply Z.pow_le_mono_r; lia. }
    nia. }
  assert (Hrun : validateQuantity (Text (d :: r))
                 = if 99 <? n then invalid ErrorMessages.quantityMax else ok).
  { unfold validateQuantity. cbn [absent is_empty String_of].
    rewrite Hp. destruct (Z.ltb_spec n 1); [lia | reflexivity]. }
  rewrite Hrun. cbn [List.length]. split; [|split].
  - destruct (Z.ltb_spec 99 n) as [Hgt|Hle]; split.
    + discriminate.
    + intros Hl. assert (n <= 99) by (apply Hsmall; lia). lia.
    + intros _. destruct (Nat.le_gt_cases (List.length r) 1) as [Hl|Hl];
        [lia|]. assert (99 < n) by (apply Hlarge; lia). lia.
    + reflexivity.
  - intros Hl. destruct (Z.ltb_spec 99 n) as [Hgt|Hle]; [reflexivity|].
    assert (99 < n) by (apply Hlarge; lia). lia.
  - exists n. split; [exact Hp | exact H1].
Qed.

(** Forty-two is of the pattern and accepted. *)
Lemma validateQuantity_of_pattern_witness :
  validateQuantity (Text (str "42")) = ok.
Proof.
  destruct (proj1 validateQuantity_of_pattern (str "42") eq_refl)
    as [[_ H] _].
  apply H. cbn. lia.
Defined.

End QuantityPatternProperties.

Section RoundingProperties.

(** Shifting a mantissa that is not negative to the right. *)
Lemma shr_1_nonneg (mrs : shr_record) :
  0 <= shr_m mrs -> 0 <= shr_m (shr_1 mrs).
Proof.
  destruct mrs as [m r s]. cbn [shr_m]. intros H.
  destruct m as [|p|p]; [cbn; lia | | lia].
  destruct p; cbn; lia.
Qed.

Lemma iter_pos_nonneg (n : positive) :
  forall mrs, 0 <= shr_m mrs -> 0 <= shr_m (iter_pos shr_1 n mrs).
Proof.
  induction n as [n IH|n IH|]; intros mrs H; cbn [iter_pos].
  - apply IH, IH, shr_1_nonneg, H.
  - apply IH, IH, H.
  - apply shr_1_nonneg, H.
Qed.

Lemma shr_fexp_nonneg (m e : Z) (l : location) :
  0 <= m ->
  0 <= shr_m (fst (shr_fexp JsNumber.prec JsNumber.emax m e l)).
Proof.
  intros H. unfold shr_fexp, shr.
  assert (H0 : 0 <= shr_m (shr_record_of_loc m l)).
  { destruct l as [|[ | | ]]; exact H. }
  destruct (_ - e) as [|p|p]; cbn [fst]; [exact H0 | | exact H0].
  apply iter_pos_nonneg, H0.
Qed.

Lemma round_nearest_even_nonneg (m : Z) (l : location) :
  0 <= m -> 0 <= round_nearest_even m l.
Proof.
  intros H. unfold round_nearest_even.
  destruct l as [|[ | | ]]; try lia. destruct (Z.even m); lia.
Qed.

(** Rounding a mantissa that is not negative gives a number. *)
Lemma binary_round_aux_not_nan (sx : bool) (mx ex : Z) (lx : location) :
  0 <= mx ->
  JsNumber.isNaN (binary_round_aux JsNumber.prec JsNumber.emax sx mx ex lx)
  = false.
Proof.
  intros H. unfold binary_round_aux.
  pose proof (shr_fexp_nonneg mx ex lx H) as H1.
  destruct (shr_fexp _ _ mx ex lx) as [mrs' e']. cbn [fst] in H1.
  pose proof (shr_fexp_nonneg _ e' loc_Exact
                (round_nearest_even_nonneg _ (loc_of_shr_record mrs') H1)) as H2.
  destruct (shr_fexp _ _ _ e' loc_Exact) as [mrs'' e'']. cbn [fst] in H2.
  destruct (shr_m mrs'') as [|m|m]; [reflexivity | | lia].
  destruct (e'' <=? _); reflexivity.
Qed.

Lemma SFdiv_core_binary_nonneg (m1 e1 m2 e2 : Z) :
  0 <= m1 -> 0 < m2 ->
  0 <= fst (fst (SFdiv_core_binary JsNumber.prec JsNumber.emax m1 e1 m2 e2)).
Proof.
  intros H1 H2. unfold SFdiv_core_binary.
  set (s := _ - _ - _).
  set (m' := match s with Z0 => m1 | Zpos _ => Z.shiftl m1 s | Zneg _ => 0 end).
  assert (Hm : 0 <= m').
  { unfold m'. destruct s; [exact H1 | apply Z.shiftl_nonneg; exact H1 | lia]. }
  pose proof (Z.div_pos m' m2 Hm H2) as Hq. unfold Z.div in Hq.
  destruct (Z.div_eucl m' m2) as [q r]. exact Hq.
Qed.

(** A decimal literal never reads as NaN. *)
Lemma of_decimal_not_nan (neg : bool) (m e : Z) :
  0 <= m -> JsNumber.isNaN (NumericLiteral.of_decimal neg m e) = false.
Proof.
  intros H. unfold NumericLiteral.of_decimal.
  destruct m as [|p|p]; [reflexivity | | lia].
  unfold SFdiv.
  pose proof (SFdiv_core_binary_nonneg
                (Z.pos (Z.to_pos (Z.pos p * 10 ^ Z.max e 0))) 0
                (Z.pos (Z.to_pos (10 ^ Z.max (- e) 0))) 0
                ltac:(lia) ltac:(lia)) as Hq.
  destruct (SFdiv_core_binary _ _ _ _ _ _) as [[mz ez] lz]. cbn [fst] in Hq.
  apply binary_round_aux_not_nan, Hq.
Qed.

(** A number whose sign bit is clear is not below zero. *)
Lemma sign_not_lt_zero (x : number) :
  JsNumber.sign x = false -> JsNumber.lt x JsNumber.zero = false.
Proof.
  destruct x as [s|s| |s m e]; cbn; intros H; try rewrite H; reflexivity.
Qed.

End RoundingProperties.

Section CurrencyPatternProperties.
Import JsString NumericLiteral Regex Validation.

Lemma decimal_value_nonneg (ds : jsstring) :
  Shape.digits ds -> 0 <= decimal_value ds.
Proof.
  unfold decimal_value, digits_value.
  assert (G : forall a, 0 <= a -> Shape.digits ds ->
                0 <= fold_left (fun acc c => acc * 10 + digit_value c) ds a).
  { induction ds as [|d r IH]; intros a Ha Hd; [exact Ha|].
    inversion Hd as [|? ? H1 H2]; subst. cbn [fold_left].
    apply IH; [|exact H2].
    apply is_digit_bounds in H1. unfold digit_value. lia. }
  apply G. lia.
Qed.

(** The digits a text starts with, when what follows is no digit. *)
Lemma span_digits_app (ds rest : jsstring) :
  Shape.digits ds ->
  match rest with [] => True | c :: _ => is_digit c = false end ->
  span is_digit (ds ++ rest) = (ds, rest).
Proof.
  intros Hd Hr. induction Hd as [|d r Hd Hr' IH]; cbn [app span].
  - destruct rest as [|c rest']; [reflexivity|]. cbn [span]. rewrite Hr.
    reflexivity.
  - rewrite Hd, IH. reflexivity.
Qed.

(** What [/^\d+(\.\d{0,2})?$/] accepts. *)
Lemma matches_currency (s : jsstring) :
  test ValidationPatterns.currency s = true
  <-> exists ip rest,
        s = ip ++ rest /\ ip <> [] /\ Shape.digits ip
        /\ (rest = []
            \/ exists fp, rest = 46%N :: fp
                          /\ (List.length fp <= 2)%nat /\ Shape.digits fp).
Proof.
  rewrite test_matches. unfold ValidationPatterns.currency. split.
  - intros H. inversion H as [| |? ? s1 s2 H1 H2| | | |]; subst.
    apply (matches_atleast_class is_digit) in H1 as [L1 F1].
    exists s1, s2. split; [reflexivity|].
    split; [destruct s1; [simpl in L1; lia | discriminate]|].
    split; [exact F1|].
    unfold Opt in H2.
    inversion H2 as [| | |? ? ? Ha|? ? ? Hb| |]; subst.
    + right. inversion Ha as [| |? ? t1 t2 Hd Hf| | | |]; subst.
      inversion Hd as [|? c Hc| | | | |]; subst.
      apply N.eqb_eq in Hc. subst c.
      apply (matches_range_class is_digit 0 2) in Hf as [Lf Ff]; [|lia].
      exists t2. split; [reflexivity|]. split; [lia | exact Ff].
    + left. inversion Hb. reflexivity.
  - intros (ip & rest & -> & Hne & Hip & Hrest).
    constructor.
    + apply (matches_atleast_class is_digit). split; [|exact Hip].
      destruct ip; [congruence | simpl; lia].
    + unfold Opt. destruct Hrest as [->|(fp & -> & Lf & Ff)].
      * apply m_alt_r. constructor.
      * apply m_alt_l. change (46%N :: fp) with ([46%N] ++ fp).
        constructor; [constructor; reflexivity|].
        apply (matches_range_class is_digit 0 2); [lia|].
        split; [lia | exact Ff].
Qed.

(** X22. An amount written as [ValidationPatterns.currency] describes it,
    digits with at most two decimals, is always accepted by
    [validateCurrency]. The validator is more lenient than the pattern: it
    reads the number a text starts with, and refuses negative numbers
    only. *)
Theorem validateCurrency_of_pattern :
  (forall s : jsstring,
      test ValidationPatterns.currency s = true ->
      validateCurrency (Text s) = ok)
  /\ test ValidationPatterns.currency (str "12.345") = false
  /\ validateCurrency (Text (str "12.345")) = ok
  /\ test ValidationPatterns.currency (str "12 dollars") = false
  /\ validateCurrency (Text (str "12 dollars")) = ok
  /\ test ValidationPatterns.currency (str "-0") = false
  /\ validateCurrency (Text (str "-0")) = ok
  /\ validateCurrency (Text (str "-1")) = invalid ErrorMessages.currency.
Proof.
  split; [|repeat split; vm_compute; reflexivity].
  intros s Hs.
  apply matches_currency in Hs as (ip & rest & -> & Hne & Hip & Hrest).
  destruct ip as [|d ip']; [congruence|].
  inversion Hip as [|? ? Hd Hip']; subst.
  pose proof (digit_not_space d Hd) as Hsp.
  pose proof (proj1 (is_digit_bounds d) Hd) as Hb.
  assert (Hspan : span is_digit ((d :: ip') ++ rest) = (d :: ip', rest)).
  { apply span_digits_app; [exact Hip|].
    destruct Hrest as [->|(fp & -> & _)]; [exact I | reflexivity]. }
  assert (Hlit : exists m e,
             0 <= m
             /\ scan_unsigned ((d :: ip') ++ rest) = Some (LitDecimal m e, [])).
  { unfold scan_unsigned.
    assert (Hinf : strip_prefix (str "Infinity") ((d :: ip') ++ rest) = None).
    { change (str "Infinity") with (73%N :: str "nfinity").
      cbn [app strip_prefix].
      destruct (N.eqb_spec 73 d) as [E|_]; [lia | reflexivity]. }
    rewrite Hinf, Hspan.
    destruct Hrest as [->|(fp & -> & Lf & Ff)].
    - exists (decimal_value (d :: ip')), 0.
      split; [apply decimal_value_nonneg, Hip | reflexivity].
    - change (46 =? 46)%N with true. cbv iota.
      rewrite (span_digits fp Ff).
      exists (decimal_value ((d :: ip') ++ fp)), (0 - Z.of_nat (List.length fp)).
      split; [apply decimal_value_nonneg, Forall_app; split; assumption|].
      reflexivity. }
  destruct Hlit as (m & e & Hm & Hscan).
  assert (Hpf : parseFloat ((d :: ip') ++ rest) = of_decimal false m e).
  { unfold parseFloat. cbn [app trimStart]. rewrite Hsp.
    unfold scan_signed, scan_sign, is_sign.
    destruct (N.eqb_spec d 43) as [E|_]; [lia|].
    destruct (N.eqb_spec d 45) as [E|_]; [lia|].
    cbn [orb]. cbn [app] in Hscan. rewrite Hscan. reflexivity. }
  unfold validateCurrency. cbn [absent String_of is_empty app].
  cbn [app] in Hpf. rewrite Hpf.
  rewrite (of_decimal_not_nan false m e Hm).
  rewrite (sign_not_lt_zero _ (of_decimal_sign m e)). reflexivity.
Qed.

(** An amount with two decimals. *)
Lemma validateCurrency_of_pattern_witness :
  validateCurrency (Text (str "613.50")) = ok.
Proof.
  apply (proj1 validateCurrency_of_pattern (str "613.50")). reflexivity.
Defined.

End CurrencyPatternProperties.

(** ** Typing, the payment method and the newsletter *)

Section TypingProperties.
Import Form Typing.

(** X23. Typing in a field hides a visible error without validating: the
    red border goes, the field is marked [aria-invalid="false"] and the
    message is hidden, its text and [aria-describedby] staying in place.
    Typing again changes nothing more, a field whose error is hidden or
    cleared is left as it is, and so is a field without an element for its
    message, which keeps its red border until it is validated again. *)
Theorem typing_hides_error (e : element) (m : string) :
  on_input (on_input e) = on_input e
  /\ Form.value (on_input e) = Form.value e
  /\ on_input (clearFieldError e) = clearFieldError e
  /\ (errorSpan e = None -> on_input (showFieldError e m) = showFieldError e m)
  /\ (forall sp, errorSpan e = Some sp ->
        let e' := on_input (showFieldError e m) in
        aria_invalid e' = Some (str "false")
        /\ (str "border-red-500" ∉ classList e')
        /\ (str "border-brand-green-dark" ∈ classList e')
        /\ aria_describedby e' = aria_describedby (showFieldError e m)
        /\ exists sp', errorSpan e' = Some sp'
                       /\ textContent sp' = m
                       /\ (str "hidden" ∈ span_classList sp'))
  /\ ((str "border-green-500" ∉ classList e) ->
      clearFieldError (on_input e) = clearFieldError e).
Proof.
  assert (Hne : str "border-red-500" <> str "border-brand-green-dark")
    by discriminate.
  split; [|split; [|split; [|split; [|split]]]].
  - unfold on_input at 2 3.
    destruct (errorSpan e) as [sp|] eqn:Es.
    + destruct (bool_decide (str "hidden" ∈ span_classList sp)) eqn:Eh.
      * unfold on_input. rewrite Es, Eh. reflexivity.
      * unfold on_input, resetFieldStyling, with_display.
        cbn [errorSpan span_classList].
        rewrite bool_decide_eq_true_2 by set_solver. reflexivity.
    + unfold on_input. rewrite Es. reflexivity.
  - unfold on_input. destruct (errorSpan e) as [sp|]; [|reflexivity].
    destruct (bool_decide _); reflexivity.
  - unfold on_input, clearFieldError, with_display. cbn [errorSpan].
    destruct (errorSpan e) as [sp|]; [|reflexivity].
    cbn [span_classList].
    rewrite bool_decide_eq_true_2 by set_solver. reflexivity.
  - intros Es. unfold on_input, showFieldError, with_display.
    cbn [errorSpan]. rewrite Es. reflexivity.
  - intros sp Es e'. unfold e', on_input, showFieldError, resetFieldStyling,
      with_display.
    cbn [errorSpan]. rewrite Es. cbn [span_classList].
    rewrite bool_decide_eq_false_2 by set_solver.
    cbn [aria_invalid classList aria_describedby errorSpan].
    split; [reflexivity|]. split; [set_solver|]. split; [set_solver|].
    split; [reflexivity|].
    eexists. split; [reflexivity|]. cbn [textContent span_classList].
    split; [reflexivity | set_solver].
  - intros Hg. unfold on_input.
    destruct (errorSpan e) as [sp|] eqn:Es; [|reflexivity].
    destruct (bool_decide _); [reflexivity|].
    unfold clearFieldError, resetFieldStyling, with_display.
    cbn [id Form.value type disabled required classList aria_invalid
         aria_describedby errorSpan]. rewrite Es.
    cbn [span_id textContent span_classList]. f_equal.
    + clear Hne. revert Hg.
      generalize (str "border-red-500") (str "border-brand-green-dark")
        (str "border-green-500").
      intros red neutral green Hg. apply set_eq; intros x.
      destruct (decide (x = red)); destruct (decide (x = neutral));
        destruct (decide (x = green)); set_solver.
    + do 2 f_equal. set_solver.
Qed.

End TypingProperties.

Section PaymentMethodProperties.
Import Form PaymentMethod.

Variable now : Date.

(** A form whose controls are all disabled is valid, and left alone. *)
Lemma validateForm_disabled (document inputs : list element)
    (country : jsstring) :
  Forall (fun e => disabled e = true) inputs ->
  validateForm now document inputs country
  = {| done := inputs; isValid := true; firstInvalidField := None |}.
Proof.
  intros H. unfold validateForm.
  assert (G : forall acc,
             fold_left (validate_one now document country) inputs acc
             = {| done := done acc ++ inputs; isValid := isValid acc;
                  firstInvalidField := firstInvalidField acc |}).
  { induction H as [|e rest He Hrest IH]; intros acc.
    - cbn [fold_left]. rewrite app_nil_r. destruct acc; reflexivity.
    - cbn [fold_left]. rewrite IH. unfold validate_one, skipped.
      rewrite He. cbn [orb done isValid firstInvalidField].
      rewrite <- app_assoc. reflexivity. }
  rewrite G. reflexivity.
Qed.

(** X24. Choosing a payment method other than the card disables every card
    field and clears its error, so that [validateForm] accepts the form
    without looking at them. Choosing the card again enables them, and the
    errors cleared do not come back. The value typed is never touched, and
    running the handler twice, as happens with the handlers of both scripts
    attached, gives what running it once gives. *)
Theorem payment_method_change
    (value : jsstring) (cardFields document : list element)
    (country : jsstring) :
  let fields' := on_change value cardFields in
  map id fields' = map id cardFields
  /\ map Form.value fields' = map Form.value cardFields
  /\ on_change value fields' = fields'
  /\ (JsString.eqb value (str "card") = true ->
      fields' = map (set_disabled false) cardFields)
  /\ (JsString.eqb value (str "card") = false ->
      Forall (fun e => disabled e = true
                       /\ aria_invalid e = Some (str "false")) fields'
      /\ validateForm now document fields' country
         = {| done := fields'; isValid := true; firstInvalidField := None |}
      /\ on_change (str "card") fields'
         = map (fun e => clearFieldError (set_disabled false e)) cardFields).
Proof.
  intros fields'. unfold fields', on_change.
  split; [|split; [|split; [|split]]].
  - rewrite map_map. apply map_ext. intros e.
    destruct (JsString.eqb value (str "card")); reflexivity.
  - rewrite map_map. apply map_ext. intros e.
    destruct (JsString.eqb value (str "card")); reflexivity.
  - rewrite map_map. apply map_ext. intros e.
    destruct (JsString.eqb value (str "card")); cbn [toggle_field];
      [reflexivity|].
    unfold clearFieldError, set_disabled, with_display.
    cbn [id Form.value type disabled required classList aria_invalid
         aria_describedby errorSpan].
    f_equal.
    + generalize (str "border-red-500") (str "border-brand-green-dark").
      intros red neutral. apply set_eq; intros x.
      destruct (decide (x = red)); destruct (decide (x = neutral));
        set_solver.
    + destruct (errorSpan e) as [sp|]; [|reflexivity].
      cbn [span_id textContent span_classList]. do 2 f_equal. set_solver.
  - intros ->. reflexivity.
  - intros ->. cbn [toggle_field]. split; [|split].
    + apply Forall_map. apply Forall_forall. intros e _. split; reflexivity.
    + apply validateForm_disabled.
      apply Forall_map. apply Forall_forall. intros e _. reflexivity.
    + change (JsString.eqb (str "card") (str "card")) with true.
      rewrite map_map. apply map_ext. intros e. reflexivity.
Qed.

End PaymentMethodProperties.

Section NewsletterProperties.
Import Validation Form Newsletter.

(** X25. Subscribing to the newsletter: with an address [validateEmail]
    accepts, the field is cleared and emptied and the form holds one
    confirmation, an earlier one being replaced; submitting again right
    away then shows the message of a required field. With any other input
    the error is shown on the field, which keeps its text and receives the
    focus, and no confirmation is added. On a page without the e-mail field
    the handler throws. *)
Theorem newsletter_submit_outcome (e : element) (n : nat) (fo : bool) :
  let f := {| emailInput := Some e; successMessages := n; focused := fo |} in
  (valid (validateEmail (Form.value e)) = true ->
   let f' := {| emailInput := Some (with_value (clearFieldError e) []);
                successMessages := S (pred n); focused := fo |} in
   submit f = Normal f'
   /\ ((n <= 1)%nat -> successMessages f' = 1%nat)
   /\ submit f'
      = Normal {| emailInput :=
                    Some (showFieldError (with_value (clearFieldError e) [])
                            ErrorMessages.required);
                  successMessages := successMessages f';
                  focused := true |})
  /\ (valid (validateEmail (Form.value e)) = false ->
      submit f
      = Normal {| emailInput :=
                    Some (showFieldError e
                            (message (validateEmail (Form.value e))));
                  successMessages := n; focused := true |})
  /\ (forall n' fo',
         submit {| emailInput := None; successMessages := n'; focused := fo' |}
         = Throw TypeError).
Proof.
  intros f. split; [|split].
  - intros Hv f'. split; [|split].
    + unfold submit, f. cbn [emailInput]. rewrite Hv. reflexivity.
    + intros Hn. unfold f'. cbn [successMessages]. lia.
    + reflexivity.
  - intros Hv. unfold submit, f. cbn [emailInput]. rewrite Hv. reflexivity.
  - reflexivity.
Qed.

End NewsletterProperties.

(** ** The floating button *)

Section FloatingAnchorProperties.
Import FloatingAnchor.

Lemma settled_init (y : number) (show : bool) : settled (init y show).
Proof.
  unfold settled, init, updateVisibility. cbn.
  split; [lia|]. split; [split; discriminate | reflexivity].
Qed.

Lemma settled_step (st : state) (ev : event) :
  settled st -> settled (step st ev).
Proof.
  intros (Hp & Ht & Hs). destruct st as [y sh t p]. cbn in Hp, Ht, Hs.
  destruct ev as [y'|]; unfold step, settled.
  - unfold onScroll. cbn [ticking].
    destruct t; cbn [pending ticking shown scrollY].
    + assert (p = 1%nat) by (apply Ht; reflexivity). subst p.
      split; [lia|]. split; [tauto | discriminate].
    + assert (p = 0%nat).
      { destruct p as [|[|p]]; [reflexivity | | lia].
        destruct Ht as [_ Ht]. discriminate Ht. reflexivity. }
      subst p. split; [lia|]. split; [tauto | discriminate].
  - cbn [pending]. destruct p as [|p].
    + cbn [pending ticking shown scrollY]. tauto.
    + unfold frame, updateVisibility. cbn [pending ticking shown scrollY].
      split; [lia|]. split; [|reflexivity].
      split; [discriminate | lia].
Qed.

Lemma settled_run (events : list event) :
  forall st, settled st -> settled (run events st).
Proof.
  unfold run. induction events as [|ev events IH]; intros st H; [exact H|].
  cbn [fold_left]. apply IH, settled_step, H.
Qed.

(** X26. Whatever the sequence of scrolls and animation frames after
    [initFloatingAnchor], the script never has more than one animation
    frame requested, [ticking] tells whether one is, and whenever none is
    the button is shown exactly when the window is scrolled beyond 400;
    a frame leaves the button right for the position of the window. *)
Theorem floating_anchor_settles
    (y : number) (show : bool) (events : list event) :
  let st := run events (init y show) in
  (pending st <= 1)%nat
  /\ (ticking st = true <-> pending st = 1%nat)
  /\ (pending st = 0%nat ->
      shown st = JsNumber.gt (scrollY st) (JsNumber.of_Z 400))
  /\ shown (step st Frame)
     = JsNumber.gt (scrollY (step st Frame)) (JsNumber.of_Z 400)
  /\ pending (step st Frame) = 0%nat.
Proof.
  intros st.
  pose proof (settled_run events _ (settled_init y show)) as (Hp & Ht & Hs).
  fold st in Hp, Ht, Hs.
  split; [exact Hp|]. split; [exact Ht|]. split; [exact Hs|].
  unfold step. destruct (pending st) as [|p] eqn:Ep.
  - rewrite Ep. split; [apply Hs; reflexivity | reflexivity].
  - unfold frame, updateVisibility. cbn [shown scrollY pending].
    split; [reflexivity | lia].
Qed.

End FloatingAnchorProperties.

(** ** The end of a countdown *)

Section CountdownRestartProperties.
Import Countdown.

(** X27. When the time is up, [updateTimer] shows 00:00:00 and starts a new
    period of 24 hours, which it stores: a reload during that period finds
    the same end time, and the next runs of the timer within it show a
    time left of at most 24 hours and leave the end time and the store
    alone. *)
Theorem countdown_restarts
    (st : storage) (endTime now later now2 later2 : Z) :
  endTime <= now -> 0 <= now <= later ->
  later + COUNTDOWN_DURATION <= MAX_SAFE_INTEGER ->
  later <= now2 < later + COUNTDOWN_DURATION ->
  let newEndTime := later + COUNTDOWN_DURATION in
  let ls' := Some (<[ COUNTDOWN_KEY := Decimal.to_string newEndTime ]> st) in
  updateTimer endTime (Some st) now later
  = (newEndTime, ls',
     {| countHours := str "00"; countMinutes := str "00";
        countSeconds := str "00" |}, false)
  /\ getCountdownEndTime ls' now2 later2 = (newEndTime, ls')
  /\ fst (fst (updateTimer newEndTime ls' now2 later2)) = (newEndTime, ls')
  /\ 0 <= hours (newEndTime - now2) <= 24.
Proof.
  intros Hup Hnow Hmax Hnow2 newEndTime ls'.
  split; [|split; [|split]].
  - unfold updateTimer.
    destruct (Z.leb_spec (endTime - now) 0) as [_|H]; [reflexivity | lia].
  - destruct (parseInt_to_string newEndTime) as [Hne Hp].
    { unfold newEndTime, COUNTDOWN_DURATION. lia. }
    unfold ls', getCountdownEndTime. rewrite lookup_insert_eq.
    destruct (Decimal.to_string newEndTime) as [|c r] eqn:E; [congruence|].
    cbn [JsString.is_empty]. rewrite Hp.
    destruct (Z.ltb_spec now2 newEndTime) as [_|H];
      [reflexivity | unfold newEndTime in H; lia].
  - unfold updateTimer.
    destruct (Z.leb_spec (newEndTime - now2) 0) as [H|_];
      [unfold newEndTime in H; lia | reflexivity].
  - unfold hours, newEndTime, COUNTDOWN_DURATION in *.
    change (1000 * 60 * 60) with 3600000.
    change (24 * 60 * 60 * 1000) with 86400000 in *.
    split; [apply Z.div_pos; lia|].
    apply Z.div_le_upper_bound; lia.
Qed.

(** The offer ran out at noon; the page is looked at again an hour
    later. *)
Lemma countdown_restarts_witness :
  getCountdownEndTime
    (Some (<[ COUNTDOWN_KEY := Decimal.to_string (43200000 + COUNTDOWN_DURATION) ]> ∅))
    46800000 46800000
  = (129600000,
     Some (<[ COUNTDOWN_KEY := Decimal.to_string (43200000 + COUNTDOWN_DURATION) ]> ∅)).
Proof.
  pose proof (countdown_restarts ∅ 43200000 43200000 43200000
                46800000 46800000
                ltac:(lia) ltac:(lia) ltac:(vm_compute; discriminate)
                ltac:(unfold COUNTDOWN_DURATION; lia)) as H.
  cbv zeta in H. destruct H as (_ & H & _). exact H.
Defined.

End CountdownRestartProperties.
